(** * CacheCraft: the per-user query cache of [backend/app.py]

    A shallow embedding of the cache / prefetch engine served by
    [backend/app.py], and the properties its specification states.

    Modelling conventions.
    - A Python [str] is a [string]; a character is a code point below 256.
    - [int(time.time())] is an input [now : Z] of each handler.
    - A Python [float] that is a finite number is a rational [Q]; the
      comparisons of the program are the exact ones.
    - The per-user cache is a Python [dict] whose iteration order is
      observable (dashboard listing, CSV export): an association list with
      the insertion-order discipline of [dict].  The four module-level
      dictionaries keyed by user are [gmap string _].
    - A handler that can raise returns an [option]; [None] is the unhandled
      exception.
    - The background thread started by [search] is a separate transition,
      [predict_and_prefetch], taking the answer of the language model as
      input. *)

From Stdlib Require Import ZArith QArith Ascii String List Lia DecimalString.
From Stdlib Require Import DecimalPos DecimalZ.
From stdpp Require Import gmap strings list fin_maps.

Set Warnings "-register-all".

Open Scope string_scope.
Open Scope Z_scope.

(** ** Python strings *)

Module PyStr.

Definition code (c : ascii) : N := N_of_ascii c.

(** [str.isspace] on one code point below 256. *)
Definition isspace (c : ascii) : bool :=
  let n := code c in
  ((9 <=? n) && (n <=? 13) || (28 <=? n) && (n <=? 32)
   || (n =? 133) || (n =? 160))%N.

(** [str.lower] on one code point below 256. *)
Definition lower_char (c : ascii) : ascii :=
  let n := code c in
  if ((65 <=? n) && (n <=? 90)
      || (192 <=? n) && (n <=? 222) && negb (n =? 215))%N
  then ascii_of_N (n + 32) else c.

Fixpoint lstrip (s : string) : string :=
  match s with
  | EmptyString => EmptyString
  | String c s' => if isspace c then lstrip s' else s
  end.

Fixpoint rstrip (s : string) : string :=
  match s with
  | EmptyString => EmptyString
  | String c s' =>
      match rstrip s' with
      | EmptyString => if isspace c then EmptyString else String c EmptyString
      | r => String c r
      end
  end.

Definition strip (s : string) : string := rstrip (lstrip s).

Fixpoint lower (s : string) : string :=
  match s with
  | EmptyString => EmptyString
  | String c s' => String (lower_char c) (lower s')
  end.

(** [s.replace(old, new)] for one-character [old] and [new]. *)
Fixpoint replace_char (old new : ascii) (s : string) : string :=
  match s with
  | EmptyString => EmptyString
  | String c s' =>
      String (if Ascii.eqb c old then new else c) (replace_char old new s')
  end.

(** [str(n)] for an [int]. *)
Definition of_int (n : Z) : string := NilZero.string_of_int (Z.to_int n).

(** [s1 > s2] on [str]: lexicographic on code points. *)
Definition gtb (s1 s2 : string) : bool :=
  match String.compare s1 s2 with Gt => true | _ => false end.

End PyStr.

(** [normalize_query]: [query.strip().lower()]. *)
Definition normalize_query (query : string) : string :=
  PyStr.lower (PyStr.strip query).

(** ** [difflib]: the similarity ratio behind the fuzzy lookup

    [difflib.get_close_matches(word, possibilities, n=1, cutoff=0.85)] as
    CPython implements it: a [SequenceMatcher] without junk predicate and
    with [autojunk] on, [seq2] the word and [seq1] each possibility in turn.
    The ratio [2.0 * M / T] is kept as the exact rational: two ratios of
    strings are equal, or ordered, or on one side of the cutoff, as floats
    exactly when they are as rationals. *)

Module Difflib.

Section Matcher.

Variables a b : list ascii.

Definition count_occ_b (c : ascii) : nat :=
  List.length (List.filter (Ascii.eqb c) b).

(** [autojunk]: in a [seq2] of 200 elements or more, an element occurring
    more than [n // 100 + 1] times is dropped from the index [b2j]. *)
Definition popular (c : ascii) : bool :=
  let n := List.length b in
  ((200 <=? n) && (n / 100 + 1 <? count_occ_b c))%nat.

Fixpoint indices (c : ascii) (l : list ascii) (j : nat) : list nat :=
  match l with
  | [] => []
  | x :: l' =>
      if Ascii.eqb c x then j :: indices c l' (S j) else indices c l' (S j)
  end.

Definition b2j (c : ascii) : list nat :=
  if popular c then [] else indices c b 0.

Definition j2len_get (j2len : list (nat * nat)) (j : nat) : nat :=
  match List.find (fun p => Nat.eqb (fst p) j) j2len with
  | Some p => snd p
  | None => 0%nat
  end.

(** The best block so far: [(besti, bestj, bestsize)]. *)
Definition block : Type := (nat * nat * nat)%type.

(** The inner loop [for j in b2j.get(a[i], nothing)]. *)
Fixpoint scan_j (blo bhi i : nat) (j2len : list (nat * nat))
    (js : list nat) (newj2len : list (nat * nat)) (best : block)
    : list (nat * nat) * block :=
  match js with
  | [] => (newj2len, best)
  | j :: js' =>
      if (j <? blo)%nat then scan_j blo bhi i j2len js' newj2len best
      else if (bhi <=? j)%nat then (newj2len, best)
      else
        let k := S (match j with O => O | S j' => j2len_get j2len j' end) in
        let '(_, _, bestsize) := best in
        let best' :=
          if (bestsize <? k)%nat then ((S i - k)%nat, (S j - k)%nat, k)
          else best in
        scan_j blo bhi i j2len js' ((j, k) :: newj2len) best'
  end.

(** The outer loop [for i in range(alo, ahi)], [n] iterations from [i]. *)
Fixpoint scan_i (blo bhi : nat) (n i : nat) (j2len : list (nat * nat))
    (best : block) : block :=
  match n with
  | O => best
  | S n' =>
      let c := List.nth i a Ascii.zero in
      let '(newj2len, best') := scan_j blo bhi i j2len (b2j c) [] best in
      scan_i blo bhi n' (S i) newj2len best'
  end.

(** The first two [while] loops after the scan: the block grows over equal
    elements on both sides (the junk set is empty, so the two loops over
    junk never run). *)
Fixpoint extend_left (alo blo : nat) (fuel : nat) (best : block) : block :=
  match fuel with
  | O => best
  | S fuel' =>
      let '(besti, bestj, bestsize) := best in
      if ((alo <? besti) && (blo <? bestj))%nat
         && Ascii.eqb (List.nth (besti - 1) a Ascii.zero)
                      (List.nth (bestj - 1) b Ascii.zero)
      then extend_left alo blo fuel'
             ((besti - 1)%nat, (bestj - 1)%nat, S bestsize)
      else best
  end.

Fixpoint extend_right (ahi bhi : nat) (fuel : nat) (best : block) : block :=
  match fuel with
  | O => best
  | S fuel' =>
      let '(besti, bestj, bestsize) := best in
      if ((besti + bestsize <? ahi) && (bestj + bestsize <? bhi))%nat
         && Ascii.eqb (List.nth (besti + bestsize) a Ascii.zero)
                      (List.nth (bestj + bestsize) b Ascii.zero)
      then extend_right ahi bhi fuel' (besti, bestj, S bestsize)
      else best
  end.

Definition find_longest_match (alo ahi blo bhi : nat) : block :=
  let best := scan_i blo bhi (ahi - alo) alo [] (alo, blo, O) in
  let best := extend_left alo blo (List.length a) best in
  extend_right ahi bhi (List.length a) best.

(** The sum of the sizes of [get_matching_blocks()]: the longest block,
    then the same to its left and to its right. *)
Fixpoint matches (fuel : nat) (alo ahi blo bhi : nat) : nat :=
  match fuel with
  | O => O
  | S fuel' =>
      let '(i, j, k) := find_longest_match alo ahi blo bhi in
      match k with
      | O => O
      | _ =>
          (k
           + (if (alo <? i) && (blo <? j)
              then matches fuel' alo i blo j else 0)
           + (if (i + k <? ahi) && (j + k <? bhi)
              then matches fuel' (i + k) ahi (j + k) bhi else 0))%nat
      end
  end.

Definition calculate_ratio (m len : nat) : Q :=
  match len with
  | O => 1%Q
  | _ => Qmake (2 * Z.of_nat m) (Pos.of_nat len)
  end.

Definition ratio : Q :=
  calculate_ratio
    (matches (S (List.length a)) 0 (List.length a) 0 (List.length b))
    (List.length a + List.length b).

(** [quick_ratio]: the size of the multiset intersection. *)
Fixpoint quick_matches (l : list ascii) (avail : list (ascii * Z)) : nat :=
  match l with
  | [] => O
  | elt :: l' =>
      let numb :=
        match List.find (fun p => Ascii.eqb (fst p) elt) avail with
        | Some p => snd p
        | None => Z.of_nat (count_occ_b elt)
        end in
      ((if (0 <? numb)%Z then 1 else 0)
       + quick_matches l' ((elt, (numb - 1)%Z) :: avail))%nat
  end.

Definition quick_ratio : Q :=
  calculate_ratio (quick_matches a []) (List.length a + List.length b).

Definition real_quick_ratio : Q :=
  calculate_ratio (Nat.min (List.length a) (List.length b))
    (List.length a + List.length b).

End Matcher.

Definition qge (x y : Q) : bool := Qle_bool y x.
Definition qgt (x y : Q) : bool := negb (Qle_bool x y).

(** The score of possibility [x] against [word], when it passes the cutoff. *)
Definition score (cutoff : Q) (word x : string) : option Q :=
  let a := list_ascii_of_string x in
  let b := list_ascii_of_string word in
  if qge (real_quick_ratio a b) cutoff && qge (quick_ratio a b) cutoff
     && qge (ratio a b) cutoff
  then Some (ratio a b) else None.

(** The order of the pairs [(score, x)]. *)
Definition pair_gtb (p1 p2 : Q * string) : bool :=
  qgt (fst p1) (fst p2)
  || Qeq_bool (fst p1) (fst p2) && PyStr.gtb (snd p1) (snd p2).

(** [max] over the scored possibilities: the first greatest pair. *)
Fixpoint largest (cutoff : Q) (word : string) (possibilities : list string)
    (best : option (Q * string)) : option (Q * string) :=
  match possibilities with
  | [] => best
  | x :: rest =>
      match score cutoff word x with
      | None => largest cutoff word rest best
      | Some r =>
          match best with
          | None => largest cutoff word rest (Some (r, x))
          | Some p =>
              largest cutoff word rest
                (if pair_gtb (r, x) p then Some (r, x) else best)
          end
      end
  end.

(** [get_close_matches(word, possibilities, n=1, cutoff)]. *)
Definition get_close_matches (word : string) (possibilities : list string)
    (cutoff : Q) : list string :=
  match largest cutoff word possibilities None with
  | Some (_, x) => [x]
  | None => []
  end.

End Difflib.

(** ** Values decoded from JSON

    What [json.loads] and [request.json()] build: [int] and [float] are
    kept apart, as [isinstance(conf, float)] tells them apart.  A [dict] is
    the list of its items.  The floats [nan] and [inf] are not
    represented. *)

Inductive json : Type :=
| JNull
| JBool (b : bool)
| JInt (z : Z)
| JFloat (q : Q)
| JStr (s : string)
| JArr (l : list json)
| JObj (items : list (string * json)).

(** ** Python [dict] with string keys, in insertion order *)

Section Dict.

Context {V : Type}.

Fixpoint dict_get (k : string) (d : list (string * V)) : option V :=
  match d with
  | [] => None
  | (k', v) :: d' => if String.eqb k k' then Some v else dict_get k d'
  end.

(** [d[k] = v]: an existing key keeps its position, a new one goes last. *)
Fixpoint dict_set (k : string) (v : V) (d : list (string * V))
    : list (string * V) :=
  match d with
  | [] => [(k, v)]
  | (k', v') :: d' =>
      if String.eqb k k' then (k', v) :: d' else (k', v') :: dict_set k v d'
  end.

Definition dict_keys (d : list (string * V)) : list string := map fst d.

End Dict.

(** ** Module-level constants *)

Definition CACHE_EXPIRY_SECONDS : Z := 300.
Definition N_HISTORY : nat := 3.
Definition SIM_BACKEND_LATENCY : Z := 500.
Definition SIM_CACHE_LATENCY : Z := 30.
Definition FUZZY_CUTOFF : Q := 85 # 100.
Definition DEFAULT_THRESHOLD : Q := 6 # 10.

(** ** Data model *)

(** A cache entry: the dict stored at [cache[key]].  [LLM_Confidence] is
    present on prefetched entries only. *)
Record entry : Type := Entry {
  result : string;
  timestamp : Z;
  expiry : Z;
  source : string;
  LLM_Confidence : option json
}.

(** A record of the hit log: [{"query", "source", "time"}]. *)
Record hit : Type := Hit {
  hit_query : string;
  hit_source : string;
  hit_time : Z
}.

Record analytics : Type := Analytics {
  api_calls_saved : Z;
  total_backend_calls : Z;
  total_cache_hits : Z
}.

Abbreviation cache := (list (string * entry)).

(** The mutable globals of the module. *)
Record state : Type := State {
  USER_CACHE : gmap string cache;
  USER_HIT_LOG : gmap string (list hit);
  USER_PREDICTIONS : gmap string (list json);
  USER_ANALYTICS : gmap string analytics;
  PREFETCH_CONFIDENCE_THRESHOLD : Q
}.

(** The state of a freshly started process. *)
Definition init_state : state :=
  State ∅ ∅ ∅ ∅ DEFAULT_THRESHOLD.

(** [(now - e["timestamp"]) < CACHE_EXPIRY_SECONDS]. *)
Definition fresh (now : Z) (e : entry) : bool :=
  now - timestamp e <? CACHE_EXPIRY_SECONDS.

(** ** [get_user_data] *)

(** The four assignments under [if user not in USER_CACHE]. *)
Definition create_user (st : state) (user : string) : state :=
  match USER_CACHE st !! user with
  | Some _ => st
  | None =>
      State (<[user := []]> (USER_CACHE st))
            (<[user := []]> (USER_HIT_LOG st))
            (<[user := []]> (USER_PREDICTIONS st))
            (<[user := Analytics 0 0 0]> (USER_ANALYTICS st))
            (PREFETCH_CONFIDENCE_THRESHOLD st)
  end.

(** The user's four objects; [None] is the [KeyError] of a subscript. *)
Definition get_user_data (st : state) (user : string)
    : option (state * (cache * list hit * list json * analytics)) :=
  let st1 := create_user st user in
  match USER_CACHE st1 !! user, USER_HIT_LOG st1 !! user,
        USER_PREDICTIONS st1 !! user, USER_ANALYTICS st1 !! user with
  | Some c, Some h, Some p, Some a => Some (st1, (c, h, p, a))
  | _, _, _, _ => None
  end.

(** ** The prediction client: [get_predictions_from_llm] *)

(** What the HTTP exchange with the model yields.  [LLMError]: an exception
    before the text is searched (in [requests.post], [raise_for_status],
    [resp.json()], the subscripts of the body, or a content that is not a
    string).  [LLMContent]: the text of the first choice. *)
Inductive llm_reply : Type :=
| LLMError
| LLMContent (content : string).

(** [re.search(r'\[.*?\]', content, re.DOTALL)]: from the first ['['] to
    the first [']'] after it. *)
Fixpoint upto_close (s : string) : option string :=
  match s with
  | EmptyString => None
  | String c s' =>
      if Ascii.eqb c "]"%char then Some (String c EmptyString)
      else option_map (String c) (upto_close s')
  end.

Fixpoint search_array (content : string) : option string :=
  match content with
  | EmptyString => None
  | String c s' =>
      if Ascii.eqb c "["%char then option_map (String c) (upto_close s')
      else search_array s'
  end.

Definition double_quote : ascii := "034"%char.
Definition single_quote : ascii := "039"%char.

Section PredictionClient.

(** [json.loads] on a text that starts with ['[']: the decoded array, or
    [None] when it raises. *)
Variable pyjson_loads : string -> option (list json).

Definition get_predictions_from_llm (reply : llm_reply) : list json :=
  match reply with
  | LLMError => []
  | LLMContent content =>
      match search_array content with
      | Some json_str =>
          match pyjson_loads
                  (PyStr.replace_char single_quote double_quote json_str) with
          | Some predictions => predictions
          | None => []
          end
      | None => []
      end
  end.

End PredictionClient.

(** ** [prefetch_predictions] *)

(** The number a value stands for in [conf < PREFETCH_CONFIDENCE_THRESHOLD];
    [None] where the comparison raises [TypeError]. *)
Definition as_number (v : json) : option Q :=
  match v with
  | JInt z => Some (inject_Z z)
  | JFloat q => Some q
  | JBool b => Some (if b then 1%Q else 0%Q)
  | _ => None
  end.

Definition qlt (x y : Q) : bool := negb (Qle_bool y x).

Definition predicted_entry (now : Z) (query : string) (conf : json) : entry :=
  Entry ("Predicted backend result for " +:+ query) now CACHE_EXPIRY_SECONDS
        "predicted" (Some conf).

(** One iteration of the loop body; [None] when it raises. *)
Definition prefetch_one (threshold : Q) (now : Z) (c : cache) (pred : json)
    : option cache :=
  match pred with
  | JObj items =>
      match dict_get "query" items with
      | Some (JStr query) =>
          let q := normalize_query query in
          let conf := default (JFloat 1) (dict_get "confidence" items) in
          match as_number conf with
          | None => None
          | Some x =>
              if qlt x threshold then Some c
              else
                match dict_get q c with
                | Some e =>
                    if fresh now e then Some c
                    else Some (dict_set q (predicted_entry now query conf) c)
                | None => Some (dict_set q (predicted_entry now query conf) c)
                end
          end
      | _ => None
      end
  | _ => None
  end.

(** The loop: the cache after it, and whether an iteration raised (the
    writes made before the exception stay). *)
Fixpoint prefetch_predictions (threshold : Q) (now : Z)
    (predictions : list json) (c : cache) : cache * bool :=
  match predictions with
  | [] => (c, false)
  | pred :: rest =>
      match prefetch_one threshold now c pred with
      | Some c' => prefetch_predictions threshold now rest c'
      | None => (c, true)
      end
  end.

(** ** [search] *)

(** Lines 120-129: the exact entry, else the entry of the closest key.
    Gives [(cache_entry, fuzzy_used, fuzzy_key)].  The subscript
    [cache[fuzzy_key]] cannot fail: the key comes from [cache.keys()]
    (lemma [close_match_is_key]). *)
Definition find_entry (c : cache) (norm_query : string)
    : option entry * bool * option string :=
  match dict_get norm_query c with
  | Some e => (Some e, false, None)
  | None =>
      match Difflib.get_close_matches norm_query (dict_keys c) FUZZY_CUTOFF with
      | fuzzy_key :: _ => (dict_get fuzzy_key c, true, Some fuzzy_key)
      | [] => (None, false, None)
      end
  end.

Definition count_hit (a : analytics) : analytics :=
  Analytics (api_calls_saved a + 1) (total_backend_calls a)
            (total_cache_hits a + 1).

Definition count_miss (a : analytics) : analytics :=
  Analytics (api_calls_saved a) (total_backend_calls a + 1)
            (total_cache_hits a).

Definition backend_entry (now : Z) (res : string) : entry :=
  Entry res now CACHE_EXPIRY_SECONDS "backend" None.

(** Lines 130-159: gives the cache, the counters, [result] and [source]. *)
Definition resolve (now : Z) (query : string) (c : cache) (a : analytics)
    : cache * analytics * string * string :=
  let norm_query := normalize_query query in
  let '(cache_entry, fuzzy_used, _) := find_entry c norm_query in
  let miss :=
    let res := "Backend result for " +:+ query in
    (dict_set norm_query (backend_entry now res) c, count_miss a,
     res, "backend") in
  match cache_entry with
  | Some e =>
      if fresh now e then
        if fuzzy_used then (c, count_hit a, result e, "fuzzy_cache")
        else if String.eqb (source e) "backend"
             then (c, count_hit a, result e, "cache")
             else (c, count_hit a, result e, source e)
      else miss
  | None => miss
  end.

(** Lines 160-162: [append], then [pop(0)] when there are more than 10. *)
Definition record_hit (hit_log : list hit) (h : hit) : list hit :=
  let l := (hit_log ++ [h])%list in
  if (10 <? length l)%nat then tail l else l.

(** [l[-n:]] for [n > 0]. *)
Definition last_n {A : Type} (n : nat) (l : list A) : list A :=
  drop (length l - n) l.

(** What [search] hands back: the JSON body, and the [history] captured by
    the thread it starts. *)
Record search_out : Type := SearchOut {
  out_result : string;
  out_source : string;
  out_history : list string
}.

Definition search (st : state) (now : Z) (query user : string)
    : option (state * search_out) :=
  match get_user_data st user with
  | None => None
  | Some (st1, (c, hit_log, _, a)) =>
      let '(c', a', res, src) := resolve now query c a in
      let hit_log' := record_hit hit_log (Hit query src now) in
      let history := map hit_query (last_n N_HISTORY hit_log') in
      Some (State (<[user := c']> (USER_CACHE st1))
                  (<[user := hit_log']> (USER_HIT_LOG st1))
                  (USER_PREDICTIONS st1)
                  (<[user := a']> (USER_ANALYTICS st1))
                  (PREFETCH_CONFIDENCE_THRESHOLD st1),
            SearchOut res src history)
  end.

(** The body of the thread, run at time [now] on the list [preds] that
    [get_predictions_from_llm] returned.  It works on the cache object that
    [search] took from [get_user_data]; without that object no thread
    exists ([None]).  An exception of the loop ends the thread and nothing
    else. *)
Definition predict_and_prefetch (st : state) (now : Z) (user : string)
    (preds : list json) : option state :=
  match USER_CACHE st !! user with
  | None => None
  | Some c =>
      let c' :=
        fst (prefetch_predictions (PREFETCH_CONFIDENCE_THRESHOLD st)
               now preds c) in
      Some (State (<[user := c']> (USER_CACHE st))
                  (USER_HIT_LOG st)
                  (<[user := preds]> (USER_PREDICTIONS st))
                  (USER_ANALYTICS st)
                  (PREFETCH_CONFIDENCE_THRESHOLD st))
  end.

(** A request to [/search] together with the thread it starts, the thread
    running at time [now'] on the reply [reply] of the model. *)
Definition search_with_thread (pyjson_loads : string -> option (list json))
    (st : state) (now : Z) (query user : string) (now' : Z)
    (reply : llm_reply) : option (state * search_out) :=
  match search st now query user with
  | None => None
  | Some (st1, out) =>
      let preds := get_predictions_from_llm pyjson_loads reply in
      Some (default st1 (predict_and_prefetch st1 now' user preds), out)
  end.

(** ** [dashboard] *)

Record dashboard_out : Type := DashboardOut {
  dash_cache : list (string * string * Z);
  dash_last_10_hits : list hit;
  dash_miss_rate : Q;
  dash_predictions : list json;
  dash_api_calls_saved : Z;
  dash_total_backend_calls : Z;
  dash_total_cache_hits : Z;
  dash_avg_latency_saved : Q
}.

Fixpoint cache_list (now : Z) (c : cache) : list (string * string * Z) :=
  match c with
  | [] => []
  | (q, e) :: c' =>
      let expires_in := expiry e - (now - timestamp e) in
      if 0 <? expires_in then (q, source e, expires_in) :: cache_list now c'
      else cache_list now c'
  end.

Definition is_miss (h : hit) : bool := String.eqb (hit_source h) "backend".

Definition is_hit (h : hit) : bool :=
  String.eqb (hit_source h) "cache"
  || String.eqb (hit_source h) "predicted"
  || String.eqb (hit_source h) "fuzzy_cache".

Definition miss_count (hit_log : list hit) : Z :=
  Z.of_nat (length (filter is_miss hit_log)).

Definition hit_count (hit_log : list hit) : Z :=
  Z.of_nat (length (filter is_hit hit_log)).

Definition miss_rate (hit_log : list hit) : Q :=
  let m := miss_count hit_log in
  let h := hit_count hit_log in
  if 0 <? m + h then (inject_Z m / inject_Z (m + h))%Q else 0%Q.

Definition avg_latency_saved (a : analytics) : Q :=
  let total_calls := total_backend_calls a + total_cache_hits a in
  if 0 <? total_calls
  then (inject_Z (api_calls_saved a
                  * (SIM_BACKEND_LATENCY - SIM_CACHE_LATENCY))
        / inject_Z total_calls)%Q
  else 0%Q.

Definition dashboard (st : state) (now : Z) (user : string)
    : option (state * dashboard_out) :=
  match get_user_data st user with
  | None => None
  | Some (st1, (c, hit_log, predictions, a)) =>
      Some (st1,
            DashboardOut (cache_list now c) hit_log (miss_rate hit_log)
              predictions (api_calls_saved a) (total_backend_calls a)
              (total_cache_hits a) (avg_latency_saved a))
  end.

(** ** [get_predictions] *)

Definition get_predictions (st : state) (user : string)
    : option (state * list json) :=
  match get_user_data st user with
  | None => None
  | Some (st1, (_, _, predictions, _)) => Some (st1, predictions)
  end.

(** ** [set_confidence] *)

Inductive confidence_out : Type :=
| ConfidenceOk (conf : Q)     (* {"success": true, "confidence": conf} *)
| ConfidenceInvalid.          (* status 400, {"success": false, ...} *)

(** [data] is the decoded request body.  [None]: [data.get] raises, the body
    is not an object. *)
Definition set_confidence (st : state) (data : json)
    : option (state * confidence_out) :=
  match data with
  | JObj items =>
      match dict_get "confidence" items with
      | Some (JFloat conf) =>
          if Qle_bool 0 conf && Qle_bool conf 1
          then Some (State (USER_CACHE st) (USER_HIT_LOG st)
                           (USER_PREDICTIONS st) (USER_ANALYTICS st) conf,
                     ConfidenceOk conf)
          else Some (st, ConfidenceInvalid)
      | _ => Some (st, ConfidenceInvalid)
      end
  | _ => None
  end.

(** ** [refresh] *)

Definition refresh (st : state) (now : Z) (query user : string)
    : option (state * string) :=
  match get_user_data st user with
  | None => None
  | Some (st1, (c, _, _, _)) =>
      let norm_query := normalize_query query in
      let res := "Backend result for " +:+ query +:+ " (refreshed)" in
      Some (State (<[user := dict_set norm_query (backend_entry now res) c]>
                     (USER_CACHE st1))
                  (USER_HIT_LOG st1) (USER_PREDICTIONS st1)
                  (USER_ANALYTICS st1) (PREFETCH_CONFIDENCE_THRESHOLD st1),
            res)
  end.

(** ** [export_dashboard] *)

(** A cell handed to [csv.writer.writerow]. *)
Inductive cell : Type :=
| CStr (s : string)
| CInt (n : Z).

Definition csv_header : list cell :=
  [CStr "query"; CStr "source"; CStr "timestamp"; CStr "expiry"].

Definition csv_row (item : string * entry) : list cell :=
  let '(q, e) := item in
  [CStr q; CStr (source e); CInt (timestamp e); CInt (expiry e)].

(** The rows written by [generate]: the header, then one per cache item. *)
Definition csv_rows (c : cache) : list (list cell) :=
  csv_header :: map csv_row c.

(** The [excel] dialect with [QUOTE_MINIMAL]: a field holding the delimiter,
    the quote character, CR or LF is quoted, its quotes doubled. *)
Definition needs_quote (ch : ascii) : bool :=
  Ascii.eqb ch ","%char || Ascii.eqb ch double_quote
  || Ascii.eqb ch "013"%char || Ascii.eqb ch "010"%char.

Fixpoint any_char (p : ascii -> bool) (s : string) : bool :=
  match s with
  | EmptyString => false
  | String ch s' => p ch || any_char p s'
  end.

Fixpoint double_quotes (s : string) : string :=
  match s with
  | EmptyString => EmptyString
  | String ch s' =>
      if Ascii.eqb ch double_quote
      then String ch (String ch (double_quotes s'))
      else String ch (double_quotes s')
  end.

Definition csv_field (x : cell) : string :=
  match x with
  | CInt n => PyStr.of_int n
  | CStr s =>
      if any_char needs_quote s
      then String double_quote (double_quotes s)
             +:+ String double_quote EmptyString
      else s
  end.

(** The line terminator of the dialect, CR LF. *)
Definition crlf : string :=
  String "013"%char (String "010"%char EmptyString).

Definition csv_line (row : list cell) : string :=
  String.concat "," (map csv_field row) +:+ crlf.

Definition csv_text (rows : list (list cell)) : string :=
  String.concat "" (map csv_line rows).

Inductive export_out : Type :=
| ExportCsv (body : string)
| ExportData (c : cache) (last_10_hits : list hit) (predictions : list json).

Definition export_dashboard (st : state) (format user : string)
    : option (state * export_out) :=
  match get_user_data st user with
  | None => None
  | Some (st1, (c, hit_log, predictions, _)) =>
      if String.eqb format "csv"
      then Some (st1, ExportCsv (csv_text (csv_rows c)))
      else Some (st1, ExportData c hit_log predictions)
  end.

(** ** Runs of the server *)

Inductive op : Type :=
| OpSearch (now : Z) (query user : string)
| OpThread (now : Z) (user : string) (preds : list json)
| OpDashboard (now : Z) (user : string)
| OpPredict (user : string)
| OpSetConfidence (data : json)
| OpRefresh (now : Z) (query user : string)
| OpExport (format user : string).

(** The state after one request or one thread.  No handler that takes a
    user raises in a state the server reaches (lemmas [run_ok] and
    [get_user_data_default]); where the model gives [None] the state is
    kept. *)
Definition step (st : state) (o : op) : state :=
  match o with
  | OpSearch now query user => from_option fst st (search st now query user)
  | OpThread now user preds =>
      default st (predict_and_prefetch st now user preds)
  | OpDashboard now user => from_option fst st (dashboard st now user)
  | OpPredict user => from_option fst st (get_predictions st user)
  | OpSetConfidence data => from_option fst st (set_confidence st data)
  | OpRefresh now query user => from_option fst st (refresh st now query user)
  | OpExport format user => from_option fst st (export_dashboard st format user)
  end.

Definition run (st : state) (ops : list op) : state := fold_left step ops st.

(** The record that one transition appends to the hit log of [user]: one
    for a search of that user, none otherwise. *)
Definition step_hits (st : state) (o : op) (user : string) : list hit :=
  match o with
  | OpSearch now query u =>
      if String.eqb u user then
        match search st now query u with
        | Some (_, out) => [Hit query (out_source out) now]
        | None => []
        end
      else []
  | _ => []
  end.

(** The records appended to the hit log of [user] along a run from [st]. *)
Fixpoint search_hits (st : state) (ops : list op) (user : string)
    : list hit :=
  match ops with
  | [] => []
  | o :: ops' => (step_hits st o user ++ search_hits (step st o) ops' user)%list
  end.

(** A search of [user] at time [now] for [query]. *)
Definition search_op (user : string) (input : Z * string) : op :=
  OpSearch (fst input) (snd input) user.

(** ** Invariants of the globals *)

(** The four dictionaries know the same users. *)
Definition same_users (st : state) : Prop :=
  dom (USER_HIT_LOG st) = dom (USER_CACHE st)
  ∧ dom (USER_PREDICTIONS st) = dom (USER_CACHE st)
  ∧ dom (USER_ANALYTICS st) = dom (USER_CACHE st).

(** Every entry carries the global time to live and one of the two sources
    the program writes. *)
Definition entry_ok (e : entry) : Prop :=
  expiry e = CACHE_EXPIRY_SECONDS
  ∧ (source e = "backend" ∨ source e = "predicted").

Definition cache_ok (c : cache) : Prop :=
  NoDup (dict_keys c) ∧ Forall (fun item => entry_ok (snd item)) c.

Definition hit_ok (h : hit) : Prop :=
  hit_source h = "backend" ∨ hit_source h = "cache"
  ∨ hit_source h = "predicted" ∨ hit_source h = "fuzzy_cache".

Definition log_ok (l : list hit) : Prop :=
  (length l <= 10)%nat ∧ Forall hit_ok l.

Definition state_ok (st : state) : Prop :=
  same_users st
  ∧ (∀ user c, USER_CACHE st !! user = Some c → cache_ok c)
  ∧ (∀ user l, USER_HIT_LOG st !! user = Some l → log_ok l).

(** An entry is live when [now - createdAt < ttlSeconds], with the entry's
    own time to live. *)
Definition live (now : Z) (e : entry) : Prop :=
  now - timestamp e < expiry e.

(** The lookup the specification words: an exact live entry, else the
    closest key among the live ones. *)
Definition live_keys (now : Z) (c : cache) : list string :=
  dict_keys (filter (fun item => fresh now (snd item)) c).

Definition spec_lookup (now : Z) (c : cache) (key : string)
    : option (entry * bool) :=
  match dict_get key c with
  | Some e => if fresh now e then Some (e, false) else None
  | None =>
      match Difflib.get_close_matches key (live_keys now c) FUZZY_CUTOFF with
      | k :: _ => option_map (fun e => (e, true)) (dict_get k c)
      | [] => None
      end
  end.

(** The [source] that [search] reports on a hit. *)
Definition hit_source_of (fuzzy : bool) (e : entry) : string :=
  if fuzzy then "fuzzy_cache"
  else if String.eqb (source e) "backend" then "cache" else source e.

(** ** Sample runs *)

(** One search by [guest], at time 1000. *)
Definition delhi_ops : list op := [OpSearch 1000 "Weather in Delhi" "guest"].

Definition delhi_entry : entry :=
  backend_entry 1000 "Backend result for Weather in Delhi".

Definition delhi_cache : cache := [("weather in delhi", delhi_entry)].

(** Two searches, at times 0 and 900: at time 1000 the first entry is
    expired and the second is live. *)
Definition stale_ops : list op :=
  [OpSearch 0 "weather in delhi" "guest";
   OpSearch 900 "weathr in delhy" "guest"].

Definition stale_entry : entry :=
  backend_entry 0 "Backend result for weather in delhi".

Definition live_entry : entry :=
  backend_entry 900 "Backend result for weathr in delhy".

Definition stale_cache : cache :=
  [("weather in delhi", stale_entry); ("weathr in delhy", live_entry)].

(** A candidate as the model is asked to write it, and the fifteen searches
    [q1] .. [q15] at times 1 .. 15. *)
Definition gurgaon_items : list (string * json) :=
  [("query", JStr "Weather in Gurgaon"); ("confidence", JFloat (83 # 100))].

Definition gurgaon_entry : entry :=
  Entry "Predicted backend result for Weather in Gurgaon" 1000
    CACHE_EXPIRY_SECONDS "predicted" (Some (JFloat (83 # 100))).

Definition fifteen_inputs : list (Z * string) :=
  map (fun n => (Z.of_nat n, "q" +:+ PyStr.of_int (Z.of_nat n))) (seq 1 15).

(** A decoded array whose first element has no [query] field, and its
    second element alone. *)
Definition no_query_pred : json := JObj [("confidence", JFloat (9 # 10))].

Definition stock_pred : json :=
  JObj [("query", JStr "Stock Price"); ("confidence", JFloat (9 # 10))].

Definition stock_entry : entry :=
  Entry "Predicted backend result for Stock Price" 50 CACHE_EXPIRY_SECONDS
    "predicted" (Some (JFloat (9 # 10))).

(** A decoder that knows one text. *)
Definition toy_loads (s : string) : option (list json) :=
  if String.eqb s "[]" then Some [] else None.

(** ** Notions used by the further properties *)

(** The user a transition works for; [set_confidence] works for none. *)
Definition op_user (o : op) : option string :=
  match o with
  | OpSearch _ _ u | OpThread _ u _ | OpDashboard _ u | OpPredict u
  | OpRefresh _ _ u | OpExport _ u => Some u
  | OpSetConfidence _ => None
  end.

(** The counters [a] after the lookups recorded in [hits]. *)
Definition tally (a : analytics) (hits : list hit) : analytics :=
  Analytics (api_calls_saved a + hit_count hits)
            (total_backend_calls a + miss_count hits)
            (total_cache_hits a + hit_count hits).

(** Every entry of [c] that is live at [now] is still in [c']. *)
Definition keeps_live (now : Z) (c c' : cache) : Prop :=
  ∀ k e, dict_get k c = Some e → fresh now e = true → dict_get k c' = Some e.

(** Every cache of the state satisfies [P]. *)
Definition caches_all (P : cache → Prop) (st : state) : Prop :=
  ∀ user c, USER_CACHE st !! user = Some c → P c.

(** The keys of [c] are normalized queries. *)
Definition keys_normal (c : cache) : Prop :=
  Forall (fun k => normalize_query k = k) (dict_keys c).

(** A state with two users, and a reply of the model with three
    candidates. *)
Definition two_users_ops : list op :=
  [OpSearch 1000 "Weather in Delhi" "guest"; OpSearch 1001 "News" "bob"].

Definition three_preds : list json :=
  [JObj [("query", JStr "Weather in Gurgaon"); ("confidence", JFloat (83 # 100))];
   JObj [("query", JStr "weather in delhi"); ("confidence", JFloat (9 # 10))];
   JObj [("query", JStr "Cricket score"); ("confidence", JFloat (3 # 10))]].

(** ** Reading the CSV text back

    A reader for the text that [csv.writer] produces in the [excel]
    dialect, used to state what the exported text holds: fields are
    separated by commas, records end with CR LF, a field that begins with a
    quote runs to the closing quote with doubled quotes standing for one.
    The reader is strict: a quote or a bare LF inside an unquoted field, or
    anything but a separator after a closing quote, is refused. *)

Inductive csv_mode : Type :=
| FieldStart   (* before the first character of a field *)
| Plain        (* inside an unquoted field *)
| Quoted       (* inside a quoted field *)
| QuoteEnd     (* after a quote met inside a quoted field *)
| WantLF.      (* after the CR that ends a record *)

Definition CR : ascii := "013"%char.
Definition LF : ascii := "010"%char.

(** [field] is the text of the current field, [row] the fields of the
    current record, [rows] the finished records. *)
Fixpoint csv_read (m : csv_mode) (field : string) (row : list string)
    (rows : list (list string)) (s : string) : option (list (list string)) :=
  match s with
  | EmptyString =>
      match m, row with
      | FieldStart, [] => Some rows
      | _, _ => None
      end
  | String ch s' =>
      match m with
      | FieldStart =>
          if Ascii.eqb ch double_quote then csv_read Quoted "" row rows s'
          else if Ascii.eqb ch ","%char
          then csv_read FieldStart "" (row ++ [""])%list rows s'
          else if Ascii.eqb ch CR
          then csv_read WantLF "" [] (rows ++ [(row ++ [""])%list])%list s'
          else if Ascii.eqb ch LF then None
          else csv_read Plain (String ch "") row rows s'
      | Plain =>
          if Ascii.eqb ch ","%char
          then csv_read FieldStart "" (row ++ [field])%list rows s'
          else if Ascii.eqb ch CR
          then csv_read WantLF "" [] (rows ++ [(row ++ [field])%list])%list s'
          else if Ascii.eqb ch LF || Ascii.eqb ch double_quote then None
          else csv_read Plain (field +:+ String ch "") row rows s'
      | Quoted =>
          if Ascii.eqb ch double_quote then csv_read QuoteEnd field row rows s'
          else csv_read Quoted (field +:+ String ch "") row rows s'
      | QuoteEnd =>
          if Ascii.eqb ch double_quote
          then csv_read Quoted (field +:+ String ch "") row rows s'
          else if Ascii.eqb ch ","%char
          then csv_read FieldStart "" (row ++ [field])%list rows s'
          else if Ascii.eqb ch CR
          then csv_read WantLF "" [] (rows ++ [(row ++ [field])%list])%list s'
          else None
      | WantLF =>
          if Ascii.eqb ch LF then csv_read FieldStart "" [] rows s' else None
      end
  end.

(** The records of a CSV text, each the list of its fields. *)
Definition csv_parse (body : string) : option (list (list string)) :=
  csv_read FieldStart "" [] [] body.

(** The text of a cell: a string as it is, an integer in decimal. *)
Definition cell_text (x : cell) : string :=
  match x with
  | CStr s => s
  | CInt n => PyStr.of_int n
  end.

(** [int(s)] for a decimal text. *)
Definition int_of_text (s : string) : option Z :=
  option_map Z.of_int (NilZero.int_of_string s).

(** A record of the export read back as [(query, source, timestamp,
    expiry)]. *)
Definition decode_row (fields : list string)
    : option (string * string * Z * Z) :=
  match fields with
  | [q; src; ts; ttl] =>
      match int_of_text ts, int_of_text ttl with
      | Some t, Some x => Some (q, src, t, x)
      | _, _ => None
      end
  | _ => None
  end.

Fixpoint decode_rows (rows : list (list string))
    : option (list (string * string * Z * Z)) :=
  match rows with
  | [] => Some []
  | r :: rows' =>
      match decode_row r, decode_rows rows' with
      | Some x, Some xs => Some (x :: xs)
      | _, _ => None
      end
  end.

(** The exported text read back: the header must be the four column
    names, and every other record one entry. *)
Definition decode_export (body : string)
    : option (list (string * string * Z * Z)) :=
  match csv_parse body with
  | Some (header :: rows) =>
      if decide (header = ["query"; "source"; "timestamp"; "expiry"])
      then decode_rows rows else None
  | _ => None
  end.

(** A cache with a key that needs quoting, and an expired entry. *)
Definition quoted_ops : list op :=
  [OpRefresh (-5) "a,b" "guest"; OpSearch 1000 "Weather in Delhi" "guest"].

(** * Properties *)

(** ** Dictionaries *)

Section DictFacts.

Context {V : Type}.
Implicit Types (d : list (string * V)) (k : string) (v : V).

Lemma dict_get_set_eq k v d : dict_get k (dict_set k v d) = Some v.
Proof.
  induction d as [|[k' v'] d IH]; simpl.
  - by rewrite String.eqb_refl.
  - destruct (String.eqb_spec k k') as [->|Hne]; simpl.
    + by rewrite String.eqb_refl.
    + destruct (String.eqb_spec k k'); [done|exact IH].
Qed.

Lemma dict_get_set_ne k k' v d :
  k ≠ k' → dict_get k' (dict_set k v d) = dict_get k' d.
Proof.
  intros Hne. induction d as [|[k0 v0] d IH]; simpl.
  - destruct (String.eqb_spec k' k); [congruence|done].
  - destruct (String.eqb_spec k k0) as [->|Hk]; simpl.
    + destruct (String.eqb_spec k' k0); [congruence|done].
    + destruct (String.eqb_spec k' k0); [done|exact IH].
Qed.

Lemma dict_get_elem k v d : dict_get k d = Some v → (k, v) ∈ d.
Proof.
  induction d as [|[k' v'] d IH]; simpl; [done|].
  destruct (String.eqb_spec k k') as [->|Hne]; intros H.
  - injection H as ->. left.
  - right. by apply IH.
Qed.

Lemma dict_get_key k v d : dict_get k d = Some v → k ∈ dict_keys d.
Proof.
  intros H%dict_get_elem. apply list_elem_of_fmap. by exists (k, v).
Qed.

Lemma dict_key_get k d : k ∈ dict_keys d → is_Some (dict_get k d).
Proof.
  induction d as [|[k' v'] d IH]; simpl.
  - by intros ?%elem_of_nil.
  - intros [->|Hin]%elem_of_cons.
    + rewrite String.eqb_refl. by eexists.
    + destruct (String.eqb k k'); [by eexists|by apply IH].
Qed.

Lemma dict_get_None_key k d : dict_get k d = None → k ∉ dict_keys d.
Proof.
  intros Hnone [v Hv]%dict_key_get. congruence.
Qed.

Lemma dict_get_nodup k v d :
  NoDup (dict_keys d) → (k, v) ∈ d → dict_get k d = Some v.
Proof.
  induction d as [|[k' v'] d IH]; simpl.
  - by intros _ ?%elem_of_nil.
  - intros [Hnotin Hnd]%NoDup_cons [Heq|Hin]%elem_of_cons.
    + injection Heq as -> ->. by rewrite String.eqb_refl.
    + destruct (String.eqb_spec k k') as [->|Hne]; [|by apply IH].
      exfalso. apply Hnotin. apply list_elem_of_fmap. by exists (k', v).
Qed.

Lemma dict_keys_set k v d :
  dict_keys (dict_set k v d)
  = match dict_get k d with
    | Some _ => dict_keys d
    | None => (dict_keys d ++ [k])%list
    end.
Proof.
  induction d as [|[k' v'] d IH]; simpl; [done|].
  destruct (String.eqb_spec k k') as [->|Hne]; simpl; [done|].
  unfold dict_keys in *. destruct (dict_get k d); simpl; congruence.
Qed.

Lemma dict_set_nodup k v d :
  NoDup (dict_keys d) → NoDup (dict_keys (dict_set k v d)).
Proof.
  intros Hnd. rewrite dict_keys_set.
  destruct (dict_get k d) eqn:Hget; [done|].
  apply NoDup_app. split_and!; [done| |apply NoDup_singleton].
  intros x Hx ->%list_elem_of_singleton.
  by apply dict_get_None_key in Hget.
Qed.

Lemma dict_set_Forall (P : string * V → Prop) k v d :
  (∀ k', P (k', v)) → Forall P d → Forall P (dict_set k v d).
Proof.
  intros Hv. induction 1 as [|[k' v'] d Hx Hd IH]; simpl.
  - by repeat constructor.
  - destruct (String.eqb k k'); constructor; auto.
Qed.

Lemma dict_set_length_new k v d :
  dict_get k d = None → length (dict_set k v d) = S (length d).
Proof.
  induction d as [|[k' v'] d IH]; simpl; [done|].
  destruct (String.eqb k k'); [done|]. intros H. simpl. by rewrite IH.
Qed.

End DictFacts.

(** ** The closest key *)

Section CloseMatches.

Variables (cutoff : Q) (word : string).

Lemma score_cutoff x r :
  Difflib.score cutoff word x = Some r →
  r = Difflib.ratio (list_ascii_of_string x) (list_ascii_of_string word)
  ∧ (cutoff <= r)%Q.
Proof.
  unfold Difflib.score, Difflib.qge.
  destruct (Qle_bool cutoff (Difflib.real_quick_ratio _ _)); [|done].
  destruct (Qle_bool cutoff (Difflib.quick_ratio _ _)); [|done].
  destruct (Qle_bool cutoff (Difflib.ratio _ _)) eqn:Hle; [|done].
  simpl. intros [= <-]. split; [done|]. by apply Qle_bool_iff.
Qed.

Lemma pair_gtb_true p1 p2 :
  Difflib.pair_gtb p1 p2 = true → (fst p2 <= fst p1)%Q.
Proof.
  unfold Difflib.pair_gtb, Difflib.qgt.
  intros [Hgt|[Heq _]%andb_true_iff]%orb_true_iff.
  - apply negb_true_iff in Hgt. apply Qlt_le_weak, Qnot_le_lt.
    intros Hle%Qle_bool_iff. congruence.
  - apply Qeq_bool_iff in Heq. rewrite Heq. apply Qle_refl.
Qed.

Lemma pair_gtb_false p1 p2 :
  Difflib.pair_gtb p1 p2 = false → (fst p1 <= fst p2)%Q.
Proof.
  unfold Difflib.pair_gtb, Difflib.qgt.
  intros [Hgt _]%orb_false_iff.
  apply negb_false_iff in Hgt. by apply Qle_bool_iff.
Qed.

Lemma largest_spec ps best p :
  Difflib.largest cutoff word ps best = Some p →
  (best = Some p ∨ (snd p ∈ ps ∧ Difflib.score cutoff word (snd p) = Some (fst p)))
  ∧ (∀ y ry, y ∈ ps → Difflib.score cutoff word y = Some ry → (ry <= fst p)%Q)
  ∧ (∀ pb, best = Some pb → (fst pb <= fst p)%Q).
Proof.
  revert best. induction ps as [|x ps IH]; simpl; intros best Hl.
  - subst best. split_and!.
    + by left.
    + by intros y ry ?%elem_of_nil.
    + intros pb [= ->]. apply Qle_refl.
  - destruct (Difflib.score cutoff word x) as [r|] eqn:Hs.
    + set (best' := match best with
                    | None => Some (r, x)
                    | Some p0 =>
                        if Difflib.pair_gtb (r, x) p0 then Some (r, x) else best
                    end).
      assert (Hl' : Difflib.largest cutoff word ps best' = Some p)
        by (subst best'; by destruct best).
      destruct (IH _ Hl') as (Hsrc & Hmax & Hbest).
      assert (Hrx : ∃ p1, best' = Some p1 ∧ (r <= fst p1)%Q
                          ∧ ∀ pb, best = Some pb → (fst pb <= fst p1)%Q).
      { subst best'. destruct best as [p0|].
        - destruct (Difflib.pair_gtb (r, x) p0) eqn:Hgt.
          + exists (r, x). split_and!; [done|apply Qle_refl|].
            intros pb [= ->]. by apply pair_gtb_true in Hgt.
          + exists p0. split_and!; [done|by apply pair_gtb_false in Hgt|].
            intros pb [= ->]. apply Qle_refl.
        - exists (r, x). split_and!; [done|apply Qle_refl|done]. }
      destruct Hrx as (p1 & Hp1 & Hr1 & Hb1).
      split_and!.
      * destruct Hsrc as [Heq|[Hin Hsc]].
        -- subst best'. destruct best as [p0|].
           ++ destruct (Difflib.pair_gtb (r, x) p0).
              ** injection Heq as <-. right. simpl. split; [left|done].
              ** by left.
           ++ injection Heq as <-. right. simpl. split; [left|done].
        -- right. split; [by right|done].
      * intros y ry [->|Hin]%elem_of_cons Hy.
        -- rewrite Hs in Hy. injection Hy as <-.
           eapply Qle_trans; [exact Hr1|]. by apply Hbest.
        -- by eapply Hmax.
      * intros pb Hpb. eapply Qle_trans; [by apply Hb1|]. by apply Hbest.
    + destruct (IH _ Hl) as (Hsrc & Hmax & Hbest). split_and!.
      * destruct Hsrc as [?|[??]]; [by left|right; split; [by right|done]].
      * intros y ry [->|Hin]%elem_of_cons Hy; [congruence|by eapply Hmax].
      * done.
Qed.

Lemma largest_none ps best :
  Difflib.largest cutoff word ps best = None →
  best = None ∧ ∀ y, y ∈ ps → Difflib.score cutoff word y = None.
Proof.
  revert best. induction ps as [|x ps IH]; simpl; intros best Hl.
  - split; [done|]. by intros y ?%elem_of_nil.
  - destruct (Difflib.score cutoff word x) as [r|] eqn:Hs.
    + destruct best as [p0|].
      * apply IH in Hl as [Hl _]. by destruct (Difflib.pair_gtb (r, x) p0).
      * by apply IH in Hl as [Hl _].
    + apply IH in Hl as [-> Hall]. split; [done|].
      intros y [->|Hin]%elem_of_cons; [done|by apply Hall].
Qed.

(** [get_close_matches] gives no key when none passes the cutoff, and
    otherwise one key of the possibilities whose ratio is at least the cutoff
    and at least the ratio of every other key that passes. *)
Lemma get_close_matches_spec ps :
  match Difflib.get_close_matches word ps cutoff with
  | [] => ∀ y, y ∈ ps → Difflib.score cutoff word y = None
  | k :: rest =>
      rest = [] ∧ k ∈ ps
      ∧ ∃ r, Difflib.score cutoff word k = Some r ∧ (cutoff <= r)%Q
             ∧ ∀ y ry, y ∈ ps → Difflib.score cutoff word y = Some ry →
                       (ry <= r)%Q
  end.
Proof.
  unfold Difflib.get_close_matches.
  destruct (Difflib.largest cutoff word ps None) as [[r k]|] eqn:Hl.
  - apply largest_spec in Hl as ([?|[Hin Hs]] & Hmax & _); [done|].
    simpl in *. split_and!; [done..|].
    exists r. split_and!; [done| |done]. by apply score_cutoff in Hs as [_ ?].
  - by apply largest_none in Hl as [_ ?].
Qed.

End CloseMatches.

(** The subscript [cache[fuzzy_key]] of [search] finds an entry. *)
Lemma close_match_is_key (c : cache) (norm_query k : string) rest :
  Difflib.get_close_matches norm_query (dict_keys c) FUZZY_CUTOFF = k :: rest →
  is_Some (dict_get k c).
Proof.
  intros Hm. pose proof (get_close_matches_spec FUZZY_CUTOFF norm_query
                           (dict_keys c)) as Hspec.
  rewrite Hm in Hspec. destruct Hspec as (_ & Hin & _).
  by apply dict_key_get.
Qed.

(** ** [get_user_data] and the invariants *)

Lemma get_user_data_new st user :
  USER_CACHE st !! user = None →
  get_user_data st user
  = Some (create_user st user, ([], [], [], Analytics 0 0 0)).
Proof.
  intros Hnew. unfold get_user_data, create_user. rewrite Hnew. simpl.
  by rewrite !lookup_insert_eq.
Qed.

Lemma get_user_data_old st user c :
  same_users st → USER_CACHE st !! user = Some c →
  ∃ h p a,
    USER_HIT_LOG st !! user = Some h ∧ USER_PREDICTIONS st !! user = Some p
    ∧ USER_ANALYTICS st !! user = Some a
    ∧ get_user_data st user = Some (st, (c, h, p, a)).
Proof.
  intros (Hh & Hp & Ha) Hc.
  assert (Hin : user ∈ dom (USER_CACHE st)) by (apply elem_of_dom; eauto).
  destruct (proj1 (elem_of_dom (USER_HIT_LOG st) user)) as [h Hh'];
    [by rewrite Hh|].
  destruct (proj1 (elem_of_dom (USER_PREDICTIONS st) user)) as [p Hp'];
    [by rewrite Hp|].
  destruct (proj1 (elem_of_dom (USER_ANALYTICS st) user)) as [a Ha'];
    [by rewrite Ha|].
  exists h, p, a. split_and!; [done..|].
  unfold get_user_data, create_user. rewrite Hc. simpl.
  by rewrite Hc, Hh', Hp', Ha'.
Qed.

(** Under the invariant [get_user_data] returns the user's four objects, as
    they are in the state it leaves. *)
Lemma get_user_data_ok st user :
  same_users st →
  ∃ c h p a,
    get_user_data st user = Some (create_user st user, (c, h, p, a))
    ∧ USER_CACHE (create_user st user) !! user = Some c
    ∧ USER_HIT_LOG (create_user st user) !! user = Some h
    ∧ USER_PREDICTIONS (create_user st user) !! user = Some p
    ∧ USER_ANALYTICS (create_user st user) !! user = Some a.
Proof.
  intros Hsame. destruct (USER_CACHE st !! user) as [c|] eqn:Hc.
  - destruct (get_user_data_old st user c Hsame Hc) as (h & p & a & ? & ? & ? & ?).
    assert (Hcr : create_user st user = st) by (unfold create_user; by rewrite Hc).
    rewrite Hcr. by exists c, h, p, a.
  - exists [], [], [], (Analytics 0 0 0).
    rewrite get_user_data_new by done.
    unfold create_user. rewrite Hc. simpl. by rewrite !lookup_insert_eq.
Qed.

Lemma get_user_data_state st user st1 objs :
  get_user_data st user = Some (st1, objs) → st1 = create_user st user.
Proof.
  unfold get_user_data. repeat case_match; congruence.
Qed.

Lemma cache_ok_nil : cache_ok [].
Proof. split; [constructor|constructor]. Qed.

Lemma log_ok_nil : log_ok [].
Proof. split; [simpl; lia|constructor]. Qed.

Lemma create_user_ok st user : state_ok st → state_ok (create_user st user).
Proof.
  intros ((Hh & Hp & Ha) & Hc & Hl). unfold create_user.
  destruct (USER_CACHE st !! user) eqn:Hu; [done|].
  unfold state_ok, same_users. split_and!; simpl.
  - rewrite !dom_insert_L. by rewrite Hh.
  - rewrite !dom_insert_L. by rewrite Hp.
  - rewrite !dom_insert_L. by rewrite Ha.
  - intros u c [[_ <-]|[_ ?]]%lookup_insert_Some; [apply cache_ok_nil|eauto].
  - intros u l [[_ <-]|[_ ?]]%lookup_insert_Some; [apply log_ok_nil|eauto].
Qed.

Lemma create_user_threshold st user :
  PREFETCH_CONFIDENCE_THRESHOLD (create_user st user)
  = PREFETCH_CONFIDENCE_THRESHOLD st.
Proof. unfold create_user. by destruct (USER_CACHE st !! user). Qed.

Lemma dom_insert_known {V} (m : gmap string V) (d : gset string) user v :
  dom m = d → user ∈ d → dom (<[user := v]> m) = d.
Proof.
  intros <- Hin. rewrite dom_insert_L.
  apply subseteq_union_1_L. by apply singleton_subseteq_l.
Qed.

(** Replacing objects of a known user by well-formed ones keeps the
    invariant. *)
Lemma state_ok_update st C H P A thr user :
  state_ok st →
  is_Some (USER_CACHE st !! user) →
  (C = USER_CACHE st ∨ ∃ c, C = <[user := c]> (USER_CACHE st) ∧ cache_ok c) →
  (H = USER_HIT_LOG st ∨ ∃ h, H = <[user := h]> (USER_HIT_LOG st) ∧ log_ok h) →
  (P = USER_PREDICTIONS st ∨ ∃ p, P = <[user := p]> (USER_PREDICTIONS st)) →
  (A = USER_ANALYTICS st ∨ ∃ a, A = <[user := a]> (USER_ANALYTICS st)) →
  state_ok (State C H P A thr).
Proof.
  intros ((Hh & Hp & Ha) & Hc & Hl) Hin%elem_of_dom HC HH HP HA.
  assert (HdC : dom C = dom (USER_CACHE st)).
  { destruct HC as [->|(c & -> & _)]; [done|by apply dom_insert_known]. }
  unfold state_ok, same_users. split_and!; simpl; rewrite ?HdC.
  - destruct HH as [->|(h & -> & _)]; [done|by apply dom_insert_known].
  - destruct HP as [->|(p & ->)]; [done|by apply dom_insert_known].
  - destruct HA as [->|(a & ->)]; [done|by apply dom_insert_known].
  - destruct HC as [->|(c & -> & Hok)]; [done|].
    intros u c' [[_ <-]|[_ ?]]%lookup_insert_Some; eauto.
  - destruct HH as [->|(h & -> & Hok)]; [done|].
    intros u l [[_ <-]|[_ ?]]%lookup_insert_Some; eauto.
Qed.

(** ** The resolution of a lookup *)

Lemma find_entry_elem c norm_query e fuzzy key :
  find_entry c norm_query = (Some e, fuzzy, key) →
  ∃ k, dict_get k c = Some e.
Proof.
  unfold find_entry. destruct (dict_get norm_query c) as [e0|] eqn:Hget.
  - intros [= <- _ _]. eauto.
  - destruct (Difflib.get_close_matches _ _ _) as [|k rest]; [done|].
    intros [= He _ _]. eauto.
Qed.

Lemma resolve_hit now query c a e fuzzy key :
  find_entry c (normalize_query query) = (Some e, fuzzy, key) →
  fresh now e = true →
  resolve now query c a = (c, count_hit a, result e, hit_source_of fuzzy e).
Proof.
  intros Hfind Hfresh. unfold resolve, hit_source_of.
  rewrite Hfind, Hfresh. by destruct fuzzy, (String.eqb (source e) "backend").
Qed.

Lemma resolve_miss now query c a oe fuzzy key :
  find_entry c (normalize_query query) = (oe, fuzzy, key) →
  match oe with Some e => fresh now e = false | None => True end →
  resolve now query c a
  = (dict_set (normalize_query query)
       (backend_entry now ("Backend result for " +:+ query)) c,
     count_miss a, "Backend result for " +:+ query, "backend").
Proof.
  intros Hfind Hstale. unfold resolve. rewrite Hfind.
  destruct oe as [e|]; [by rewrite Hstale|done].
Qed.

Lemma entry_ok_backend now res : entry_ok (backend_entry now res).
Proof. split; [done|by left]. Qed.

Lemma entry_ok_predicted now query conf :
  entry_ok (predicted_entry now query conf).
Proof. split; [done|by right]. Qed.

Lemma cache_ok_set k e c : entry_ok e → cache_ok c → cache_ok (dict_set k e c).
Proof.
  intros He [Hnd Hall]. split; [by apply dict_set_nodup|].
  by apply dict_set_Forall.
Qed.

Lemma cache_ok_get k e c : cache_ok c → dict_get k c = Some e → entry_ok e.
Proof.
  intros [_ Hall] Hget%dict_get_elem.
  rewrite Forall_forall in Hall. by apply (Hall (k, e)).
Qed.

Lemma hit_source_of_ok fuzzy e query now :
  entry_ok e →
  hit_ok (Hit query (hit_source_of fuzzy e) now)
  ∧ hit_source_of fuzzy e ≠ "backend".
Proof.
  intros [_ Hsrc]. unfold hit_ok, hit_source_of. simpl.
  destruct fuzzy; [split; [by do 3 right|done]|].
  destruct Hsrc as [->| ->]; simpl; split; auto; done.
Qed.

Lemma resolve_ok now query c a c' a' res src :
  cache_ok c → resolve now query c a = (c', a', res, src) →
  cache_ok c' ∧ hit_ok (Hit query src now).
Proof.
  intros Hok Hres.
  destruct (find_entry c (normalize_query query)) as [[oe fuzzy] key] eqn:Hfind.
  destruct oe as [e|]; [destruct (fresh now e) eqn:Hfresh|].
  - rewrite (resolve_hit _ _ _ _ _ _ _ Hfind Hfresh) in Hres.
    injection Hres as <- <- <- <-. split; [done|].
    destruct (find_entry_elem _ _ _ _ _ Hfind) as [k Hk].
    apply hit_source_of_ok. by apply (cache_ok_get k e c).
  - rewrite (resolve_miss _ _ _ _ _ _ _ Hfind Hfresh) in Hres.
    injection Hres as <- <- <- <-.
    split; [apply cache_ok_set; [apply entry_ok_backend|done]|by left].
  - rewrite (resolve_miss _ _ _ _ _ _ _ Hfind I) in Hres.
    injection Hres as <- <- <- <-.
    split; [apply cache_ok_set; [apply entry_ok_backend|done]|by left].
Qed.

(** ** The hit log *)

Lemma record_hit_last_n hit_log h :
  (length hit_log <= 10)%nat →
  record_hit hit_log h = last_n 10 (hit_log ++ [h])%list.
Proof.
  intros Hlen. unfold record_hit, last_n. rewrite length_app. simpl.
  destruct (10 <? length hit_log + 1)%nat eqn:Hlt.
  - apply Nat.ltb_lt in Hlt.
    replace (length hit_log + 1 - 10)%nat with 1%nat by lia.
    by destruct (hit_log ++ [h])%list.
  - apply Nat.ltb_ge in Hlt.
    by replace (length hit_log + 1 - 10)%nat with 0%nat by lia.
Qed.

Lemma last_n_length {A} n (l : list A) :
  length (last_n n l) = Nat.min n (length l).
Proof. unfold last_n. rewrite length_drop. lia. Qed.

Lemma last_n_short {A} n (l : list A) : (length l <= n)%nat → last_n n l = l.
Proof.
  intros Hlen. unfold last_n.
  by replace (length l - n)%nat with 0%nat by lia.
Qed.

Lemma last_n_app {A} n (l1 l2 : list A) :
  last_n n (last_n n l1 ++ l2)%list = last_n n (l1 ++ l2)%list.
Proof.
  unfold last_n.
  rewrite !length_app, length_drop, !drop_app, length_drop, drop_drop.
  f_equal; f_equal; lia.
Qed.

Lemma record_hit_ok hit_log h : log_ok hit_log → hit_ok h → log_ok (record_hit hit_log h).
Proof.
  intros [Hlen Hall] Hh. rewrite record_hit_last_n by done. split.
  - rewrite last_n_length. lia.
  - unfold last_n. apply Forall_drop, Forall_app. split; [done|].
    by apply Forall_singleton.
Qed.

(** ** The prefetch loop keeps caches well-formed *)

Lemma prefetch_one_ok thr now c pred c' :
  cache_ok c → prefetch_one thr now c pred = Some c' → cache_ok c'.
Proof.
  intros Hok. unfold prefetch_one.
  repeat case_match; try done; intros [= <-]; try done;
    apply cache_ok_set; auto using entry_ok_predicted.
Qed.

Lemma prefetch_predictions_ok thr now preds c :
  cache_ok c → cache_ok (fst (prefetch_predictions thr now preds c)).
Proof.
  revert c. induction preds as [|pred preds IH]; simpl; intros c Hok; [done|].
  destruct (prefetch_one thr now c pred) as [c'|] eqn:Hone; [|done].
  eapply IH, prefetch_one_ok; eauto.
Qed.

(** ** Every transition keeps the invariant *)

Lemma init_state_ok : state_ok init_state.
Proof.
  unfold state_ok, same_users. simpl. split_and!; done.
Qed.

Lemma search_ok st now query user st' out :
  state_ok st → search st now query user = Some (st', out) → state_ok st'.
Proof.
  intros Hok. pose proof (create_user_ok st user Hok) as Hok1.
  destruct (get_user_data_ok st user (proj1 Hok))
    as (c & h & p & a & Hget & Hc & Hh & _ & _).
  unfold search. rewrite Hget.
  destruct (resolve now query c a) as [[[c' a'] res] src] eqn:Hres.
  intros [= <- _].
  destruct Hok1 as (Hsame & Hcaches & Hlogs).
  apply (resolve_ok now query c a c' a' res src) in Hres as [Hc' Hsrc];
    [|by eapply Hcaches].
  eapply (state_ok_update (create_user st user)); eauto.
  - done.
  - right. eexists. split; [done|]. apply record_hit_ok; [by eapply Hlogs|done].
Qed.

Lemma predict_and_prefetch_ok st now user preds st' :
  state_ok st → predict_and_prefetch st now user preds = Some st' →
  state_ok st'.
Proof.
  intros Hok. unfold predict_and_prefetch.
  destruct (USER_CACHE st !! user) as [c|] eqn:Hc; [|done].
  intros [= <-]. eapply (state_ok_update st); eauto.
  right. eexists. split; [done|].
  apply prefetch_predictions_ok. destruct Hok as (_ & Hcaches & _).
  by eapply Hcaches.
Qed.

Lemma refresh_ok st now query user st' res :
  state_ok st → refresh st now query user = Some (st', res) → state_ok st'.
Proof.
  intros Hok. pose proof (create_user_ok st user Hok) as Hok1.
  destruct (get_user_data_ok st user (proj1 Hok))
    as (c & h & p & a & Hget & Hc & _).
  unfold refresh. rewrite Hget. intros [= <- _].
  eapply (state_ok_update (create_user st user)); eauto.
  right. eexists. split; [done|].
  apply cache_ok_set; [apply entry_ok_backend|].
  destruct Hok1 as (_ & Hcaches & _). by eapply Hcaches.
Qed.

Lemma set_confidence_ok st data st' out :
  state_ok st → set_confidence st data = Some (st', out) → state_ok st'.
Proof.
  intros Hok. unfold set_confidence.
  repeat case_match; try done; intros [= <- _]; done.
Qed.

Lemma step_ok st o : state_ok st → state_ok (step st o).
Proof.
  intros Hok. destruct o as [now query user|now user preds|now user|user
                            |data|now query user|format user]; simpl.
  - destruct (search st now query user) as [[st' out]|] eqn:Hs; [|done].
    by eapply search_ok.
  - destruct (predict_and_prefetch st now user preds) as [st'|] eqn:Hs; [|done].
    by eapply predict_and_prefetch_ok.
  - unfold dashboard.
    destruct (get_user_data st user) as [[st1 [[[c h] p] a]]|] eqn:Hg; [|done].
    apply get_user_data_state in Hg as ->. by apply create_user_ok.
  - unfold get_predictions.
    destruct (get_user_data st user) as [[st1 [[[c h] p] a]]|] eqn:Hg; [|done].
    apply get_user_data_state in Hg as ->. by apply create_user_ok.
  - destruct (set_confidence st data) as [[st' out]|] eqn:Hs; [|done].
    by eapply set_confidence_ok.
  - destruct (refresh st now query user) as [[st' res]|] eqn:Hs; [|done].
    by eapply refresh_ok.
  - unfold export_dashboard.
    destruct (get_user_data st user) as [[st1 [[[c h] p] a]]|] eqn:Hg; [|done].
    apply get_user_data_state in Hg as ->.
    destruct (String.eqb format "csv"); by apply create_user_ok.
Qed.

Lemma run_ok_from st ops : state_ok st → state_ok (run st ops).
Proof.
  revert st. induction ops as [|o ops IH]; intros st Hok; [done|].
  simpl. by apply IH, step_ok.
Qed.

(** Every state the server reaches satisfies the invariant. *)
Lemma run_ok ops : state_ok (run init_state ops).
Proof. apply run_ok_from, init_state_ok. Qed.

(** ** What [search] computes *)

Lemma create_user_known st user c :
  USER_CACHE st !! user = Some c → create_user st user = st.
Proof. intros Hc. unfold create_user. by rewrite Hc. Qed.

(** [search] on a state that knows the user. *)
Lemma search_known st now query user c :
  same_users st → USER_CACHE st !! user = Some c →
  ∃ h p a,
    USER_HIT_LOG st !! user = Some h ∧ USER_PREDICTIONS st !! user = Some p
    ∧ USER_ANALYTICS st !! user = Some a
    ∧ search st now query user
      = let '(c', a', res, src) := resolve now query c a in
        let hit_log' := record_hit h (Hit query src now) in
        Some (State (<[user := c']> (USER_CACHE st))
                    (<[user := hit_log']> (USER_HIT_LOG st))
                    (USER_PREDICTIONS st)
                    (<[user := a']> (USER_ANALYTICS st))
                    (PREFETCH_CONFIDENCE_THRESHOLD st),
              SearchOut res src (map hit_query (last_n N_HISTORY hit_log'))).
Proof.
  intros Hsame Hc.
  destruct (get_user_data_old st user c Hsame Hc) as (h & p & a & ? & ? & ? & Hg).
  exists h, p, a. split_and!; [done..|]. unfold search. by rewrite Hg.
Qed.

Lemma find_entry_exact c norm_query e :
  dict_get norm_query c = Some e →
  find_entry c norm_query = (Some e, false, None).
Proof. intros Hget. unfold find_entry. by rewrite Hget. Qed.

(** ** C1: time to live *)

(** C1.  In every state the server reaches, the test that [search] applies
    to an entry is [now - createdAt < ttlSeconds] with the entry's own time
    to live, for every entry of the cache; a search for a cached key one second before
    [createdAt + ttlSeconds] is served from the cache, with the stored
    result and the cache left as it is, and the same search at
    [createdAt + ttlSeconds] is a miss that stores a fresh backend entry. *)
Theorem ttl_boundary (ops : list op) (user query : string) (c : cache)
    (e : entry) :
  USER_CACHE (run init_state ops) !! user = Some c →
  dict_get (normalize_query query) c = Some e →
  (∀ k e0 now, dict_get k c = Some e0 → fresh now e0 = true ↔ live now e0)
  ∧ (∃ st' out,
       search (run init_state ops) (timestamp e + expiry e - 1) query user
       = Some (st', out)
       ∧ out_result out = result e
       ∧ (out_source out = "cache" ∨ out_source out = "predicted")
       ∧ USER_CACHE st' !! user = Some c)
  ∧ (∃ st' out,
       search (run init_state ops) (timestamp e + expiry e) query user
       = Some (st', out)
       ∧ out_result out = "Backend result for " +:+ query
       ∧ out_source out = "backend"
       ∧ USER_CACHE st' !! user
         = Some (dict_set (normalize_query query)
                   (backend_entry (timestamp e + expiry e)
                      ("Backend result for " +:+ query)) c)).
Proof.
  intros Hc Hget. pose proof (run_ok ops) as (Hsame & Hcaches & _).
  destruct (cache_ok_get _ _ _ (Hcaches _ _ Hc) Hget) as [Hexp Hsrc].
  pose proof (find_entry_exact _ _ _ Hget) as Hfind.
  split_and!.
  - intros k e0 now Hk.
    destruct (cache_ok_get _ _ _ (Hcaches _ _ Hc) Hk) as [Hexp0 _].
    unfold fresh, live. rewrite Hexp0. apply Z.ltb_lt.
  - destruct (search_known _ (timestamp e + expiry e - 1) query user c Hsame Hc)
      as (h & p & a & _ & _ & _ & ->).
    rewrite (resolve_hit _ _ _ _ _ _ _ Hfind)
      by (unfold fresh; rewrite Hexp; by apply Z.ltb_lt; unfold CACHE_EXPIRY_SECONDS; lia).
    eexists _, _. split; [done|]. simpl. split_and!; [done| |by rewrite lookup_insert_eq].
    unfold hit_source_of. destruct Hsrc as [->| ->]; simpl; auto.
  - destruct (search_known _ (timestamp e + expiry e) query user c Hsame Hc)
      as (h & p & a & _ & _ & _ & ->).
    rewrite (resolve_miss _ _ _ _ _ _ _ Hfind)
      by (unfold fresh; rewrite Hexp; apply Z.ltb_ge; lia).
    eexists _, _. split; [done|]. simpl. split_and!; [done..|by rewrite lookup_insert_eq].
Qed.

Lemma ttl_boundary_witness :
  USER_CACHE (run init_state delhi_ops) !! "guest" = Some delhi_cache
  ∧ dict_get (normalize_query " weather in DELHI ") delhi_cache
    = Some delhi_entry
  ∧ (∀ k e0 now, dict_get k delhi_cache = Some e0 →
       fresh now e0 = true ↔ live now e0)
  ∧ (∃ st' out,
       search (run init_state delhi_ops) 1299 " weather in DELHI " "guest"
       = Some (st', out)
       ∧ out_result out = "Backend result for Weather in Delhi"
       ∧ (out_source out = "cache" ∨ out_source out = "predicted")
       ∧ USER_CACHE st' !! "guest" = Some delhi_cache)
  ∧ (∃ st' out,
       search (run init_state delhi_ops) 1300 " weather in DELHI " "guest"
       = Some (st', out)
       ∧ out_result out = "Backend result for  weather in DELHI "
       ∧ out_source out = "backend"
       ∧ USER_CACHE st' !! "guest"
         = Some (dict_set "weather in delhi"
                   (backend_entry 1300 "Backend result for  weather in DELHI ")
                   delhi_cache)).
Proof.
  split; [reflexivity|]. split; [reflexivity|].
  apply (ttl_boundary delhi_ops "guest" " weather in DELHI " delhi_cache
           delhi_entry); reflexivity.
Defined.

(** The objects [get_user_data] returns are those of the state, or the
    empty ones it has just created. *)
Lemma get_user_data_default st user :
  same_users st →
  get_user_data st user
  = Some (create_user st user,
          (default [] (USER_CACHE st !! user),
           default [] (USER_HIT_LOG st !! user),
           default [] (USER_PREDICTIONS st !! user),
           default (Analytics 0 0 0) (USER_ANALYTICS st !! user))).
Proof.
  intros Hsame. destruct (USER_CACHE st !! user) as [c|] eqn:Hc.
  - destruct (get_user_data_old st user c Hsame Hc)
      as (h & p & a & -> & -> & -> & ->).
    by rewrite (create_user_known st user c).
  - destruct Hsame as (Hh & Hp & Ha).
    apply not_elem_of_dom in Hc as Hnot.
    rewrite get_user_data_new by done.
    rewrite (proj1 (not_elem_of_dom (USER_HIT_LOG st) user)) by (by rewrite Hh).
    rewrite (proj1 (not_elem_of_dom (USER_PREDICTIONS st) user)) by (by rewrite Hp).
    rewrite (proj1 (not_elem_of_dom (USER_ANALYTICS st) user)) by (by rewrite Ha).
    done.
Qed.

Lemma search_eq st now query user :
  same_users st →
  search st now query user
  = let st1 := create_user st user in
    let '(c', a', res, src) :=
      resolve now query (default [] (USER_CACHE st !! user))
        (default (Analytics 0 0 0) (USER_ANALYTICS st !! user)) in
    let hit_log' :=
      record_hit (default [] (USER_HIT_LOG st !! user)) (Hit query src now) in
    Some (State (<[user := c']> (USER_CACHE st1))
                (<[user := hit_log']> (USER_HIT_LOG st1))
                (USER_PREDICTIONS st1)
                (<[user := a']> (USER_ANALYTICS st1))
                (PREFETCH_CONFIDENCE_THRESHOLD st1),
          SearchOut res src (map hit_query (last_n N_HISTORY hit_log'))).
Proof.
  intros Hsame. unfold search. by rewrite get_user_data_default.
Qed.

(** ** C2: exact match, then the closest key *)

(** C2, as stated, fails.  With an expired entry at ["weather in delhi"] and
    a live one at ["weathr in delhy"], the query ["weathr in delhi"] has no
    exact entry and the live key is within the cutoff, so the lookup over the
    live keys is a fuzzy hit; [search] takes the closest of all keys, finds
    it expired, and goes to the backend. *)
Lemma fuzzy_live_scan_counterexample :
  USER_CACHE (run init_state stale_ops) !! "guest" = Some stale_cache
  ∧ dict_get (normalize_query "weathr in delhi") stale_cache = None
  ∧ live_keys 1000 stale_cache = ["weathr in delhy"]
  ∧ Difflib.score FUZZY_CUTOFF "weathr in delhi" "weathr in delhy"
    = Some (28 # 30)
  ∧ spec_lookup 1000 stale_cache (normalize_query "weathr in delhi")
    = Some (live_entry, true)
  ∧ snd <$> search (run init_state stale_ops) 1000 "weathr in delhi" "guest"
    = Some (SearchOut "Backend result for weathr in delhi" "backend"
              ["weather in delhi"; "weathr in delhy"; "weathr in delhi"]).
Proof. vm_compute. repeat split. Qed.

(** C2 (amended).  In every state the server reaches, [search] first takes
    the entry at the normalized key.  Only when there is none, it takes the
    closest key among all the keys of the user, expired ones included: a key
    whose ratio is at least 0.85 and at least that of every other key that
    passes.  The entry found by either path is served when it is live, tagged
    [fuzzy_cache] on the second path; when it is expired, or when no key
    passes, the lookup is a miss answered by the backend. *)
Theorem fuzzy_fallback (ops : list op) (user query : string) (now : Z)
    (c : cache) :
  USER_CACHE (run init_state ops) !! user = Some c →
  ∃ st' out,
    search (run init_state ops) now query user = Some (st', out)
    ∧ match dict_get (normalize_query query) c with
      | Some e =>
          if fresh now e
          then out_result out = result e
               ∧ (out_source out = "cache" ∨ out_source out = "predicted")
          else out_result out = "Backend result for " +:+ query
               ∧ out_source out = "backend"
      | None =>
          match Difflib.get_close_matches (normalize_query query)
                  (dict_keys c) FUZZY_CUTOFF with
          | k :: _ =>
              (∃ r, Difflib.score FUZZY_CUTOFF (normalize_query query) k
                    = Some r
                    ∧ (85 # 100 <= r)%Q
                    ∧ ∀ y ry, y ∈ dict_keys c →
                        Difflib.score FUZZY_CUTOFF (normalize_query query) y
                        = Some ry → (ry <= r)%Q)
              ∧ ∃ e, dict_get k c = Some e
                     ∧ if fresh now e
                       then out_result out = result e
                            ∧ out_source out = "fuzzy_cache"
                       else out_result out = "Backend result for " +:+ query
                            ∧ out_source out = "backend"
          | [] =>
              (∀ y, y ∈ dict_keys c →
                    Difflib.score FUZZY_CUTOFF (normalize_query query) y = None)
              ∧ out_result out = "Backend result for " +:+ query
              ∧ out_source out = "backend"
          end
      end.
Proof.
  intros Hc. pose proof (run_ok ops) as (Hsame & Hcaches & _).
  rewrite (search_eq _ now query user Hsame), Hc. simpl.
  set (a := default _ _).
  destruct (dict_get (normalize_query query) c) as [e|] eqn:Hget.
  - pose proof (find_entry_exact _ _ _ Hget) as Hfind.
    destruct (cache_ok_get _ _ _ (Hcaches _ _ Hc) Hget) as [_ Hsrc].
    destruct (fresh now e) eqn:Hfresh.
    + rewrite (resolve_hit _ _ _ a _ _ _ Hfind Hfresh).
      eexists _, _. split; [done|]. simpl. split; [done|].
      unfold hit_source_of. destruct Hsrc as [->| ->]; simpl; auto.
    + rewrite (resolve_miss _ _ _ a _ _ _ Hfind Hfresh).
      by eexists _, _.
  - pose proof (get_close_matches_spec FUZZY_CUTOFF (normalize_query query)
                  (dict_keys c)) as Hspec.
    destruct (Difflib.get_close_matches _ _ _) as [|k rest] eqn:Hm.
    + assert (Hfind : find_entry c (normalize_query query) = (None, false, None))
        by (unfold find_entry; by rewrite Hget, Hm).
      rewrite (resolve_miss _ _ _ a _ _ _ Hfind I).
      by eexists _, _.
    + destruct Hspec as (_ & Hin & r & Hr).
      destruct (dict_key_get _ _ Hin) as [e He].
      assert (Hfind : find_entry c (normalize_query query) = (Some e, true, Some k))
        by (unfold find_entry; by rewrite Hget, Hm, He).
      destruct (fresh now e) eqn:Hfresh.
      * rewrite (resolve_hit _ _ _ a _ _ _ Hfind Hfresh).
        eexists _, _. split; [done|]. simpl. split; [by exists r|].
        exists e. by rewrite Hfresh.
      * rewrite (resolve_miss _ _ _ a _ _ _ Hfind Hfresh).
        eexists _, _. split; [done|]. simpl. split; [by exists r|].
        exists e. by rewrite Hfresh.
Qed.

Lemma fuzzy_fallback_witness :
  USER_CACHE (run init_state delhi_ops) !! "guest" = Some delhi_cache
  ∧ ∃ st' out,
      search (run init_state delhi_ops) 1100 "weathr in delhi" "guest"
      = Some (st', out)
      ∧ (∃ r, Difflib.score FUZZY_CUTOFF "weathr in delhi" "weather in delhi"
              = Some r
              ∧ (85 # 100 <= r)%Q
              ∧ ∀ y ry, y ∈ dict_keys delhi_cache →
                  Difflib.score FUZZY_CUTOFF "weathr in delhi" y = Some ry →
                  (ry <= r)%Q)
      ∧ ∃ e, dict_get "weather in delhi" delhi_cache = Some e
             ∧ if fresh 1100 e
               then out_result out = result e
                    ∧ out_source out = "fuzzy_cache"
               else out_result out = "Backend result for weathr in delhi"
                    ∧ out_source out = "backend".
Proof.
  split; [reflexivity|].
  exact (fuzzy_fallback delhi_ops "guest" "weathr in delhi" 1100 delhi_cache
           eq_refl).
Defined.

(** ** C3: admission of a predicted candidate *)

(** C3.  A candidate with a [query] string and a numeric confidence (1.0
    when the field is missing) is written into the cache, as an entry with
    source [predicted], the confidence recorded and the current time as
    creation time, exactly when its confidence is at least the threshold
    and the cache holds no live entry at its normalized key; otherwise the
    cache is left as it is.  The loop goes on with the next candidate, and
    the thread applies this to the user's cache with the threshold of the
    moment. *)
Theorem prefetch_admission (threshold : Q) (now : Z) (c : cache)
    (items : list (string * json)) (query : string) (x : Q)
    (rest : list json) :
  dict_get "query" items = Some (JStr query) →
  as_number (default (JFloat 1) (dict_get "confidence" items)) = Some x →
  let q := normalize_query query in
  let conf := default (JFloat 1) (dict_get "confidence" items) in
  let e' := Entry ("Predicted backend result for " +:+ query) now
              CACHE_EXPIRY_SECONDS "predicted" (Some conf) in
  let admitted :=
    (threshold <= x)%Q ∧ ¬ ∃ e, dict_get q c = Some e ∧ fresh now e = true in
  (admitted →
   prefetch_one threshold now c (JObj items) = Some (dict_set q e' c)
   ∧ dict_get q (dict_set q e' c) = Some e')
  ∧ (¬ admitted → prefetch_one threshold now c (JObj items) = Some c)
  ∧ (∃ c', prefetch_one threshold now c (JObj items) = Some c'
           ∧ prefetch_predictions threshold now (JObj items :: rest) c
             = prefetch_predictions threshold now rest c')
  ∧ ∀ st user,
      USER_CACHE st !! user = Some c →
      PREFETCH_CONFIDENCE_THRESHOLD st = threshold →
      ∃ st', predict_and_prefetch st now user [JObj items] = Some st'
             ∧ USER_CACHE st' !! user
               = prefetch_one threshold now c (JObj items).
Proof.
  intros Hq Hx q conf e' admitted.
  assert (Hone : prefetch_one threshold now c (JObj items)
                 = Some (if Qle_bool threshold x
                         then match dict_get q c with
                              | Some e => if fresh now e then c
                                          else dict_set q e' c
                              | None => dict_set q e' c
                              end
                         else c)).
  { subst q conf e'. unfold prefetch_one. rewrite Hq. cbv zeta. rewrite Hx.
    unfold qlt. destruct (Qle_bool threshold x); simpl; [|done].
    destruct (dict_get _ c) as [e|]; [|done]. by destruct (fresh now e). }
  split_and!.
  - intros [Hle Hnolive]. split; [|apply dict_get_set_eq].
    rewrite Hone. apply Qle_bool_iff in Hle. rewrite Hle.
    destruct (dict_get q c) as [e|]; [|done].
    destruct (fresh now e) eqn:Hfresh; [|done].
    exfalso. apply Hnolive. by exists e.
  - intros Hnot. rewrite Hone.
    destruct (Qle_bool threshold x) eqn:Hle; [|done].
    apply Qle_bool_iff in Hle.
    destruct (dict_get q c) as [e|] eqn:Hget.
    + destruct (fresh now e) eqn:Hfresh; [done|].
      exfalso. apply Hnot. split; [done|]. intros (e0 & [= <-] & ?). congruence.
    + exfalso. apply Hnot. split; [done|]. by intros (e0 & ? & _).
  - eexists. split; [exact Hone|]. cbn [prefetch_predictions]. by rewrite Hone.
  - intros st user Hc Hthr. unfold predict_and_prefetch. rewrite Hc, Hthr.
    eexists. split; [done|]. cbn [prefetch_predictions USER_CACHE].
    rewrite lookup_insert_eq, Hone. done.
Qed.

Lemma prefetch_admission_witness :
  dict_get "query" gurgaon_items = Some (JStr "Weather in Gurgaon")
  ∧ as_number (default (JFloat 1) (dict_get "confidence" gurgaon_items))
    = Some (83 # 100)
  ∧ prefetch_one (6 # 10) 1000 delhi_cache (JObj gurgaon_items)
    = Some (dict_set "weather in gurgaon" gurgaon_entry delhi_cache)
  ∧ dict_get "weather in gurgaon"
      (dict_set "weather in gurgaon" gurgaon_entry delhi_cache)
    = Some gurgaon_entry.
Proof.
  split; [reflexivity|]. split; [reflexivity|].
  apply (prefetch_admission (6 # 10) 1000 delhi_cache gurgaon_items
           "Weather in Gurgaon" (83 # 100) [] eq_refl eq_refl).
  split; [discriminate|]. intros (e & He & _). discriminate He.
Defined.

(** The gating example of the specification: confidence 0.5 is refused
    under threshold 0.6 and admitted under threshold 0.4. *)
Example confidence_gating :
  let pred := JObj [("query", JStr "stock price");
                    ("confidence", JFloat (5 # 10))] in
  prefetch_predictions (6 # 10) 50 [pred] [] = ([], false)
  ∧ prefetch_predictions (4 # 10) 50 [pred] []
    = ([("stock price",
         Entry "Predicted backend result for stock price" 50 300 "predicted"
           (Some (JFloat (5 # 10))))], false).
Proof. split; reflexivity. Qed.

(** ** C4: the hit log *)

Lemma create_user_hit_log st u user :
  same_users st →
  default [] (USER_HIT_LOG (create_user st u) !! user)
  = default [] (USER_HIT_LOG st !! user).
Proof.
  intros (Hh & _). unfold create_user.
  destruct (USER_CACHE st !! u) eqn:Hu; [done|]. simpl.
  destruct (decide (u = user)) as [->|Hne].
  - rewrite lookup_insert_eq.
    apply not_elem_of_dom in Hu. rewrite <- Hh in Hu.
    apply not_elem_of_dom in Hu. by rewrite Hu.
  - by rewrite lookup_insert_ne.
Qed.

Lemma user_log_length st user :
  state_ok st → (length (default [] (USER_HIT_LOG st !! user)) <= 10)%nat.
Proof.
  intros (_ & _ & Hlogs).
  destruct (USER_HIT_LOG st !! user) as [l|] eqn:Hl; simpl; [|lia].
  by destruct (Hlogs _ _ Hl).
Qed.

Lemma step_hit_log st o user :
  state_ok st →
  default [] (USER_HIT_LOG (step st o) !! user)
  = last_n 10 (default [] (USER_HIT_LOG st !! user) ++ step_hits st o user)%list.
Proof.
  intros Hok. pose proof (proj1 Hok) as Hsame.
  pose proof (user_log_length st user Hok) as Hlen.
  assert (Hsame_log : ∀ u,
    default [] (USER_HIT_LOG (create_user st u) !! user)
    = last_n 10 (default [] (USER_HIT_LOG st !! user) ++ [])%list).
  { intros u. rewrite app_nil_r, last_n_short by done.
    by apply create_user_hit_log. }
  destruct o as [now query u|now u preds|now u|u|data|now query u|format u];
    simpl.
  - rewrite (search_eq st now query u Hsame).
    destruct (resolve now query _ _) as [[[c' a'] res] src]. simpl.
    destruct (String.eqb_spec u user) as [->|Hne].
    + rewrite lookup_insert_eq. simpl. by apply record_hit_last_n.
    + rewrite lookup_insert_ne by done. apply Hsame_log.
  - unfold predict_and_prefetch.
    destruct (USER_CACHE st !! u); simpl;
      by rewrite app_nil_r, last_n_short by done.
  - unfold dashboard. rewrite get_user_data_default by done. apply Hsame_log.
  - unfold get_predictions. rewrite get_user_data_default by done.
    apply Hsame_log.
  - rewrite app_nil_r, last_n_short by done.
    unfold set_confidence. by repeat case_match.
  - unfold refresh. rewrite get_user_data_default by done. apply Hsame_log.
  - unfold export_dashboard. rewrite get_user_data_default by done.
    destruct (String.eqb format "csv"); apply Hsame_log.
Qed.

(** Along any run, the hit log of a user is the last ten of the records
    it had and the records its searches appended. *)
Lemma run_hit_log st ops user :
  state_ok st →
  default [] (USER_HIT_LOG (run st ops) !! user)
  = last_n 10 (default [] (USER_HIT_LOG st !! user)
               ++ search_hits st ops user)%list.
Proof.
  revert st. induction ops as [|o ops IH]; intros st Hok.
  - simpl. rewrite app_nil_r, last_n_short; [done|].
    by apply user_log_length.
  - change (run st (o :: ops)) with (run (step st o) ops).
    rewrite IH by (by apply step_ok). rewrite step_hit_log by done.
    simpl. by rewrite last_n_app, app_assoc.
Qed.

Lemma search_hits_inputs st user inputs :
  state_ok st →
  map (fun h => (hit_time h, hit_query h))
    (search_hits st (map (search_op user) inputs) user)
  = inputs.
Proof.
  revert st. induction inputs as [|[now query] inputs IH]; intros st Hok;
    [done|].
  simpl. rewrite (search_eq st now query user (proj1 Hok)).
  rewrite String.eqb_refl.
  destruct (resolve now query _ _) as [[[c' a'] res] src] eqn:Hres. simpl.
  f_equal. specialize (IH (step st (OpSearch now query user))).
  simpl in IH. rewrite (search_eq st now query user (proj1 Hok)), Hres in IH.
  apply IH.
  pose proof (step_ok st (OpSearch now query user) Hok) as Hstep.
  simpl in Hstep.
  by rewrite (search_eq st now query user (proj1 Hok)), Hres in Hstep.
Qed.

Lemma last_n_app_ge {A} n (l1 l2 : list A) :
  (n <= length l2)%nat → last_n n (l1 ++ l2)%list = last_n n l2.
Proof.
  intros Hlen. unfold last_n. rewrite length_app, drop_app.
  rewrite drop_ge by lia. simpl. f_equal. lia.
Qed.

Lemma last_n_map {A B} (f : A → B) n (l : list A) :
  map f (last_n n l) = last_n n (map f l).
Proof.
  unfold last_n. rewrite length_map. apply (fmap_drop f).
Qed.

(** C4.  From any state the server reaches: a search appends exactly one
    record [{query, source, time}] to the hit log of its user and drops the
    oldest when that makes more than 10; and after 15 searches of one user
    the log holds exactly 10 records, those of the last 10 searches in
    order. *)
Theorem hit_log_fifo (ops0 : list op) (user : string)
    (inputs : list (Z * string)) :
  length inputs = 15%nat →
  (∀ now query, ∃ st' out,
     search (run init_state ops0) now query user = Some (st', out)
     ∧ USER_HIT_LOG st' !! user
       = Some (record_hit
                 (default [] (USER_HIT_LOG (run init_state ops0) !! user))
                 (Hit query (out_source out) now)))
  ∧ ∃ log,
      USER_HIT_LOG (run (run init_state ops0) (map (search_op user) inputs))
        !! user = Some log
      ∧ length log = 10%nat
      ∧ log = last_n 10 (search_hits (run init_state ops0)
                           (map (search_op user) inputs) user)
      ∧ map (fun h => (hit_time h, hit_query h)) log = drop 5 inputs.
Proof.
  intros Hlen. pose proof (run_ok ops0) as Hok. split.
  - intros now query. rewrite (search_eq _ now query user (proj1 Hok)).
    destruct (resolve now query _ _) as [[[c' a'] res] src]. simpl.
    eexists _, _. split; [done|]. simpl. by rewrite lookup_insert_eq.
  - pose proof (run_hit_log _ (map (search_op user) inputs) user Hok) as Hrun.
    pose proof (search_hits_inputs _ user inputs Hok) as Hin.
    set (hits := search_hits _ _ user) in *.
    assert (Hhits : length hits = 15%nat).
    { by rewrite <- Hlen, <- Hin at 1; rewrite length_map. }
    rewrite last_n_app_ge in Hrun by lia.
    assert (Hl10 : length (last_n 10 hits) = 10%nat)
      by (rewrite last_n_length; lia).
    destruct (USER_HIT_LOG _ !! user) as [log|]; simpl in Hrun.
    + exists log. subst log. split_and!; [done..|].
      rewrite last_n_map, Hin. unfold last_n. by rewrite Hlen.
    + rewrite <- Hrun in Hl10. done.
Qed.

Lemma hit_log_fifo_witness :
  length fifteen_inputs = 15%nat
  ∧ ∃ log,
      USER_HIT_LOG (run (run init_state delhi_ops)
                      (map (search_op "guest") fifteen_inputs)) !! "guest"
      = Some log
      ∧ length log = 10%nat
      ∧ log = last_n 10 (search_hits (run init_state delhi_ops)
                           (map (search_op "guest") fifteen_inputs) "guest")
      ∧ map (fun h => (hit_time h, hit_query h)) log = drop 5 fifteen_inputs.
Proof.
  split; [reflexivity|].
  exact (proj2 (hit_log_fifo delhi_ops "guest" fifteen_inputs eq_refl)).
Defined.

(** ** C5: malformed predictor output *)

(** C5, as stated, fails on its last part: an entry without [query] is not
    skipped.  The subscript [pred["query"]] raises, the loop ends there, and
    the well-formed candidate after it is never prefetched, though alone it
    would be. *)
Lemma skip_missing_query_counterexample :
  prefetch_one (6 # 10) 50 [] no_query_pred = None
  ∧ prefetch_predictions (6 # 10) 50 [no_query_pred; stock_pred] []
    = ([], true)
  ∧ prefetch_predictions (6 # 10) 50 [stock_pred] []
    = ([("stock price", stock_entry)], false)
  ∧ prefetch_predictions (6 # 10) 50 [no_query_pred; stock_pred] []
    ≠ prefetch_predictions (6 # 10) 50 [stock_pred] [].
Proof. repeat split. discriminate. Qed.

Lemma dict_get_query_confidence (items : list (string * json)) (v : json) :
  dict_get "query" (("confidence", v) :: items) = dict_get "query" items.
Proof. reflexivity. Qed.

(** C5 (amended).  Whatever the decoder, [get_predictions_from_llm] gives
    the empty list on a failed exchange, on a text without a bracketed
    array, and on an array text that does not decode.  The thread that
    consumes the list always ends, changes neither hit log nor counters, and
    the answer of the search that started it does not depend on the reply.
    In the prefetch loop a missing [confidence] counts as 1.0; an entry
    without [query] raises: the loop stops at it, keeping what earlier
    candidates wrote and leaving later candidates unprocessed. *)
Theorem prediction_soft_failure
    (pyjson_loads : string -> option (list json)) :
  get_predictions_from_llm pyjson_loads LLMError = []
  ∧ (∀ content, search_array content = None →
       get_predictions_from_llm pyjson_loads (LLMContent content) = [])
  ∧ (∀ content json_str,
       search_array content = Some json_str →
       pyjson_loads (PyStr.replace_char single_quote double_quote json_str)
       = None →
       get_predictions_from_llm pyjson_loads (LLMContent content) = [])
  ∧ (∀ st now query user now' reply st' out,
       search_with_thread pyjson_loads st now query user now' reply
       = Some (st', out) →
       snd <$> search st now query user = Some out
       ∧ USER_HIT_LOG st' = USER_HIT_LOG (step st (OpSearch now query user))
       ∧ USER_ANALYTICS st'
         = USER_ANALYTICS (step st (OpSearch now query user)))
  ∧ (∀ st now user preds c,
       USER_CACHE st !! user = Some c →
       is_Some (predict_and_prefetch st now user preds))
  ∧ (∀ threshold now c items query,
       dict_get "query" items = Some (JStr query) →
       dict_get "confidence" items = None →
       prefetch_one threshold now c (JObj items)
       = prefetch_one threshold now c
           (JObj (("confidence", JFloat 1) :: items)))
  ∧ (∀ threshold now c items rest,
       dict_get "query" items = None →
       prefetch_one threshold now c (JObj items) = None
       ∧ prefetch_predictions threshold now (JObj items :: rest) c
         = (c, true)).
Proof.
  split_and!.
  - done.
  - intros content Hnone. simpl. by rewrite Hnone.
  - intros content json_str Hsome Hfail. simpl. by rewrite Hsome, Hfail.
  - intros st now query user now' reply st' out. unfold search_with_thread.
    simpl. destruct (search st now query user) as [[st1 out1]|]; [|done].
    intros [= <- <-]. split; [done|]. simpl.
    unfold predict_and_prefetch. by destruct (USER_CACHE st1 !! user).
  - intros st now user preds c Hc. unfold predict_and_prefetch.
    rewrite Hc. by eexists.
  - intros threshold now c items query Hq Hconf. unfold prefetch_one.
    rewrite dict_get_query_confidence, Hq.
    by change (dict_get "confidence" (("confidence", JFloat 1) :: items))
      with (Some (JFloat 1)); rewrite Hconf.
  - intros threshold now c items rest Hq.
    assert (Hone : prefetch_one threshold now c (JObj items) = None)
      by (unfold prefetch_one; by rewrite Hq).
    split; [done|]. cbn [prefetch_predictions]. by rewrite Hone.
Qed.

Lemma prediction_soft_failure_witness :
  search_array "Sorry, no idea." = None
  ∧ get_predictions_from_llm toy_loads (LLMContent "Sorry, no idea.") = []
  ∧ search_array "Maybe [one, two] or [3]" = Some "[one, two]"
  ∧ toy_loads (PyStr.replace_char single_quote double_quote "[one, two]")
    = None
  ∧ get_predictions_from_llm toy_loads (LLMContent "Maybe [one, two] or [3]")
    = []
  ∧ dict_get "query" [("confidence", JFloat (9 # 10))] = None
  ∧ prefetch_predictions (6 # 10) 50 [no_query_pred; stock_pred] delhi_cache
    = (delhi_cache, true).
Proof.
  pose proof (prediction_soft_failure toy_loads)
    as (_ & Hnone & Hfail & _ & _ & _ & Hquery).
  split; [reflexivity|]. split; [by apply Hnone|].
  split; [reflexivity|]. split; [reflexivity|].
  split; [by apply (Hfail _ "[one, two]")|].
  split; [reflexivity|].
  by apply (Hquery (6 # 10) 50 delhi_cache [("confidence", JFloat (9 # 10))]
              [stock_pred]).
Defined.

(** ** C6: counters and miss rate *)

Lemma resolve_cases now query c a :
  cache_ok c →
  (∃ e fuzzy,
     resolve now query c a = (c, count_hit a, result e, hit_source_of fuzzy e)
     ∧ (hit_source_of fuzzy e = "cache" ∨ hit_source_of fuzzy e = "predicted"
        ∨ hit_source_of fuzzy e = "fuzzy_cache"))
  ∨ resolve now query c a
    = (dict_set (normalize_query query)
         (backend_entry now ("Backend result for " +:+ query)) c,
       count_miss a, "Backend result for " +:+ query, "backend").
Proof.
  intros Hok.
  destruct (find_entry c (normalize_query query)) as [[oe fuzzy] key] eqn:Hfind.
  destruct oe as [e|]; [destruct (fresh now e) eqn:Hfresh|].
  - left. exists e, fuzzy. split; [by eapply resolve_hit|].
    destruct (find_entry_elem _ _ _ _ _ Hfind) as [k Hk].
    destruct (hit_source_of_ok fuzzy e query now (cache_ok_get k e c Hok Hk))
      as [Hh Hne].
    unfold hit_ok in Hh. simpl in Hh.
    destruct Hh as [?|[?|[?|?]]]; [done|auto..].
  - right. by eapply resolve_miss.
  - right. by eapply (resolve_miss _ _ _ _ None).
Qed.

Lemma counts_partition (l : list hit) :
  Forall hit_ok l → miss_count l + hit_count l = Z.of_nat (length l).
Proof.
  unfold miss_count, hit_count. induction 1 as [|h l Hh _ IH]; [done|].
  assert (Hcase : is_miss h = true ∧ is_hit h = false
                  ∨ is_miss h = false ∧ is_hit h = true).
  { unfold is_miss, is_hit.
    destruct Hh as [->|[->|[->| ->]]]; simpl; auto. }
  rewrite !filter_cons.
  destruct Hcase as [[-> ->]|[-> ->]]; simpl length; lia.
Qed.

(** C6.  In every state the server reaches, a search answered by the
    backend adds one to [total_backend_calls] and nothing else, and a search
    answered from the cache, whether its source is [cache], [predicted] or
    [fuzzy_cache], adds one to [total_cache_hits] and one to
    [api_calls_saved]; the miss rate of the dashboard is the number of
    [backend] records of the hit log over the number of its records, which
    are all misses or hits, and 0 when the log is empty. *)
Theorem analytics_counters (ops : list op) (user query : string) (now : Z) :
  (∃ st' out a',
     search (run init_state ops) now query user = Some (st', out)
     ∧ USER_ANALYTICS st' !! user = Some a'
     ∧ (out_source out = "backend"
        ∧ a' = Analytics
                 (api_calls_saved
                    (default (Analytics 0 0 0)
                       (USER_ANALYTICS (run init_state ops) !! user)))
                 (total_backend_calls
                    (default (Analytics 0 0 0)
                       (USER_ANALYTICS (run init_state ops) !! user)) + 1)
                 (total_cache_hits
                    (default (Analytics 0 0 0)
                       (USER_ANALYTICS (run init_state ops) !! user)))
        ∨ (out_source out = "cache" ∨ out_source out = "predicted"
           ∨ out_source out = "fuzzy_cache")
          ∧ a' = Analytics
                   (api_calls_saved
                      (default (Analytics 0 0 0)
                         (USER_ANALYTICS (run init_state ops) !! user)) + 1)
                   (total_backend_calls
                      (default (Analytics 0 0 0)
                         (USER_ANALYTICS (run init_state ops) !! user)))
                   (total_cache_hits
                      (default (Analytics 0 0 0)
                         (USER_ANALYTICS (run init_state ops) !! user)) + 1)))
  ∧ (∃ st' d,
       dashboard (run init_state ops) now user = Some (st', d)
       ∧ dash_last_10_hits d
         = default [] (USER_HIT_LOG (run init_state ops) !! user)
       ∧ miss_count (dash_last_10_hits d) + hit_count (dash_last_10_hits d)
         = Z.of_nat (length (dash_last_10_hits d))
       ∧ (dash_last_10_hits d = [] → dash_miss_rate d = 0%Q)
       ∧ (dash_last_10_hits d ≠ [] →
          dash_miss_rate d
          = (inject_Z (miss_count (dash_last_10_hits d))
             / inject_Z (miss_count (dash_last_10_hits d)
                         + hit_count (dash_last_10_hits d)))%Q)).
Proof.
  pose proof (run_ok ops) as Hok. pose proof Hok as (Hsame & Hcaches & Hlogs).
  set (st := run init_state ops) in *. split.
  - rewrite (search_eq st now query user Hsame).
    set (a := default _ (USER_ANALYTICS st !! user)).
    assert (Hc : cache_ok (default [] (USER_CACHE st !! user))).
    { destruct (USER_CACHE st !! user) eqn:Hu; [by eapply Hcaches|].
      apply cache_ok_nil. }
    destruct (resolve_cases now query _ a Hc) as [(e & fuzzy & -> & Hsrc)| ->].
    + eexists _, _, _. split; [done|]. simpl.
      split; [by rewrite lookup_insert_eq|]. by right.
    + eexists _, _, _. split; [done|]. simpl.
      split; [by rewrite lookup_insert_eq|]. by left.
  - unfold dashboard. rewrite get_user_data_default by done.
    eexists _, _. split; [done|]. simpl.
    set (log := default [] (USER_HIT_LOG st !! user)).
    assert (Hlog : Forall hit_ok log).
    { subst log. destruct (USER_HIT_LOG st !! user) eqn:Hu; [|constructor].
      by destruct (Hlogs _ _ Hu). }
    pose proof (counts_partition log Hlog) as Hsum.
    split_and!; [done|done| |].
    + by intros ->.
    + intros Hne. unfold miss_rate. rewrite Hsum.
      destruct log; [done|]. by destruct (0 <? _) eqn:Hpos.
Qed.

(** ** C7: the confidence threshold *)

(** C7.  For a request body that is an object: when its [confidence] is a
    float between 0 and 1, [set_confidence] makes it the threshold, changes
    nothing else and reports success; when it is a float outside that
    range, a value of another type (an integer included), or missing, it
    reports the rejection and leaves the whole state as it is. *)
Theorem set_confidence_gate (st : state) (items : list (string * json)) :
  (∀ conf,
     dict_get "confidence" items = Some (JFloat conf) →
     (0 <= conf)%Q → (conf <= 1)%Q →
     set_confidence st (JObj items)
     = Some (State (USER_CACHE st) (USER_HIT_LOG st) (USER_PREDICTIONS st)
               (USER_ANALYTICS st) conf,
             ConfidenceOk conf))
  ∧ ((∀ conf,
        dict_get "confidence" items = Some (JFloat conf) →
        ¬ ((0 <= conf)%Q ∧ (conf <= 1)%Q)) →
     set_confidence st (JObj items) = Some (st, ConfidenceInvalid)).
Proof.
  split.
  - intros conf Hget Hlo Hhi. unfold set_confidence. rewrite Hget.
    apply Qle_bool_iff in Hlo, Hhi. by rewrite Hlo, Hhi.
  - intros Hbad. unfold set_confidence.
    destruct (dict_get "confidence" items) as [[]|] eqn:Hget; try done.
    destruct (Qle_bool 0 q) eqn:Hlo; [|done].
    destruct (Qle_bool q 1) eqn:Hhi; [|done].
    exfalso. apply (Hbad q eq_refl). split; by apply Qle_bool_iff.
Qed.

Lemma set_confidence_gate_witness :
  dict_get "confidence" [("confidence", JFloat (4 # 10))]
  = Some (JFloat (4 # 10))
  ∧ (0 <= 4 # 10)%Q ∧ (4 # 10 <= 1)%Q
  ∧ set_confidence init_state (JObj [("confidence", JFloat (4 # 10))])
    = Some (State ∅ ∅ ∅ ∅ (4 # 10), ConfidenceOk (4 # 10))
  ∧ set_confidence init_state (JObj [("confidence", JFloat (15 # 10))])
    = Some (init_state, ConfidenceInvalid)
  ∧ set_confidence init_state (JObj [("confidence", JInt 1)])
    = Some (init_state, ConfidenceInvalid).
Proof.
  split; [reflexivity|]. split; [discriminate|]. split; [discriminate|].
  split; [|split].
  - apply (proj1 (set_confidence_gate init_state
                    [("confidence", JFloat (4 # 10))]));
      [reflexivity|discriminate..].
  - apply (proj2 (set_confidence_gate init_state
                    [("confidence", JFloat (15 # 10))])).
    intros conf [= <-] [_ Hhi]. by apply Hhi.
  - apply (proj2 (set_confidence_gate init_state
                    [("confidence", JInt 1)])).
    intros conf Hget. discriminate Hget.
Defined.

(** ** The CSV text read back *)

Lemma string_append_assoc (s1 s2 s3 : string) :
  (s1 +:+ s2) +:+ s3 = s1 +:+ s2 +:+ s3.
Proof.
  induction s1 as [|ch s1 IH]; [done|].
  change (String ch ((s1 +:+ s2) +:+ s3) = String ch (s1 +:+ s2 +:+ s3)).
  by f_equal.
Qed.

Lemma string_append_nil_r (s : string) : s +:+ "" = s.
Proof.
  induction s as [|ch s IH]; [done|].
  change (String ch (s +:+ "") = String ch s). by f_equal.
Qed.

Lemma needs_quote_false ch :
  needs_quote ch = false →
  Ascii.eqb ch ","%char = false ∧ Ascii.eqb ch double_quote = false
  ∧ Ascii.eqb ch CR = false ∧ Ascii.eqb ch LF = false.
Proof.
  unfold needs_quote, CR, LF.
  intros [[[? ?]%orb_false_iff ?]%orb_false_iff ?]%orb_false_iff.
  by split_and!.
Qed.

(** An unquoted run of ordinary characters is read as it is. *)
Lemma csv_read_plain field row rows s rest :
  any_char needs_quote s = false →
  csv_read Plain field row rows (s +:+ rest)
  = csv_read Plain (field +:+ s) row rows rest.
Proof.
  revert field. induction s as [|ch s IH]; intros field.
  - intros _. by rewrite string_append_nil_r.
  - cbn [any_char]. intros [Hch Hs]%orb_false_iff.
    destruct (needs_quote_false ch Hch) as (Hc & Hq & Hr & Hl).
    change (String ch s +:+ rest) with (String ch (s +:+ rest)).
    cbn [csv_read]. rewrite Hc, Hr, Hl, Hq. cbn [orb].
    rewrite IH by done. by rewrite string_append_assoc.
Qed.

(** A quoted run is read up to its closing quote, the doubled quotes
    giving one each. *)
Lemma csv_read_quoted field row rows s rest :
  csv_read Quoted field row rows
    (double_quotes s +:+ String double_quote rest)
  = csv_read QuoteEnd (field +:+ s) row rows rest.
Proof.
  revert field. induction s as [|ch s IH]; intros field.
  - change (double_quotes "" +:+ String double_quote rest)
      with (String double_quote rest).
    cbn [csv_read]. by rewrite Ascii.eqb_refl, string_append_nil_r.
  - cbn [double_quotes]. destruct (Ascii.eqb ch double_quote) eqn:Hq.
    + change (String ch (String ch (double_quotes s))
              +:+ String double_quote rest)
        with (String ch (String ch (double_quotes s
                                    +:+ String double_quote rest))).
      cbn [csv_read]. rewrite !Hq.
      rewrite IH. by rewrite string_append_assoc.
    + change (String ch (double_quotes s) +:+ String double_quote rest)
        with (String ch (double_quotes s +:+ String double_quote rest)).
      cbn [csv_read]. rewrite Hq.
      rewrite IH. by rewrite string_append_assoc.
Qed.

Lemma csv_read_plain_field t row rows rest :
  any_char needs_quote t = false →
  csv_read FieldStart "" row rows (t +:+ String ","%char rest)
  = csv_read FieldStart "" (row ++ [t])%list rows rest
  ∧ csv_read FieldStart "" row rows (t +:+ String CR rest)
    = csv_read WantLF "" [] (rows ++ [(row ++ [t])%list])%list rest.
Proof.
  destruct t as [|ch t]; [done|].
  cbn [any_char]. intros [Hch Ht]%orb_false_iff.
  destruct (needs_quote_false ch Hch) as (Hc & Hq & Hr & Hl).
  split.
  - change (String ch t +:+ String ","%char rest)
      with (String ch (t +:+ String ","%char rest)).
    cbn [csv_read]. rewrite Hq, Hc, Hr, Hl.
    by rewrite csv_read_plain.
  - change (String ch t +:+ String CR rest)
      with (String ch (t +:+ String CR rest)).
    cbn [csv_read]. rewrite Hq, Hc, Hr, Hl.
    by rewrite csv_read_plain.
Qed.

Lemma uint_text_plain d :
  any_char needs_quote (NilEmpty.string_of_uint d) = false.
Proof.
  induction d as [|d IH|d IH|d IH|d IH|d IH|d IH|d IH|d IH|d IH|d IH];
    [done|cbn [NilEmpty.string_of_uint any_char]; by rewrite IH..].
Qed.

Lemma of_int_plain n : any_char needs_quote (PyStr.of_int n) = false.
Proof.
  unfold PyStr.of_int, NilZero.string_of_int, NilZero.string_of_uint.
  destruct (Z.to_int n) as [d|d].
  - destruct d; [done|apply uint_text_plain..].
  - cbn [any_char]. destruct d; [done|by rewrite uint_text_plain..].
Qed.

(** One cell, followed by a comma or by the CR of the line terminator. *)
Lemma csv_read_field x row rows rest :
  csv_read FieldStart "" row rows (csv_field x +:+ String ","%char rest)
  = csv_read FieldStart "" (row ++ [cell_text x])%list rows rest
  ∧ csv_read FieldStart "" row rows (csv_field x +:+ String CR rest)
    = csv_read WantLF "" [] (rows ++ [(row ++ [cell_text x])%list])%list rest.
Proof.
  destruct x as [s|n]; cbn [csv_field cell_text].
  - destruct (any_char needs_quote s) eqn:Hs;
      [|by apply csv_read_plain_field].
    assert (Hshape : ∀ tail,
      (String double_quote (double_quotes s) +:+ String double_quote "")
      +:+ tail
      = String double_quote
          (double_quotes s +:+ String double_quote tail)).
    { intros tail. rewrite string_append_assoc. done. }
    rewrite !Hshape. cbn [csv_read]. rewrite Ascii.eqb_refl.
    rewrite !csv_read_quoted. by cbn [csv_read].
  - apply csv_read_plain_field, of_int_plain.
Qed.

(** One line of the writer is one record of the reader. *)
Lemma csv_read_line cells row rows rest :
  cells ≠ [] →
  csv_read FieldStart "" row rows (csv_line cells +:+ rest)
  = csv_read FieldStart "" []
      (rows ++ [(row ++ map cell_text cells)%list])%list rest.
Proof.
  unfold csv_line, crlf. revert row.
  induction cells as [|x cells IH]; intros row Hne; [done|].
  destruct cells as [|y cells].
  - change (String.concat "," (map csv_field [x])) with (csv_field x).
    rewrite string_append_assoc.
    change (String "013"%char (String "010"%char "") +:+ rest)
      with (String CR (String LF rest)).
    rewrite (proj2 (csv_read_field x row rows _)).
    cbn [csv_read]. by rewrite Ascii.eqb_refl.
  - change (String.concat "," (map csv_field (x :: y :: cells)))
      with (csv_field x +:+ "," +:+ String.concat "," (map csv_field (y :: cells))).
    rewrite !string_append_assoc.
    change ("," +:+ String.concat "," (map csv_field (y :: cells))
            +:+ String "013"%char (String "010"%char "") +:+ rest)
      with (String ","%char
              (String.concat "," (map csv_field (y :: cells))
               +:+ String "013"%char (String "010"%char "") +:+ rest)).
    rewrite (proj1 (csv_read_field x row rows _)).
    rewrite <- string_append_assoc. rewrite IH by done.
    change (map cell_text (x :: y :: cells))
      with ([cell_text x] ++ map cell_text (y :: cells))%list.
    by rewrite app_assoc.
Qed.

Lemma csv_text_cons row rows :
  csv_text (row :: rows) = csv_line row +:+ csv_text rows.
Proof.
  unfold csv_text. destruct rows as [|r rows]; [|done].
  cbn [map String.concat]. by rewrite string_append_nil_r.
Qed.

(** The text of the writer, read back, gives the cells it was given. *)
Lemma csv_read_text lines rows :
  Forall (fun cells => cells ≠ []) lines →
  csv_read FieldStart "" [] rows (csv_text lines)
  = Some (rows ++ map (map cell_text) lines)%list.
Proof.
  intros Hall. revert rows.
  induction Hall as [|cells lines Hne _ IH]; intros rows.
  - cbn. by rewrite app_nil_r.
  - rewrite csv_text_cons, csv_read_line by done. rewrite IH.
    cbn [map app]. by rewrite <- app_assoc.
Qed.

Lemma int_of_text_of_int n : int_of_text (PyStr.of_int n) = Some n.
Proof.
  unfold int_of_text, PyStr.of_int. rewrite NilZero.isi.
  - cbn [option_map]. by rewrite DecimalZ.of_to.
  - destruct n; intros [= H]; by apply DecimalPos.Unsigned.to_uint_nonnil in H.
  - destruct n; intros [= H]; by apply DecimalPos.Unsigned.to_uint_nonnil in H.
Qed.

Lemma decode_rows_cache (c : cache) :
  decode_rows (map (map cell_text) (map csv_row c))
  = Some (map (fun item =>
                 (fst item, source (snd item), timestamp (snd item),
                  expiry (snd item))) c).
Proof.
  induction c as [|[q e] c IH]; [done|].
  cbn [map decode_rows csv_row cell_text decode_row fst snd].
  by rewrite !int_of_text_of_int, IH.
Qed.

(** ** C8: the CSV export *)

(** C8.  In every state the server reaches, [export_dashboard] with format
    [csv] answers with a CSV text that holds a header and one row per cache
    item, in the order of the cache and without any test of freshness.  The
    text begins with the line of the four column names; read back as CSV it
    gives exactly the header and, for every entry of the cache, expired or
    not, the record [query, source, timestamp, expiry], the two integers in
    decimal; decoded, it gives back the key, source, creation time and time
    to live of every entry.  The keys are distinct. *)
Theorem export_csv_rows (ops : list op) (user : string) :
  (∃ body,
     export_dashboard (run init_state ops) "csv" user
     = Some (create_user (run init_state ops) user, ExportCsv body)
     ∧ body
       = csv_text
           (csv_rows (default [] (USER_CACHE (run init_state ops) !! user)))
     ∧ (∃ rest, body = "query,source,timestamp,expiry" +:+ crlf +:+ rest)
     ∧ csv_parse body
       = Some (["query"; "source"; "timestamp"; "expiry"]
               :: map (fun item =>
                         [fst item; source (snd item);
                          PyStr.of_int (timestamp (snd item));
                          PyStr.of_int (expiry (snd item))])
                    (default [] (USER_CACHE (run init_state ops) !! user)))
     ∧ decode_export body
       = Some (map (fun item =>
                      (fst item, source (snd item), timestamp (snd item),
                       expiry (snd item)))
                 (default [] (USER_CACHE (run init_state ops) !! user))))
  ∧ csv_rows (default [] (USER_CACHE (run init_state ops) !! user))
    = [CStr "query"; CStr "source"; CStr "timestamp"; CStr "expiry"]
      :: map (fun item =>
                [CStr (fst item); CStr (source (snd item));
                 CInt (timestamp (snd item)); CInt (expiry (snd item))])
           (default [] (USER_CACHE (run init_state ops) !! user))
  ∧ length (csv_rows (default [] (USER_CACHE (run init_state ops) !! user)))
    = S (length (default [] (USER_CACHE (run init_state ops) !! user)))
  ∧ NoDup (dict_keys (default [] (USER_CACHE (run init_state ops) !! user)))
  ∧ ∀ q e,
      dict_get q (default [] (USER_CACHE (run init_state ops) !! user))
      = Some e →
      [CStr q; CStr (source e); CInt (timestamp e); CInt (expiry e)]
      ∈ csv_rows (default [] (USER_CACHE (run init_state ops) !! user)).
Proof.
  pose proof (run_ok ops) as (Hsame & Hcaches & _).
  set (st := run init_state ops) in *.
  set (c := default [] (USER_CACHE st !! user)).
  assert (Hparse : csv_parse (csv_text (csv_rows c))
                   = Some (map (map cell_text) (csv_rows c))).
  { unfold csv_parse. rewrite csv_read_text; [done|].
    unfold csv_rows. constructor; [done|].
    apply Forall_fmap, Forall_true. by intros [q e]. }
  split_and!.
  - exists (csv_text (csv_rows c)). split_and!.
    + unfold export_dashboard. by rewrite get_user_data_default.
    + done.
    + unfold csv_rows. rewrite csv_text_cons. by eexists.
    + rewrite Hparse. unfold csv_rows. cbn [map]. do 2 f_equal.
      rewrite map_map. apply map_ext. by intros [q e].
    + unfold decode_export. rewrite Hparse. unfold csv_rows. cbn [map].
      rewrite decide_True by done. apply decode_rows_cache.
  - unfold csv_rows, csv_header. f_equal. apply map_ext. by intros [q e].
  - unfold csv_rows. simpl. by rewrite length_map.
  - subst c. destruct (USER_CACHE st !! user) eqn:Hu; [|constructor].
    by destruct (Hcaches _ _ Hu).
  - intros q e Hget%dict_get_elem. unfold csv_rows. right.
    apply list_elem_of_fmap. by exists (q, e).
Qed.

(** A key that holds a comma is quoted in the text and comes back whole;
    the entry created at time -5 is long expired and is exported. *)
Example export_quotes_comma :
  snd <$> export_dashboard (run init_state quoted_ops) "csv" "guest"
  = Some (ExportCsv
            ("query,source,timestamp,expiry" +:+ crlf
             +:+ String double_quote "a,b" +:+ String double_quote ""
             +:+ ",backend,-5,300" +:+ crlf
             +:+ "weather in delhi,backend,1000,300" +:+ crlf))
  ∧ (export_dashboard (run init_state quoted_ops) "csv" "guest"
     ≫= fun r => match snd r with
                 | ExportCsv body => decode_export body
                 | _ => None
                 end)
    = Some [("a,b", "backend", -5, 300);
            ("weather in delhi", "backend", 1000, 300)].
Proof. split; reflexivity. Qed.

(** An expired entry is in the export and not in the dashboard. *)
Example export_keeps_expired :
  snd <$> export_dashboard (run init_state stale_ops) "csv" "guest"
  = Some (ExportCsv
            ("query,source,timestamp,expiry" +:+ crlf
             +:+ "weather in delhi,backend,0,300" +:+ crlf
             +:+ "weathr in delhy,backend,900,300" +:+ crlf))
  ∧ dash_cache <$> (snd <$> dashboard (run init_state stale_ops) 1000 "guest")
    = Some [("weathr in delhy", "backend", 200)].
Proof. split; reflexivity. Qed.

(** ** C9: forced refresh *)

(** C9.  In every state the server reaches and whatever the user's cache
    holds, [refresh] answers with the refreshed backend result and puts at
    the normalized key an entry with that result, source [backend] and the
    time of the refresh as creation time; no test of freshness and no fuzzy
    lookup takes part, the other keys keep their entries, and hit logs and
    counters are those [get_user_data] left. *)
Theorem refresh_overwrites (ops : list op) (user query : string) (now : Z) :
  ∃ st' c',
    refresh (run init_state ops) now query user
    = Some (st', "Backend result for " +:+ query +:+ " (refreshed)")
    ∧ USER_CACHE st' !! user = Some c'
    ∧ c' = dict_set (normalize_query query)
             (Entry ("Backend result for " +:+ query +:+ " (refreshed)") now
                CACHE_EXPIRY_SECONDS "backend" None)
             (default [] (USER_CACHE (run init_state ops) !! user))
    ∧ dict_get (normalize_query query) c'
      = Some (Entry ("Backend result for " +:+ query +:+ " (refreshed)") now
                CACHE_EXPIRY_SECONDS "backend" None)
    ∧ (∀ k, k ≠ normalize_query query →
            dict_get k c'
            = dict_get k (default [] (USER_CACHE (run init_state ops) !! user)))
    ∧ USER_HIT_LOG st' = USER_HIT_LOG (create_user (run init_state ops) user)
    ∧ USER_ANALYTICS st'
      = USER_ANALYTICS (create_user (run init_state ops) user).
Proof.
  pose proof (run_ok ops) as (Hsame & _).
  unfold refresh. rewrite get_user_data_default by done.
  eexists _, _. split; [done|]. simpl.
  split; [by rewrite lookup_insert_eq|].
  split_and!; [done|apply dict_get_set_eq| |done..].
  intros k Hne. by apply dict_get_set_ne.
Qed.

(** A refresh overwrites a live prefetched entry as well. *)
Example refresh_predicted :
  (USER_CACHE <$>
     (fst <$> refresh
        (State {["guest" := [("stock price", stock_entry)]]} {["guest" := []]}
           {["guest" := []]} {["guest" := Analytics 0 0 0]} DEFAULT_THRESHOLD)
        60 " Stock PRICE" "guest"))
  = Some {["guest" :=
            [("stock price",
              Entry "Backend result for  Stock PRICE (refreshed)" 60 300
                "backend" None)]]}.
Proof. reflexivity. Qed.

(** ** C10: users are created on first use *)

Lemma create_user_dom st user :
  is_Some (USER_CACHE (create_user st user) !! user).
Proof.
  unfold create_user. destruct (USER_CACHE st !! user) eqn:Hu; [by eexists|].
  simpl. rewrite lookup_insert_eq. by eexists.
Qed.

(** C10.  In every state the server reaches the four dictionaries have the
    same users; the five handlers that take a user succeed for every user,
    known or not, and leave a state that knows the user; for a user not
    known before, [get_user_data] creates an empty cache, an empty hit log,
    an empty prediction list and zero counters, and the dashboard of such a
    user is empty, with miss rate 0 and zero counters. *)
Theorem lazy_user_context (ops : list op) (user : string) :
  same_users (run init_state ops)
  ∧ (∀ now query format,
       (∃ st' out, search (run init_state ops) now query user = Some (st', out)
                   ∧ is_Some (USER_CACHE st' !! user) ∧ same_users st')
       ∧ (∃ st' out, dashboard (run init_state ops) now user = Some (st', out)
                     ∧ is_Some (USER_CACHE st' !! user) ∧ same_users st')
       ∧ (∃ st' out, get_predictions (run init_state ops) user = Some (st', out)
                     ∧ is_Some (USER_CACHE st' !! user) ∧ same_users st')
       ∧ (∃ st' out, refresh (run init_state ops) now query user
                     = Some (st', out)
                     ∧ is_Some (USER_CACHE st' !! user) ∧ same_users st')
       ∧ (∃ st' out, export_dashboard (run init_state ops) format user
                     = Some (st', out)
                     ∧ is_Some (USER_CACHE st' !! user) ∧ same_users st'))
  ∧ (USER_CACHE (run init_state ops) !! user = None →
     get_user_data (run init_state ops) user
     = Some (create_user (run init_state ops) user,
             ([], [], [], Analytics 0 0 0))
     ∧ USER_CACHE (create_user (run init_state ops) user) !! user = Some []
     ∧ USER_HIT_LOG (create_user (run init_state ops) user) !! user = Some []
     ∧ USER_PREDICTIONS (create_user (run init_state ops) user) !! user
       = Some []
     ∧ USER_ANALYTICS (create_user (run init_state ops) user) !! user
       = Some (Analytics 0 0 0)
     ∧ ∀ now,
         dashboard (run init_state ops) now user
         = Some (create_user (run init_state ops) user,
                 DashboardOut [] [] 0%Q [] 0 0 0 0%Q)).
Proof.
  pose proof (run_ok ops) as Hok. set (st := run init_state ops) in *.
  pose proof (proj1 Hok) as Hsame.
  assert (Hstep : ∀ o, same_users (step st o))
    by (intros o; apply step_ok, Hok).
  split; [done|]. split.
  - intros now query format. split_and!.
    + pose proof (Hstep (OpSearch now query user)) as Hs. simpl in Hs.
      rewrite (search_eq st now query user Hsame) in *.
      destruct (resolve now query _ _) as [[[c' a'] res] src].
      eexists _, _. split; [done|]. split; [|exact Hs].
      simpl. rewrite lookup_insert_eq. by eexists.
    + pose proof (Hstep (OpDashboard now user)) as Hs. simpl in Hs.
      unfold dashboard in *. rewrite get_user_data_default in * by done.
      eexists _, _. split; [done|]. split; [apply create_user_dom|exact Hs].
    + pose proof (Hstep (OpPredict user)) as Hs. simpl in Hs.
      unfold get_predictions in *. rewrite get_user_data_default in * by done.
      eexists _, _. split; [done|]. split; [apply create_user_dom|exact Hs].
    + pose proof (Hstep (OpRefresh now query user)) as Hs. simpl in Hs.
      unfold refresh in *. rewrite get_user_data_default in * by done.
      eexists _, _. split; [done|]. split; [|exact Hs].
      simpl. rewrite lookup_insert_eq. by eexists.
    + pose proof (Hstep (OpExport format user)) as Hs. simpl in Hs.
      unfold export_dashboard in *.
      rewrite get_user_data_default in * by done.
      destruct (String.eqb format "csv");
        (eexists _, _; split; [done|]; split; [apply create_user_dom|exact Hs]).
  - intros Hnew. pose proof (get_user_data_new st user Hnew) as Hget.
    split; [done|].
    assert (Hcr : create_user st user
                  = State (<[user := []]> (USER_CACHE st))
                      (<[user := []]> (USER_HIT_LOG st))
                      (<[user := []]> (USER_PREDICTIONS st))
                      (<[user := Analytics 0 0 0]> (USER_ANALYTICS st))
                      (PREFETCH_CONFIDENCE_THRESHOLD st))
      by (unfold create_user; by rewrite Hnew).
    split_and!; try (rewrite Hcr; simpl; by rewrite lookup_insert_eq).
    intros now. unfold dashboard. by rewrite Hget.
Qed.

Lemma lazy_user_context_witness :
  USER_CACHE (run init_state delhi_ops) !! "bob" = None
  ∧ get_user_data (run init_state delhi_ops) "bob"
    = Some (create_user (run init_state delhi_ops) "bob",
            ([], [], [], Analytics 0 0 0))
  ∧ dashboard (run init_state delhi_ops) 1200 "bob"
    = Some (create_user (run init_state delhi_ops) "bob",
            DashboardOut [] [] 0%Q [] 0 0 0 0%Q)
  ∧ dom (USER_CACHE (create_user (run init_state delhi_ops) "bob"))
    = {["guest"; "bob"]}.
Proof.
  split; [reflexivity|].
  destruct (proj2 (proj2 (lazy_user_context delhi_ops "bob")) eq_refl)
    as (Hget & _ & _ & _ & _ & Hdash).
  split; [exact Hget|]. split; [exact (Hdash 1200)|]. reflexivity.
Defined.

(** * Further properties of the code *)

(** ** [normalize_query] *)

Lemma isspace_lower_char c :
  PyStr.isspace (PyStr.lower_char c) = PyStr.isspace c.
Proof. destruct c as [[] [] [] [] [] [] [] []]; reflexivity. Qed.

Lemma lower_char_idem c :
  PyStr.lower_char (PyStr.lower_char c) = PyStr.lower_char c.
Proof. destruct c as [[] [] [] [] [] [] [] []]; reflexivity. Qed.

Lemma lower_idem s : PyStr.lower (PyStr.lower s) = PyStr.lower s.
Proof. induction s as [|c s IH]; simpl; [done|]. by rewrite lower_char_idem, IH. Qed.

Lemma lower_lstrip s : PyStr.lower (PyStr.lstrip s) = PyStr.lstrip (PyStr.lower s).
Proof.
  induction s as [|c s IH]; simpl; [done|]. rewrite isspace_lower_char.
  by destruct (PyStr.isspace c).
Qed.

Lemma lower_rstrip s : PyStr.lower (PyStr.rstrip s) = PyStr.rstrip (PyStr.lower s).
Proof.
  induction s as [|c s IH]; simpl; [done|]. rewrite <- IH, isspace_lower_char.
  destruct (PyStr.rstrip s); simpl; [by destruct (PyStr.isspace c)|done].
Qed.

Lemma lower_strip s : PyStr.lower (PyStr.strip s) = PyStr.strip (PyStr.lower s).
Proof. unfold PyStr.strip. by rewrite lower_rstrip, lower_lstrip. Qed.

Lemma rstrip_idem s : PyStr.rstrip (PyStr.rstrip s) = PyStr.rstrip s.
Proof.
  induction s as [|c s IH]; simpl; [done|].
  destruct (PyStr.rstrip s) as [|d r] eqn:Hr.
  - destruct (PyStr.isspace c) eqn:Hc; simpl; [done|by rewrite Hc].
  - change (PyStr.rstrip (String c (String d r)))
      with (match PyStr.rstrip (String d r) with
            | EmptyString =>
                if PyStr.isspace c then EmptyString else String c EmptyString
            | r0 => String c r0
            end).
    by rewrite IH.
Qed.

(** A string that does not begin with white space. *)
Lemma lstrip_head s c :
  head (list_ascii_of_string (PyStr.lstrip s)) = Some c →
  PyStr.isspace c = false.
Proof.
  induction s as [|a s IH]; simpl; [done|].
  destruct (PyStr.isspace a) eqn:Ha; [done|]. simpl. by intros [= <-].
Qed.

Lemma rstrip_head s :
  (∀ c, head (list_ascii_of_string s) = Some c → PyStr.isspace c = false) →
  head (list_ascii_of_string (PyStr.rstrip s)) = head (list_ascii_of_string s).
Proof.
  destruct s as [|a s]; simpl; [done|]. intros Ha.
  rewrite (Ha a eq_refl). by destruct (PyStr.rstrip s).
Qed.

Lemma lstrip_fixed s :
  (∀ c, head (list_ascii_of_string s) = Some c → PyStr.isspace c = false) →
  PyStr.lstrip s = s.
Proof.
  destruct s as [|a s]; simpl; [done|]. intros Ha. by rewrite (Ha a eq_refl).
Qed.

Lemma rstrip_last s c :
  last (list_ascii_of_string (PyStr.rstrip s)) = Some c →
  PyStr.isspace c = false.
Proof.
  induction s as [|a s IH]; simpl; [done|].
  destruct (PyStr.rstrip s) as [|d r] eqn:Hr.
  - destruct (PyStr.isspace a) eqn:Ha; simpl; [done|]. by intros [= <-].
  - simpl in *. exact IH.
Qed.

Lemma strip_idem s : PyStr.strip (PyStr.strip s) = PyStr.strip s.
Proof.
  unfold PyStr.strip. rewrite (lstrip_fixed (PyStr.rstrip _)).
  - apply rstrip_idem.
  - rewrite rstrip_head by apply lstrip_head. apply lstrip_head.
Qed.

Lemma list_ascii_lower s :
  list_ascii_of_string (PyStr.lower s)
  = map PyStr.lower_char (list_ascii_of_string s).
Proof. induction s as [|c s IH]; simpl; [done|]. by rewrite IH. Qed.

Lemma head_fmap {A B} (f : A → B) (l : list A) :
  head (map f l) = f <$> head l.
Proof. by destruct l. Qed.

(** X1.  [normalize_query] is idempotent, and a query, its lower-cased form
    and its stripped form have the same key. *)
Theorem normalize_query_idempotent (query : string) :
  normalize_query (normalize_query query) = normalize_query query
  ∧ normalize_query (PyStr.lower query) = normalize_query query
  ∧ normalize_query (PyStr.strip query) = normalize_query query.
Proof.
  unfold normalize_query. split_and!.
  - by rewrite <- lower_strip, lower_idem, strip_idem.
  - by rewrite <- lower_strip, lower_idem.
  - by rewrite strip_idem.
Qed.

(** X2.  A key made by [normalize_query] neither begins nor ends with a
    white-space character, and [str.lower] leaves each of its characters
    as it is. *)
Theorem normalize_query_shape (query : string) :
  (∀ c, head (list_ascii_of_string (normalize_query query)) = Some c →
        PyStr.isspace c = false)
  ∧ (∀ c, last (list_ascii_of_string (normalize_query query)) = Some c →
          PyStr.isspace c = false)
  ∧ Forall (fun c => PyStr.lower_char c = c)
      (list_ascii_of_string (normalize_query query)).
Proof.
  unfold normalize_query. rewrite list_ascii_lower. split_and!.
  - intros c. rewrite head_fmap. unfold PyStr.strip.
    rewrite rstrip_head by apply lstrip_head.
    destruct (head _) as [a|] eqn:Ha; [|done]. simpl. intros [= <-].
    rewrite isspace_lower_char. by apply (lstrip_head query).
  - intros c. rewrite fmap_last. unfold PyStr.strip.
    destruct (last _) as [a|] eqn:Ha; [|done]. simpl. intros [= <-].
    rewrite isspace_lower_char. by eapply rstrip_last.
  - apply Forall_fmap, Forall_true. intros c. apply lower_char_idem.
Qed.

(** ** The array text taken from the model's reply *)

Lemma upto_close_some s t :
  upto_close s = Some t →
  ∃ body post,
    s = body +:+ "]" +:+ post ∧ t = body +:+ "]"
    ∧ any_char (Ascii.eqb "]"%char) body = false.
Proof.
  revert t. induction s as [|c s IH]; simpl; intros t; [done|].
  destruct (Ascii.eqb_spec c "]"%char) as [->|Hne].
  - intros [= <-]. by exists "", s.
  - destruct (upto_close s) as [t'|]; [|done]. simpl. intros [= <-].
    destruct (IH t' eq_refl) as (body & post & -> & -> & Hbody).
    exists (String c body), post. split_and!; [done..|]. cbn [any_char].
    rewrite Hbody. destruct (Ascii.eqb_spec "]"%char c); [congruence|done].
Qed.

Lemma upto_close_none s mid post :
  upto_close s = None → s ≠ mid +:+ "]" +:+ post.
Proof.
  revert mid. induction s as [|c s IH]; simpl; intros mid.
  - by destruct mid.
  - destruct (Ascii.eqb_spec c "]"%char) as [->|Hne]; [done|].
    destruct (upto_close s) eqn:Hs; [done|]. intros _.
    destruct mid as [|d mid]; cbn [append].
    + intros [= Hc _]. by apply Hne.
    + intros [= _ Heq]. by apply (IH mid).
Qed.

Lemma append_assoc (s1 s2 s3 : string) :
  (s1 +:+ s2) +:+ s3 = s1 +:+ s2 +:+ s3.
Proof.
  induction s1 as [|c s1 IH]; [done|].
  change (String c ((s1 +:+ s2) +:+ s3) = String c (s1 +:+ s2 +:+ s3)).
  by f_equal.
Qed.

(** X3.  The text that [get_predictions_from_llm] hands to the decoder
    begins at the first ['['] of the reply and ends at the first [']'] after
    it, so an array that holds a nested array is cut at the inner bracket;
    there is no such text exactly when no ['['] of the reply is followed by
    a [']']. *)
Theorem search_array_first_bracket (content : string) :
  (∀ json_str, search_array content = Some json_str →
     ∃ pre body post,
       content = pre +:+ json_str +:+ post
       ∧ json_str = "[" +:+ body +:+ "]"
       ∧ any_char (Ascii.eqb "["%char) pre = false
       ∧ any_char (Ascii.eqb "]"%char) body = false)
  ∧ (search_array content = None →
     ∀ pre mid post, content ≠ pre +:+ "[" +:+ mid +:+ "]" +:+ post).
Proof.
  split.
  - induction content as [|c s IH]; simpl; intros json_str; [done|].
    destruct (Ascii.eqb_spec c "["%char) as [->|Hne].
    + destruct (upto_close s) as [t|] eqn:Ht; [|done]. simpl. intros [= <-].
      destruct (upto_close_some _ _ Ht) as (body & post & -> & -> & Hbody).
      exists "", body, post. split_and!; [|done..].
      change (String "[" (body +:+ "]" +:+ post)
              = String "[" ((body +:+ "]") +:+ post)).
      by rewrite append_assoc.
    + intros Hs. destruct (IH _ Hs) as (pre & body & post & -> & -> & Hpre & Hbody).
      exists (String c pre), body, post. split_and!; [done..| |done].
      cbn [any_char]. rewrite Hpre. destruct (Ascii.eqb_spec "["%char c); [congruence|done].
  - induction content as [|c s IH]; simpl; intros Hnone pre mid post.
    + by destruct pre.
    + destruct (Ascii.eqb_spec c "["%char) as [->|Hne].
      * destruct (upto_close s) eqn:Hs; [done|].
        destruct pre as [|d pre]; cbn [append].
        -- intros [= Heq]. by apply (upto_close_none _ mid post Hs).
        -- intros [= _ Heq].
           apply (upto_close_none _ (pre +:+ "[" +:+ mid) post Hs).
           by rewrite !append_assoc.
      * destruct pre as [|d pre]; cbn [append].
        -- intros [= Hc _]. by apply Hne.
        -- intros [= _ Heq]. by apply (IH Hnone pre mid post).
Qed.

Lemma search_array_first_bracket_witness :
  search_array "Here: [[1, 2], [3]] and more" = Some "[[1, 2]"
  ∧ ∃ pre body post,
      "Here: [[1, 2], [3]] and more" = pre +:+ "[[1, 2]" +:+ post
      ∧ "[[1, 2]" = "[" +:+ body +:+ "]"
      ∧ any_char (Ascii.eqb "["%char) pre = false
      ∧ any_char (Ascii.eqb "]"%char) body = false.
Proof.
  split; [reflexivity|].
  exact (proj1 (search_array_first_bracket "Here: [[1, 2], [3]] and more")
           "[[1, 2]" eq_refl).
Defined.

(** ** Users do not see each other *)

Lemma create_user_other st u v :
  u ≠ v →
  USER_CACHE (create_user st u) !! v = USER_CACHE st !! v
  ∧ USER_HIT_LOG (create_user st u) !! v = USER_HIT_LOG st !! v
  ∧ USER_PREDICTIONS (create_user st u) !! v = USER_PREDICTIONS st !! v
  ∧ USER_ANALYTICS (create_user st u) !! v = USER_ANALYTICS st !! v.
Proof.
  intros Hne. unfold create_user. destruct (USER_CACHE st !! u); [done|].
  simpl. by rewrite !lookup_insert_ne.
Qed.

(** X4.  A request or a thread of one user leaves the cache, the hit log,
    the prediction list and the counters of every other user as they
    were, in any state. *)
Theorem users_isolated (st : state) (o : op) (v : string) :
  op_user o ≠ Some v →
  USER_CACHE (step st o) !! v = USER_CACHE st !! v
  ∧ USER_HIT_LOG (step st o) !! v = USER_HIT_LOG st !! v
  ∧ USER_PREDICTIONS (step st o) !! v = USER_PREDICTIONS st !! v
  ∧ USER_ANALYTICS (step st o) !! v = USER_ANALYTICS st !! v.
Proof.
  intros Hv.
  destruct o as [now query u|now u preds|now u|u|data|now query u|format u];
    simpl in *;
    try (assert (Hne : u ≠ v) by congruence;
         pose proof (create_user_other st u v Hne) as (Hc & Hh & Hp & Ha)).
  - unfold search.
    destruct (get_user_data st u) as [[st1 [[[c h] p] a]]|] eqn:Hg; [|done].
    apply get_user_data_state in Hg as ->.
    destruct (resolve now query c a) as [[[c' a'] res] src]. simpl.
    by rewrite !lookup_insert_ne.
  - unfold predict_and_prefetch. destruct (USER_CACHE st !! u); [|done].
    simpl. by rewrite !lookup_insert_ne.
  - unfold dashboard.
    by destruct (get_user_data st u) as [[st1 [[[c h] p] a]]|] eqn:Hg;
      [apply get_user_data_state in Hg as ->|].
  - unfold get_predictions.
    by destruct (get_user_data st u) as [[st1 [[[c h] p] a]]|] eqn:Hg;
      [apply get_user_data_state in Hg as ->|].
  - unfold set_confidence. by repeat case_match.
  - unfold refresh.
    destruct (get_user_data st u) as [[st1 [[[c h] p] a]]|] eqn:Hg; [|done].
    apply get_user_data_state in Hg as ->. simpl.
    by rewrite !lookup_insert_ne.
  - unfold export_dashboard.
    destruct (get_user_data st u) as [[st1 [[[c h] p] a]]|] eqn:Hg; [|done].
    apply get_user_data_state in Hg as ->.
    by destruct (String.eqb format "csv").
Qed.

Lemma users_isolated_witness :
  op_user (OpSearch 1300 "weather in delhi" "bob") ≠ Some "guest"
  ∧ USER_CACHE (step (run init_state two_users_ops)
                  (OpSearch 1300 "weather in delhi" "bob")) !! "guest"
    = USER_CACHE (run init_state two_users_ops) !! "guest"
  ∧ USER_HIT_LOG (step (run init_state two_users_ops)
                    (OpSearch 1300 "weather in delhi" "bob")) !! "guest"
    = USER_HIT_LOG (run init_state two_users_ops) !! "guest"
  ∧ USER_PREDICTIONS (step (run init_state two_users_ops)
                        (OpSearch 1300 "weather in delhi" "bob")) !! "guest"
    = USER_PREDICTIONS (run init_state two_users_ops) !! "guest"
  ∧ USER_ANALYTICS (step (run init_state two_users_ops)
                      (OpSearch 1300 "weather in delhi" "bob")) !! "guest"
    = USER_ANALYTICS (run init_state two_users_ops) !! "guest".
Proof.
  assert (Hne : op_user (OpSearch 1300 "weather in delhi" "bob")
                ≠ Some "guest") by discriminate.
  split; [exact Hne|].
  exact (users_isolated (run init_state two_users_ops)
           (OpSearch 1300 "weather in delhi" "bob") "guest" Hne).
Defined.

(** ** Round trips through the cache *)

Lemma fresh_backend_entry now now' res :
  now' - now < CACHE_EXPIRY_SECONDS → fresh now' (backend_entry now res) = true.
Proof. intros Hlt. unfold fresh. simpl. by apply Z.ltb_lt. Qed.

(** A search for a key that holds a live entry written by the backend. *)
Lemma search_cached_backend st now' query' user c now res :
  state_ok st → USER_CACHE st !! user = Some c →
  dict_get (normalize_query query') c = Some (backend_entry now res) →
  now' - now < CACHE_EXPIRY_SECONDS →
  ∃ st2 out a,
    search st now' query' user = Some (st2, out)
    ∧ out_result out = res ∧ out_source out = "cache"
    ∧ USER_CACHE st2 !! user = Some c
    ∧ USER_ANALYTICS st !! user = Some a
    ∧ USER_ANALYTICS st2 !! user = Some (count_hit a).
Proof.
  intros Hok Hc Hget Hlt.
  destruct (search_known st now' query' user c (proj1 Hok) Hc)
    as (h & p & a & _ & _ & Ha & ->).
  rewrite (resolve_hit _ _ _ _ _ _ _ (find_entry_exact _ _ _ Hget))
    by (by apply fresh_backend_entry).
  eexists _, _, a. split; [done|]. simpl. by rewrite !lookup_insert_eq.
Qed.

(** X5.  After a search that went to the backend, a search of the same
    user for a query with the same key, less than [CACHE_EXPIRY_SECONDS]
    later, is answered from the cache with the text stored for the first
    spelling; it leaves the cache as it is and adds one to
    [api_calls_saved] and to [total_cache_hits]. *)
Theorem miss_then_hit (ops : list op) (user query query' : string)
    (now now' : Z) (st1 : state) (out1 : search_out) :
  search (run init_state ops) now query user = Some (st1, out1) →
  out_source out1 = "backend" →
  normalize_query query' = normalize_query query →
  now' - now < CACHE_EXPIRY_SECONDS →
  ∃ st2 out2 a1,
    search st1 now' query' user = Some (st2, out2)
    ∧ out_result out2 = "Backend result for " +:+ query
    ∧ out_source out2 = "cache"
    ∧ USER_CACHE st2 !! user = USER_CACHE st1 !! user
    ∧ USER_ANALYTICS st1 !! user = Some a1
    ∧ USER_ANALYTICS st2 !! user
      = Some (Analytics (api_calls_saved a1 + 1) (total_backend_calls a1)
                (total_cache_hits a1 + 1)).
Proof.
  intros Hs Hsrc Hnorm Hlt. pose proof (run_ok ops) as Hok.
  pose proof (search_ok _ _ _ _ _ _ Hok Hs) as Hok1.
  rewrite (search_eq _ now query user (proj1 Hok)) in Hs.
  assert (Hc : cache_ok (default [] (USER_CACHE (run init_state ops) !! user))).
  { destruct (USER_CACHE _ !! user) eqn:Hu; [|apply cache_ok_nil].
    destruct Hok as (_ & Hcaches & _). by eapply Hcaches. }
  destruct (resolve_cases now query _
              (default (Analytics 0 0 0)
                 (USER_ANALYTICS (run init_state ops) !! user)) Hc)
    as [(e & fuzzy & Hres & Hhit)|Hres]; rewrite Hres in Hs; simpl in Hs;
    injection Hs as <- <-; simpl in Hsrc.
  - rewrite Hsrc in Hhit. by destruct Hhit as [?|[?|?]].
  - destruct (search_cached_backend _ now' query' user
                (dict_set (normalize_query query)
                   (backend_entry now ("Backend result for " +:+ query))
                   (default [] (USER_CACHE (run init_state ops) !! user)))
                now ("Backend result for " +:+ query) Hok1)
      as (st2 & out2 & a1 & Hs2 & Hr & Hsrc2 & Hc2 & Ha1 & Ha2);
      [simpl; apply lookup_insert_eq
      |rewrite Hnorm; apply dict_get_set_eq|done|].
    exists st2, out2, a1. split_and!; try done.
    simpl. by rewrite lookup_insert_eq.
Qed.

Lemma miss_then_hit_witness :
  search (run init_state []) 1000 "Weather in Delhi" "guest"
  = Some (run init_state delhi_ops,
          SearchOut "Backend result for Weather in Delhi" "backend"
            ["Weather in Delhi"])
  ∧ normalize_query "  weather IN delhi" = normalize_query "Weather in Delhi"
  ∧ 1299 - 1000 < CACHE_EXPIRY_SECONDS
  ∧ ∃ st2 out2 a1,
      search (run init_state delhi_ops) 1299 "  weather IN delhi" "guest"
      = Some (st2, out2)
      ∧ out_result out2 = "Backend result for Weather in Delhi"
      ∧ out_source out2 = "cache"
      ∧ USER_CACHE st2 !! "guest"
        = USER_CACHE (run init_state delhi_ops) !! "guest"
      ∧ USER_ANALYTICS (run init_state delhi_ops) !! "guest" = Some a1
      ∧ USER_ANALYTICS st2 !! "guest"
        = Some (Analytics (api_calls_saved a1 + 1) (total_backend_calls a1)
                  (total_cache_hits a1 + 1)).
Proof.
  split; [reflexivity|]. split; [reflexivity|]. split; [reflexivity|].
  exact (miss_then_hit [] "guest" "Weather in Delhi" "  weather IN delhi"
           1000 1299 _ _ eq_refl eq_refl eq_refl eq_refl).
Defined.

(** X6.  After a forced refresh, a search of the same user for a query
    with the same key, less than [CACHE_EXPIRY_SECONDS] later, is answered
    from the cache with the refreshed text, whatever the cache held before
    the refresh. *)
Theorem refresh_then_hit (ops : list op) (user query query' : string)
    (now now' : Z) :
  normalize_query query' = normalize_query query →
  now' - now < CACHE_EXPIRY_SECONDS →
  ∃ st1 res st2 out2,
    refresh (run init_state ops) now query user = Some (st1, res)
    ∧ search st1 now' query' user = Some (st2, out2)
    ∧ out_result out2 = res
    ∧ res = "Backend result for " +:+ query +:+ " (refreshed)"
    ∧ out_source out2 = "cache".
Proof.
  intros Hnorm Hlt. pose proof (run_ok ops) as Hok.
  destruct (refresh (run init_state ops) now query user) as [[st1 res]|] eqn:Hr.
  2: { unfold refresh in Hr.
       by rewrite get_user_data_default in Hr by apply Hok. }
  pose proof (refresh_ok _ _ _ _ _ _ Hok Hr) as Hok1.
  unfold refresh in Hr. rewrite get_user_data_default in Hr by apply Hok.
  injection Hr as <- <-.
  destruct (search_cached_backend _ now' query' user
              (dict_set (normalize_query query)
                 (backend_entry now
                    ("Backend result for " +:+ query +:+ " (refreshed)"))
                 (default [] (USER_CACHE (run init_state ops) !! user)))
              now ("Backend result for " +:+ query +:+ " (refreshed)") Hok1)
    as (st2 & out2 & a1 & Hs2 & Hres & Hsrc2 & _);
    [simpl; apply lookup_insert_eq
    |rewrite Hnorm; apply dict_get_set_eq|done|].
  by eexists _, _, st2, out2.
Qed.

Lemma refresh_then_hit_witness :
  normalize_query "WEATHER in delhi " = normalize_query "Weather in Delhi"
  ∧ 1500 - 1400 < CACHE_EXPIRY_SECONDS
  ∧ ∃ st1 res st2 out2,
      refresh (run init_state delhi_ops) 1400 "Weather in Delhi" "guest"
      = Some (st1, res)
      ∧ search st1 1500 "WEATHER in delhi " "guest" = Some (st2, out2)
      ∧ out_result out2 = res
      ∧ res = "Backend result for Weather in Delhi (refreshed)"
      ∧ out_source out2 = "cache".
Proof.
  split; [reflexivity|]. split; [reflexivity|].
  exact (refresh_then_hit delhi_ops "guest" "Weather in Delhi"
           "WEATHER in delhi " 1400 1500 eq_refl eq_refl).
Defined.

(** ** What the prefetch loop does to a cache *)

(** The three ways an iteration ends without raising. *)
Lemma prefetch_one_cases thr now c pred c' :
  prefetch_one thr now c pred = Some c' →
  c' = c
  ∨ ∃ query conf,
      c' = dict_set (normalize_query query) (predicted_entry now query conf) c
      ∧ match dict_get (normalize_query query) c with
        | Some e => fresh now e = false
        | None => True
        end.
Proof.
  unfold prefetch_one. destruct pred as [| | | | | |items]; try done.
  destruct (dict_get "query" items) as [[| | | |query| |]|]; try done.
  destruct (as_number _) as [x|]; [|done].
  destruct (qlt x thr); [intros [= <-]; by left|].
  destruct (dict_get (normalize_query query) c) as [e|] eqn:Hget.
  - destruct (fresh now e) eqn:Hf; intros [= <-]; [by left|].
    right. eexists _, _. split; [done|]. by rewrite Hget.
  - intros [= <-]. right. eexists _, _. split; [done|]. by rewrite Hget.
Qed.

Lemma fresh_predicted_entry now query conf :
  fresh now (predicted_entry now query conf) = true.
Proof. unfold fresh. simpl. by rewrite Z.sub_diag. Qed.

Lemma keeps_live_refl now c : keeps_live now c c.
Proof. by intros k e. Qed.

Lemma keeps_live_trans now c1 c2 c3 :
  keeps_live now c1 c2 → keeps_live now c2 c3 → keeps_live now c1 c3.
Proof. intros H12 H23 k e Hk Hf. apply H23; [by apply H12|done]. Qed.

Lemma prefetch_one_keeps_live thr now c pred c' :
  prefetch_one thr now c pred = Some c' → keeps_live now c c'.
Proof.
  intros [->|(query & conf & -> & Hstale)]%prefetch_one_cases;
    [apply keeps_live_refl|].
  intros k e Hk Hf.
  destruct (decide (normalize_query query = k)) as [<-|Hne].
  - rewrite Hk in Hstale. congruence.
  - by rewrite dict_get_set_ne.
Qed.

Lemma dict_keys_set_prefix {V} k (v : V) d :
  dict_keys d `prefix_of` dict_keys (dict_set k v d).
Proof.
  rewrite dict_keys_set. destruct (dict_get k d); [done|].
  by apply prefix_app_r.
Qed.

Lemma prefetch_one_keys thr now c pred c' :
  prefetch_one thr now c pred = Some c' →
  dict_keys c `prefix_of` dict_keys c'.
Proof.
  intros [->|(query & conf & -> & _)]%prefetch_one_cases; [done|].
  apply dict_keys_set_prefix.
Qed.

Lemma prefetch_one_written thr now c pred c' k e' :
  prefetch_one thr now c pred = Some c' → dict_get k c' = Some e' →
  dict_get k c = Some e'
  ∨ (source e' = "predicted" ∧ timestamp e' = now
     ∧ expiry e' = CACHE_EXPIRY_SECONDS ∧ is_Some (LLM_Confidence e')).
Proof.
  intros [->|(query & conf & -> & _)]%prefetch_one_cases Hk; [by left|].
  destruct (decide (normalize_query query = k)) as [<-|Hne].
  - rewrite dict_get_set_eq in Hk. injection Hk as <-. right. simpl.
    split_and!; [done..|by eexists].
  - rewrite dict_get_set_ne in Hk by done. by left.
Qed.

Lemma prefetch_frame_aux (threshold : Q) (now : Z) (preds : list json)
    (c : cache) :
  keeps_live now c (fst (prefetch_predictions threshold now preds c))
  ∧ dict_keys c
    `prefix_of` dict_keys (fst (prefetch_predictions threshold now preds c))
  ∧ ∀ k e',
      dict_get k (fst (prefetch_predictions threshold now preds c)) = Some e' →
      dict_get k c = Some e'
      ∨ (source e' = "predicted" ∧ timestamp e' = now
         ∧ expiry e' = CACHE_EXPIRY_SECONDS ∧ is_Some (LLM_Confidence e')).
Proof.
  revert c. induction preds as [|pred preds IH]; intros c;
    cbn [prefetch_predictions].
  - split_and!; [apply keeps_live_refl|done|by left].
  - destruct (prefetch_one threshold now c pred) as [c1|] eqn:Hone.
    + destruct (IH c1) as (Hlive & Hkeys & Hnew). split_and!.
      * eapply keeps_live_trans; [by eapply prefetch_one_keeps_live|done].
      * etrans; [by eapply prefetch_one_keys|done].
      * intros k e' Hk. destruct (Hnew k e' Hk) as [Hold|?]; [|by right].
        by eapply prefetch_one_written.
    + split_and!; [apply keeps_live_refl|done|by left].
Qed.

(** X7.  The prefetch loop, whether it ends or raises, keeps every entry
    that is live when it runs, removes no key and keeps the keys in their
    order, and every entry it has written is a [predicted] entry created at
    the time of the run with the global time to live and a recorded
    confidence. *)
Theorem prefetch_frame (threshold : Q) (now : Z) (preds : list json)
    (c : cache) :
  keeps_live now c (fst (prefetch_predictions threshold now preds c))
  ∧ dict_keys c
    `prefix_of` dict_keys (fst (prefetch_predictions threshold now preds c))
  ∧ ∀ k e',
      dict_get k (fst (prefetch_predictions threshold now preds c)) = Some e' →
      dict_get k c = Some e'
      ∨ (source e' = "predicted" ∧ timestamp e' = now
         ∧ expiry e' = CACHE_EXPIRY_SECONDS ∧ is_Some (LLM_Confidence e')).
Proof. apply prefetch_frame_aux. Qed.

Lemma prefetch_predictions_keeps_live thr now preds c :
  keeps_live now c (fst (prefetch_predictions thr now preds c)).
Proof.
  revert c. induction preds as [|pred preds IH]; intros c;
    cbn [prefetch_predictions]; [apply keeps_live_refl|].
  destruct (prefetch_one thr now c pred) as [c1|] eqn:Hone;
    [|apply keeps_live_refl].
  eapply keeps_live_trans; [by eapply prefetch_one_keeps_live|apply IH].
Qed.

Lemma prefetch_admitted_live (threshold : Q) (now : Z) (preds : list json)
    (c c' : cache) (items : list (string * json)) (query : string) (x : Q) :
  prefetch_predictions threshold now preds c = (c', false) →
  JObj items ∈ preds →
  dict_get "query" items = Some (JStr query) →
  as_number (default (JFloat 1) (dict_get "confidence" items)) = Some x →
  (threshold <= x)%Q →
  ∃ e, dict_get (normalize_query query) c' = Some e ∧ fresh now e = true.
Proof.
  intros Hrun Hin Hq Hx Hle. revert c Hrun.
  induction preds as [|pred preds IH]; intros c;
    cbn [prefetch_predictions]; [by apply elem_of_nil in Hin|].
  destruct (prefetch_one threshold now c pred) as [c1|] eqn:Hone; [|done].
  intros Hrun. apply elem_of_cons in Hin as [<-|Hin]; [|by eapply IH].
  assert (Hlive : ∃ e, dict_get (normalize_query query) c1 = Some e
                       ∧ fresh now e = true).
  { revert Hone. unfold prefetch_one. rewrite Hq. cbv zeta. rewrite Hx.
    unfold qlt. apply Qle_bool_iff in Hle. rewrite Hle. simpl.
    destruct (dict_get (normalize_query query) c) as [e|] eqn:Hget.
    - destruct (fresh now e) eqn:Hf; intros [= <-]; [by exists e|].
      eexists. split; [apply dict_get_set_eq|apply fresh_predicted_entry].
    - intros [= <-].
      eexists. split; [apply dict_get_set_eq|apply fresh_predicted_entry]. }
  destruct Hlive as (e & He & Hf). exists e. split; [|done].
  pose proof (prefetch_predictions_keeps_live threshold now preds c1) as Hk.
  rewrite Hrun in Hk. by apply Hk.
Qed.

(** X8.  When the prefetch loop ends without raising, the key of every
    candidate of the list that has a [query] string and a numeric confidence
    at least the threshold holds an entry that is live at the time of the
    run. *)
Theorem prefetch_postcondition (threshold : Q) (now : Z) (preds : list json)
    (c c' : cache) (items : list (string * json)) (query : string) (x : Q) :
  prefetch_predictions threshold now preds c = (c', false) →
  JObj items ∈ preds →
  dict_get "query" items = Some (JStr query) →
  as_number (default (JFloat 1) (dict_get "confidence" items)) = Some x →
  (threshold <= x)%Q →
  ∃ e, dict_get (normalize_query query) c' = Some e ∧ fresh now e = true.
Proof. apply prefetch_admitted_live. Qed.

Lemma prefetch_postcondition_witness :
  prefetch_predictions (6 # 10) 1100 three_preds delhi_cache
  = (dict_set "weather in gurgaon"
       (predicted_entry 1100 "Weather in Gurgaon" (JFloat (83 # 100)))
       delhi_cache, false)
  ∧ JObj gurgaon_items ∈ three_preds
  ∧ dict_get "query" gurgaon_items = Some (JStr "Weather in Gurgaon")
  ∧ as_number (default (JFloat 1) (dict_get "confidence" gurgaon_items))
    = Some (83 # 100)
  ∧ (6 # 10 <= 83 # 100)%Q
  ∧ ∃ e, dict_get (normalize_query "Weather in Gurgaon")
           (dict_set "weather in gurgaon"
              (predicted_entry 1100 "Weather in Gurgaon" (JFloat (83 # 100)))
              delhi_cache) = Some e
         ∧ fresh 1100 e = true.
Proof.
  assert (Hin : JObj gurgaon_items ∈ three_preds) by left.
  assert (Hle : (6 # 10 <= 83 # 100)%Q) by discriminate.
  split; [reflexivity|]. split; [exact Hin|]. split; [reflexivity|].
  split; [reflexivity|]. split; [exact Hle|].
  exact (prefetch_postcondition (6 # 10) 1100 three_preds delhi_cache _
           gurgaon_items "Weather in Gurgaon" (83 # 100)
           eq_refl Hin eq_refl eq_refl Hle).
Defined.

(** An iteration that did not raise does nothing when run again. *)
Lemma prefetch_one_settled thr now c pred c' :
  prefetch_one thr now c pred = Some c' →
  prefetch_one thr now c' pred = Some c'.
Proof.
  unfold prefetch_one. destruct pred as [| | | | | |items]; try done.
  destruct (dict_get "query" items) as [[| | | |query| |]|]; try done.
  destruct (as_number _) as [x|]; [|done].
  destruct (qlt x thr); [by intros [= <-]|].
  destruct (dict_get (normalize_query query) c) as [e|] eqn:Hget.
  - destruct (fresh now e) eqn:Hf; intros [= <-].
    + by rewrite Hget, Hf.
    + by rewrite dict_get_set_eq, fresh_predicted_entry.
  - intros [= <-]. by rewrite dict_get_set_eq, fresh_predicted_entry.
Qed.

(** An iteration that does nothing on [c] does nothing on a cache that
    keeps the live entries of [c]. *)
Lemma prefetch_one_stable thr now c c2 pred :
  prefetch_one thr now c pred = Some c → keeps_live now c c2 →
  prefetch_one thr now c2 pred = Some c2.
Proof.
  unfold prefetch_one. destruct pred as [| | | | | |items]; try done.
  destruct (dict_get "query" items) as [[| | | |query| |]|]; try done.
  destruct (as_number _) as [x|]; [|done].
  destruct (qlt x thr); [done|].
  intros Hsame Hlive.
  assert (Hfresh : ∃ e, dict_get (normalize_query query) c = Some e
                        ∧ fresh now e = true).
  { destruct (dict_get (normalize_query query) c) as [e|] eqn:Hget.
    - destruct (fresh now e) eqn:Hf; [by exists e|].
      injection Hsame as Hsame.
      pose proof (dict_get_set_eq (normalize_query query)
                    (predicted_entry now query
                       (default (JFloat 1) (dict_get "confidence" items))) c)
        as Hnew.
      rewrite Hsame, Hget in Hnew. injection Hnew as ->.
      by rewrite fresh_predicted_entry in Hf.
    - injection Hsame as Hsame.
      apply (f_equal length) in Hsame.
      rewrite dict_set_length_new in Hsame by done. lia. }
  destruct Hfresh as (e & He & Hf). by rewrite (Hlive _ _ He Hf), Hf.
Qed.

Lemma prefetch_one_raises thr now c c2 pred :
  prefetch_one thr now c pred = None → prefetch_one thr now c2 pred = None.
Proof.
  unfold prefetch_one. destruct pred as [| | | | | |items]; try done.
  destruct (dict_get "query" items) as [[| | | |query| |]|]; try done.
  destruct (as_number _) as [x|]; [|done].
  destruct (qlt x thr); [done|]. by repeat case_match.
Qed.

Lemma prefetch_predictions_settled thr now preds c c2 :
  keeps_live now (fst (prefetch_predictions thr now preds c)) c2 →
  prefetch_predictions thr now preds c2
  = (c2, snd (prefetch_predictions thr now preds c)).
Proof.
  revert c. induction preds as [|pred preds IH]; intros c;
    cbn [prefetch_predictions]; [done|].
  destruct (prefetch_one thr now c pred) as [c1|] eqn:Hone.
  - intros Hlive.
    rewrite (prefetch_one_stable thr now c1 c2 pred).
    + by apply IH.
    + by eapply prefetch_one_settled.
    + eapply keeps_live_trans; [|exact Hlive].
      apply prefetch_predictions_keeps_live.
  - intros _. by rewrite (prefetch_one_raises thr now c c2 pred Hone).
Qed.

(** X9.  Running the prefetch loop a second time at the same instant, with
    the same list and threshold, on the cache the first run left, changes
    nothing and ends the same way: it ends if the first run ended and raises
    if the first run raised. *)
Theorem prefetch_idempotent (threshold : Q) (now : Z) (preds : list json)
    (c : cache) :
  prefetch_predictions threshold now preds
    (fst (prefetch_predictions threshold now preds c))
  = prefetch_predictions threshold now preds c.
Proof.
  rewrite (prefetch_predictions_settled threshold now preds c)
    by apply keeps_live_refl.
  by destruct (prefetch_predictions threshold now preds c).
Qed.

(** X10.  In a state the server reaches, let the thread of a user end
    without raising on a list that holds a candidate with numeric confidence
    at least the current threshold, at a key where the cache held nothing.
    Then a search of that user for a query with the same key, less than
    [CACHE_EXPIRY_SECONDS] after the thread, is answered from the entry the
    thread wrote, with source [predicted]. *)
Theorem prefetched_then_served (ops : list op) (user : string) (c : cache)
    (preds : list json) (now now' : Z) (items : list (string * json))
    (query query' : string) (x : Q) :
  USER_CACHE (run init_state ops) !! user = Some c →
  snd (prefetch_predictions
         (PREFETCH_CONFIDENCE_THRESHOLD (run init_state ops)) now preds c)
  = false →
  JObj items ∈ preds →
  dict_get "query" items = Some (JStr query) →
  as_number (default (JFloat 1) (dict_get "confidence" items)) = Some x →
  (PREFETCH_CONFIDENCE_THRESHOLD (run init_state ops) <= x)%Q →
  dict_get (normalize_query query) c = None →
  normalize_query query' = normalize_query query →
  now' - now < CACHE_EXPIRY_SECONDS →
  ∃ st1 c1 e st2 out,
    predict_and_prefetch (run init_state ops) now user preds = Some st1
    ∧ USER_CACHE st1 !! user = Some c1
    ∧ dict_get (normalize_query query) c1 = Some e
    ∧ timestamp e = now
    ∧ search st1 now' query' user = Some (st2, out)
    ∧ out_result out = result e
    ∧ out_source out = "predicted".
Proof.
  intros Hc Hraise Hin Hq Hx Hle Hnone Hnorm Hlt.
  pose proof (run_ok ops) as Hok. set (st := run init_state ops) in *.
  destruct (predict_and_prefetch st now user preds) as [st1|] eqn:Hth.
  2: { unfold predict_and_prefetch in Hth. by rewrite Hc in Hth. }
  pose proof (predict_and_prefetch_ok _ _ _ _ _ Hok Hth) as Hok1.
  unfold predict_and_prefetch in Hth. rewrite Hc in Hth. injection Hth as <-.
  set (thr := PREFETCH_CONFIDENCE_THRESHOLD st) in *.
  destruct (prefetch_predictions thr now preds c) as [c1 r] eqn:Hrun.
  simpl in Hraise. subst r.
  destruct (prefetch_admitted_live thr now preds c c1 items query x
              Hrun Hin Hq Hx Hle) as (e & He & Hf).
  destruct (prefetch_frame_aux thr now preds c) as (_ & _ & Hnew).
  rewrite Hrun in Hnew. simpl in Hnew.
  destruct (Hnew _ _ He) as [Hold|(Hsrc & Hts & Hexp & _)]; [congruence|].
  assert (Hc1 : USER_CACHE
                  (State (<[user := c1]> (USER_CACHE st)) (USER_HIT_LOG st)
                     (<[user := preds]> (USER_PREDICTIONS st))
                     (USER_ANALYTICS st) thr) !! user = Some c1)
    by (simpl; apply lookup_insert_eq).
  simpl fst in *.
  destruct (search_known _ now' query' user c1 (proj1 Hok1) Hc1)
    as (h & p & a & _ & _ & _ & Hs).
  rewrite (resolve_hit _ _ _ _ e false None) in Hs.
  - eexists _, c1, e, _, _. split; [done|]. split; [exact Hc1|].
    split; [done|]. split; [done|]. split; [exact Hs|].
    simpl. split; [done|]. unfold hit_source_of. by rewrite Hsrc.
  - rewrite Hnorm. by apply find_entry_exact.
  - unfold fresh. rewrite Hts. by apply Z.ltb_lt.
Qed.

Lemma prefetched_then_served_witness :
  USER_CACHE (run init_state delhi_ops) !! "guest" = Some delhi_cache
  ∧ snd (prefetch_predictions
           (PREFETCH_CONFIDENCE_THRESHOLD (run init_state delhi_ops)) 1100
           three_preds delhi_cache) = false
  ∧ JObj gurgaon_items ∈ three_preds
  ∧ (PREFETCH_CONFIDENCE_THRESHOLD (run init_state delhi_ops) <= 83 # 100)%Q
  ∧ dict_get (normalize_query "Weather in Gurgaon") delhi_cache = None
  ∧ ∃ st1 c1 e st2 out,
      predict_and_prefetch (run init_state delhi_ops) 1100 "guest" three_preds
      = Some st1
      ∧ USER_CACHE st1 !! "guest" = Some c1
      ∧ dict_get (normalize_query "Weather in Gurgaon") c1 = Some e
      ∧ timestamp e = 1100
      ∧ search st1 1399 " weather in GURGAON" "guest" = Some (st2, out)
      ∧ out_result out = result e
      ∧ out_source out = "predicted".
Proof.
  assert (Hin : JObj gurgaon_items ∈ three_preds) by left.
  assert (Hle : (PREFETCH_CONFIDENCE_THRESHOLD (run init_state delhi_ops)
                 <= 83 # 100)%Q) by discriminate.
  split; [reflexivity|]. split; [reflexivity|]. split; [exact Hin|].
  split; [exact Hle|]. split; [reflexivity|].
  exact (prefetched_then_served delhi_ops "guest" delhi_cache three_preds
           1100 1399 gurgaon_items "Weather in Gurgaon" " weather in GURGAON"
           (83 # 100) eq_refl eq_refl Hin eq_refl eq_refl Hle eq_refl eq_refl
           eq_refl).
Defined.

(** ** The dashboard *)

Lemma cache_list_live now c :
  Forall (fun item => entry_ok (snd item)) c →
  cache_list now c
  = map (fun item =>
           (fst item, source (snd item),
            CACHE_EXPIRY_SECONDS - (now - timestamp (snd item))))
      (filter (fun item => fresh now (snd item)) c).
Proof.
  induction 1 as [|[q e] c [Hexp _] _ IH]; [done|].
  cbn [cache_list]. rewrite filter_cons. simpl in *. rewrite Hexp, IH.
  unfold fresh. destruct (Z.ltb_spec (now - timestamp e) CACHE_EXPIRY_SECONDS);
    destruct (Z.ltb_spec 0 (CACHE_EXPIRY_SECONDS - (now - timestamp e)));
    try lia; by case_decide.
Qed.

(** X11.  In a state the server reaches, the dashboard of a known user
    leaves the state as it is and lists, in the order of the cache, exactly
    the entries that [search] would treat as live at that time, each with
    its source and the seconds it has left, at least one. *)
Theorem dashboard_lists_live (ops : list op) (user : string) (c : cache)
    (now : Z) :
  USER_CACHE (run init_state ops) !! user = Some c →
  ∃ d,
    dashboard (run init_state ops) now user = Some (run init_state ops, d)
    ∧ dash_cache d
      = map (fun item =>
               (fst item, source (snd item),
                CACHE_EXPIRY_SECONDS - (now - timestamp (snd item))))
          (filter (fun item => fresh now (snd item)) c)
    ∧ map (fun row => fst (fst row)) (dash_cache d) = live_keys now c
    ∧ Forall (fun row => 1 <= snd row) (dash_cache d).
Proof.
  intros Hc. pose proof (run_ok ops) as (Hsame & Hcaches & _).
  unfold dashboard. rewrite get_user_data_default by done.
  rewrite (create_user_known _ _ _ Hc), Hc. simpl.
  eexists. split; [done|]. simpl.
  pose proof (cache_list_live now c (proj2 (Hcaches _ _ Hc))) as Hlist.
  split; [done|]. rewrite Hlist. split.
  - unfold live_keys, dict_keys. rewrite map_map. by apply map_ext.
  - apply Forall_fmap, Forall_forall. intros [q e] [Hf _]%list_elem_of_filter.
    simpl in *. apply Is_true_true in Hf. unfold fresh in Hf.
    apply Z.ltb_lt in Hf. lia.
Qed.

Lemma dashboard_lists_live_witness :
  USER_CACHE (run init_state stale_ops) !! "guest" = Some stale_cache
  ∧ ∃ d,
      dashboard (run init_state stale_ops) 1000 "guest"
      = Some (run init_state stale_ops, d)
      ∧ dash_cache d
        = map (fun item =>
                 (fst item, source (snd item),
                  CACHE_EXPIRY_SECONDS - (1000 - timestamp (snd item))))
            (filter (fun item => fresh 1000 (snd item)) stale_cache)
      ∧ map (fun row => fst (fst row)) (dash_cache d)
        = live_keys 1000 stale_cache
      ∧ Forall (fun row => 1 <= snd row) (dash_cache d).
Proof.
  split; [reflexivity|].
  exact (dashboard_lists_live stale_ops "guest" stale_cache 1000 eq_refl).
Defined.

(** ** The counters over a whole run *)

Lemma create_user_analytics st u user :
  same_users st →
  default (Analytics 0 0 0) (USER_ANALYTICS (create_user st u) !! user)
  = default (Analytics 0 0 0) (USER_ANALYTICS st !! user).
Proof.
  intros (_ & _ & Ha). unfold create_user.
  destruct (USER_CACHE st !! u) eqn:Hu; [done|]. simpl.
  destruct (decide (u = user)) as [->|Hne].
  - rewrite lookup_insert_eq.
    apply not_elem_of_dom in Hu. rewrite <- Ha in Hu.
    apply not_elem_of_dom in Hu. by rewrite Hu.
  - by rewrite lookup_insert_ne.
Qed.

Lemma tally_nil a : tally a [] = a.
Proof.
  destruct a. unfold tally, hit_count, miss_count. rewrite !filter_nil.
  simpl. f_equal; lia.
Qed.

Lemma tally_app a l1 l2 : tally (tally a l1) l2 = tally a (l1 ++ l2)%list.
Proof.
  unfold tally, hit_count, miss_count. simpl.
  rewrite !filter_app, !length_app. f_equal; lia.
Qed.

Lemma tally_hit a query src now :
  src = "cache" ∨ src = "predicted" ∨ src = "fuzzy_cache" →
  tally a [Hit query src now] = count_hit a.
Proof.
  intros Hsrc. unfold tally, count_hit, hit_count, miss_count.
  rewrite !filter_cons, !filter_nil. unfold is_hit, is_miss. simpl.
  destruct Hsrc as [->|[->| ->]]; simpl; f_equal; lia.
Qed.

Lemma tally_miss a query now :
  tally a [Hit query "backend" now] = count_miss a.
Proof.
  unfold tally, count_miss, hit_count, miss_count.
  rewrite !filter_cons, !filter_nil. simpl. f_equal; lia.
Qed.

Lemma user_cache_ok st user :
  state_ok st → cache_ok (default [] (USER_CACHE st !! user)).
Proof.
  intros (_ & Hcaches & _).
  destruct (USER_CACHE st !! user) eqn:Hu; [by eapply Hcaches|].
  apply cache_ok_nil.
Qed.

Lemma step_analytics st o user :
  state_ok st →
  default (Analytics 0 0 0) (USER_ANALYTICS (step st o) !! user)
  = tally (default (Analytics 0 0 0) (USER_ANALYTICS st !! user))
      (step_hits st o user)
  ∧ Forall hit_ok (step_hits st o user).
Proof.
  intros Hok. pose proof (proj1 Hok) as Hsame.
  assert (Hkeep : ∀ u,
    default (Analytics 0 0 0) (USER_ANALYTICS (create_user st u) !! user)
    = tally (default (Analytics 0 0 0) (USER_ANALYTICS st !! user)) []).
  { intros u. rewrite tally_nil. by apply create_user_analytics. }
  destruct o as [now query u|now u preds|now u|u|data|now query u|format u];
    simpl.
  - rewrite (search_eq st now query u Hsame).
    destruct (resolve_cases now query _
                (default (Analytics 0 0 0) (USER_ANALYTICS st !! u))
                (user_cache_ok st u Hok))
      as [(e & fuzzy & -> & Hsrc)| ->]; simpl;
      (destruct (String.eqb_spec u user) as [->|Hne];
       [rewrite lookup_insert_eq|rewrite lookup_insert_ne by done]); simpl.
    + split; [by rewrite tally_hit|].
      apply Forall_singleton. unfold hit_ok. simpl. tauto.
    + split; [apply Hkeep|constructor].
    + split; [by rewrite tally_miss|].
      apply Forall_singleton. by left.
    + split; [apply Hkeep|constructor].
  - split; [|constructor]. rewrite tally_nil. unfold predict_and_prefetch.
    by destruct (USER_CACHE st !! u).
  - split; [|constructor]. unfold dashboard.
    rewrite get_user_data_default by done. apply Hkeep.
  - split; [|constructor]. unfold get_predictions.
    rewrite get_user_data_default by done. apply Hkeep.
  - split; [|constructor]. rewrite tally_nil. unfold set_confidence.
    by repeat case_match.
  - split; [|constructor]. unfold refresh.
    rewrite get_user_data_default by done. apply Hkeep.
  - split; [|constructor]. unfold export_dashboard.
    rewrite get_user_data_default by done.
    destruct (String.eqb format "csv"); apply Hkeep.
Qed.

Lemma run_analytics st ops user :
  state_ok st →
  default (Analytics 0 0 0) (USER_ANALYTICS (run st ops) !! user)
  = tally (default (Analytics 0 0 0) (USER_ANALYTICS st !! user))
      (search_hits st ops user)
  ∧ Forall hit_ok (search_hits st ops user).
Proof.
  revert st. induction ops as [|o ops IH]; intros st Hok.
  - simpl. by rewrite tally_nil.
  - change (run st (o :: ops)) with (run (step st o) ops).
    destruct (IH (step st o) (step_ok st o Hok)) as [-> Hall].
    destruct (step_analytics st o user Hok) as [-> Hone].
    simpl. rewrite tally_app. split; [done|]. by apply Forall_app.
Qed.

Lemma counters_count_searches_aux (ops : list op) (user : string) :
  total_backend_calls
    (default (Analytics 0 0 0) (USER_ANALYTICS (run init_state ops) !! user))
  = miss_count (search_hits init_state ops user)
  ∧ total_cache_hits
      (default (Analytics 0 0 0) (USER_ANALYTICS (run init_state ops) !! user))
    = hit_count (search_hits init_state ops user)
  ∧ api_calls_saved
      (default (Analytics 0 0 0) (USER_ANALYTICS (run init_state ops) !! user))
    = hit_count (search_hits init_state ops user).
Proof.
  destruct (run_analytics init_state ops user init_state_ok) as [-> _].
  simpl. by split_and!.
Qed.

(** X12.  In every state the server reaches, the counters of a user count
    all the searches of that user since the start, not only the ten of the
    hit log: [total_backend_calls] is the number of searches the backend
    answered, [total_cache_hits] the number answered from the cache,
    [api_calls_saved] equals [total_cache_hits], and the two totals add up
    to the number of searches. *)
Theorem counters_count_searches (ops : list op) (user : string) :
  total_backend_calls
    (default (Analytics 0 0 0) (USER_ANALYTICS (run init_state ops) !! user))
  = miss_count (search_hits init_state ops user)
  ∧ total_cache_hits
      (default (Analytics 0 0 0) (USER_ANALYTICS (run init_state ops) !! user))
    = hit_count (search_hits init_state ops user)
  ∧ api_calls_saved
      (default (Analytics 0 0 0) (USER_ANALYTICS (run init_state ops) !! user))
    = hit_count (search_hits init_state ops user)
  ∧ miss_count (search_hits init_state ops user)
    + hit_count (search_hits init_state ops user)
    = Z.of_nat (length (search_hits init_state ops user)).
Proof.
  destruct (run_analytics init_state ops user init_state_ok) as [-> Hall].
  simpl. split_and!; [done..|]. by apply counts_partition.
Qed.

Lemma counts_nonneg (l : list hit) : 0 <= miss_count l ∧ 0 <= hit_count l.
Proof. unfold miss_count, hit_count. lia. Qed.

(** X13.  In every state the server reaches, the two ratios of the
    dashboard are bounded: the miss rate lies between 0 and 1, and the
    average latency saved lies between 0 and the difference of the two
    simulated latencies, 470. *)
Theorem dashboard_ratios_bounded (ops : list op) (user : string) (now : Z) :
  ∃ st' d,
    dashboard (run init_state ops) now user = Some (st', d)
    ∧ (0 <= dash_miss_rate d)%Q ∧ (dash_miss_rate d <= 1)%Q
    ∧ (0 <= dash_avg_latency_saved d)%Q
    ∧ (dash_avg_latency_saved d
       <= inject_Z (SIM_BACKEND_LATENCY - SIM_CACHE_LATENCY))%Q.
Proof.
  pose proof (run_ok ops) as Hok. unfold dashboard.
  rewrite get_user_data_default by apply Hok. eexists _, _. split; [done|].
  simpl.
  destruct (counters_count_searches_aux ops user) as (Hb & Hh & Ha).
  set (a := default _ (USER_ANALYTICS _ !! user)) in *.
  set (log := default [] (USER_HIT_LOG _ !! user)).
  pose proof (counts_nonneg log) as [Hm0 Hh0].
  pose proof (counts_nonneg (search_hits init_state ops user)) as [Hm1 Hh1].
  unfold miss_rate, avg_latency_saved. rewrite Ha, Hb, Hh.
  set (m := miss_count log) in *. set (h := hit_count log) in *.
  set (M := miss_count _) in *. set (H := hit_count _) in *.
  unfold SIM_BACKEND_LATENCY, SIM_CACHE_LATENCY.
  split_and!.
  - destruct (Z.ltb_spec 0 (m + h)); [|done].
    apply Qle_shift_div_l; [unfold Qlt; simpl; lia|].
    unfold Qle. simpl. lia.
  - destruct (Z.ltb_spec 0 (m + h)); [|done].
    apply Qle_shift_div_r; [unfold Qlt; simpl; lia|].
    unfold Qle. simpl. lia.
  - destruct (Z.ltb_spec 0 (M + H)); [|done].
    apply Qle_shift_div_l; [unfold Qlt; simpl; lia|].
    unfold Qle. simpl. lia.
  - destruct (Z.ltb_spec 0 (M + H)); [|done].
    apply Qle_shift_div_r; [unfold Qlt; simpl; lia|].
    unfold Qle. simpl. lia.
Qed.

(** ** The history handed to the predictor *)

Lemma last_n_last_n {A} n m (l : list A) :
  (n <= m)%nat → last_n n (last_n m l) = last_n n l.
Proof.
  intros Hnm. unfold last_n. rewrite length_drop, drop_drop. f_equal. lia.
Qed.

Lemma last_n_snoc {A} n (l : list A) x :
  last_n (S n) (l ++ [x])%list = (last_n n l ++ [x])%list.
Proof.
  unfold last_n. rewrite length_app, drop_app_le by (simpl; lia).
  simpl. do 2 f_equal. lia.
Qed.

(** X14.  In every state the server reaches, the history that [search]
    gives to its thread ends with the query just searched, as it was typed,
    preceded by the queries of the last two records the hit log held before:
    at most three queries, oldest first. *)
Theorem search_history (ops : list op) (user query : string) (now : Z) :
  ∃ st' out,
    search (run init_state ops) now query user = Some (st', out)
    ∧ out_history out
      = (map hit_query
           (last_n 2 (default [] (USER_HIT_LOG (run init_state ops) !! user)))
         ++ [query])%list
    ∧ (1 <= length (out_history out) <= 3)%nat.
Proof.
  pose proof (run_ok ops) as Hok.
  rewrite (search_eq _ now query user (proj1 Hok)).
  destruct (resolve now query _ _) as [[[c' a'] res] src].
  eexists _, _. split; [done|]. simpl.
  pose proof (user_log_length _ user Hok) as Hlen.
  rewrite record_hit_last_n by done. unfold N_HISTORY.
  rewrite last_n_last_n by lia. rewrite last_n_snoc, map_app. simpl.
  split; [done|]. rewrite length_app, length_map, last_n_length.
  change (length [query]) with 1%nat. lia.
Qed.

(** ** Invariants of the caches along a run *)

Lemma normalize_query_fixed query :
  normalize_query (normalize_query query) = normalize_query query.
Proof.
  unfold normalize_query. by rewrite <- lower_strip, lower_idem, strip_idem.
Qed.

(** A property of caches that holds of the empty cache and survives a write
    at a normalized key survives every transition. *)
Lemma step_caches_all (P : cache → Prop) st o :
  P [] → (∀ query e c, P c → P (dict_set (normalize_query query) e c)) →
  caches_all P st → caches_all P (step st o).
Proof.
  intros Hnil Hset Hall.
  assert (Hcreate : ∀ u, caches_all P (create_user st u)).
  { intros u user c. unfold create_user.
    destruct (USER_CACHE st !! u); [apply Hall|]. simpl.
    intros [[_ <-]|[_ ?]]%lookup_insert_Some; [done|by eapply Hall]. }
  assert (Hobj : ∀ u st1 c h p a,
            get_user_data st u = Some (st1, (c, h, p, a)) →
            st1 = create_user st u ∧ P c).
  { intros u st1 c h p a Hg. pose proof (get_user_data_state _ _ _ _ Hg) as ->.
    split; [done|]. unfold get_user_data in Hg.
    destruct (USER_CACHE (create_user st u) !! u) as [c0|] eqn:Hc0; [|done].
    repeat case_match; try done. injection Hg as <- _ _ _.
    by eapply Hcreate. }
  destruct o as [now query u|now u preds|now u|u|data|now query u|format u];
    simpl.
  - unfold search.
    destruct (get_user_data st u) as [[st1 [[[c h] p] a]]|] eqn:Hg; [|done].
    destruct (Hobj _ _ _ _ _ _ Hg) as [-> Hc].
    assert (Hres : P (fst (fst (fst (resolve now query c a))))).
    { unfold resolve.
      destruct (find_entry c (normalize_query query)) as [[oe fuzzy] key].
      destruct oe as [e|]; [destruct (fresh now e)|]; simpl; auto.
      by destruct fuzzy, (String.eqb (source e) "backend"). }
    destruct (resolve now query c a) as [[[c' a'] res] src]. simpl in *.
    intros user c0 Hl; simpl in Hl;
      apply lookup_insert_Some in Hl as [[_ <-]|[_ ?]]; [done|by eapply Hcreate].
  - unfold predict_and_prefetch.
    destruct (USER_CACHE st !! u) as [c|] eqn:Hc; [|done]. simpl.
    intros user c0 Hl; simpl in Hl;
      apply lookup_insert_Some in Hl as [[_ <-]|[_ ?]]; [|by eapply Hall].
    assert (Hloop : ∀ preds c, P c →
              P (fst (prefetch_predictions
                        (PREFETCH_CONFIDENCE_THRESHOLD st) now preds c))).
    { clear -Hset. intros preds.
      induction preds as [|pred preds IH]; intros c Hc;
        cbn [prefetch_predictions]; [done|].
      destruct (prefetch_one _ now c pred) as [c1|] eqn:Hone; [|done].
      apply IH.
      apply prefetch_one_cases in Hone as [->|(query & conf & -> & _)];
        [done|by apply Hset]. }
    apply Hloop. by eapply Hall.
  - unfold dashboard.
    destruct (get_user_data st u) as [[st1 [[[c h] p] a]]|] eqn:Hg; [|done].
    destruct (Hobj _ _ _ _ _ _ Hg) as [-> _]. apply Hcreate.
  - unfold get_predictions.
    destruct (get_user_data st u) as [[st1 [[[c h] p] a]]|] eqn:Hg; [|done].
    destruct (Hobj _ _ _ _ _ _ Hg) as [-> _]. apply Hcreate.
  - unfold set_confidence. by repeat case_match.
  - unfold refresh.
    destruct (get_user_data st u) as [[st1 [[[c h] p] a]]|] eqn:Hg; [|done].
    destruct (Hobj _ _ _ _ _ _ Hg) as [-> Hc]. simpl.
    intros user c0 Hl; simpl in Hl;
      apply lookup_insert_Some in Hl as [[_ <-]|[_ ?]]; [auto|by eapply Hcreate].
  - unfold export_dashboard.
    destruct (get_user_data st u) as [[st1 [[[c h] p] a]]|] eqn:Hg; [|done].
    destruct (Hobj _ _ _ _ _ _ Hg) as [-> _].
    destruct (String.eqb format "csv"); apply Hcreate.
Qed.

Lemma run_caches_all (P : cache → Prop) st ops :
  P [] → (∀ query e c, P c → P (dict_set (normalize_query query) e c)) →
  caches_all P st → caches_all P (run st ops).
Proof.
  intros Hnil Hset. revert st.
  induction ops as [|o ops IH]; intros st Hall; [done|].
  simpl. by apply IH, step_caches_all.
Qed.

(** X15.  In every state the server reaches, every key of every cache is a
    normalized query: [normalize_query] maps it to itself.  So a search
    finds an exact entry only under the key of its own query. *)
Theorem cache_keys_normalized (ops : list op) (user : string) (c : cache)
    (k : string) :
  USER_CACHE (run init_state ops) !! user = Some c →
  k ∈ dict_keys c →
  normalize_query k = k.
Proof.
  intros Hc Hk.
  assert (Hall : caches_all keys_normal (run init_state ops)).
  { apply run_caches_all.
    - constructor.
    - intros query e c0 Hc0. unfold keys_normal. rewrite dict_keys_set.
      destruct (dict_get _ c0); [done|].
      apply Forall_app. split; [done|].
      apply Forall_singleton, normalize_query_fixed.
    - intros u c0. simpl. by rewrite lookup_empty. }
  specialize (Hall user c Hc). unfold keys_normal in Hall.
  rewrite Forall_forall in Hall. by apply Hall.
Qed.

Lemma cache_keys_normalized_witness :
  USER_CACHE (run init_state stale_ops) !! "guest" = Some stale_cache
  ∧ "weathr in delhy" ∈ dict_keys stale_cache
  ∧ normalize_query "weathr in delhy" = "weathr in delhy".
Proof.
  assert (Hk : "weathr in delhy" ∈ dict_keys stale_cache) by (right; left).
  split; [reflexivity|]. split; [exact Hk|].
  exact (cache_keys_normalized stale_ops "guest" stale_cache
           "weathr in delhy" eq_refl Hk).
Defined.

Lemma create_user_cache_known st u user c :
  USER_CACHE st !! user = Some c →
  USER_CACHE (create_user st u) !! user = Some c.
Proof.
  intros Hc. unfold create_user.
  destruct (USER_CACHE st !! u) eqn:Hu; [done|]. simpl.
  rewrite lookup_insert_ne; [done|]. intros ->. congruence.
Qed.

Lemma get_user_data_cache st u st1 c h p a :
  get_user_data st u = Some (st1, (c, h, p, a)) →
  USER_CACHE (create_user st u) !! u = Some c.
Proof.
  unfold get_user_data.
  destruct (USER_CACHE (create_user st u) !! u) as [c0|]; [|done].
  repeat case_match; try done. by intros [= _ <- _ _ _].
Qed.

Lemma resolve_keys_prefix now query c a :
  dict_keys c `prefix_of` dict_keys (fst (fst (fst (resolve now query c a)))).
Proof.
  unfold resolve.
  destruct (find_entry c (normalize_query query)) as [[oe fuzzy] key].
  destruct oe as [e|]; [destruct (fresh now e)|]; simpl;
    try apply dict_keys_set_prefix.
  by destruct fuzzy, (String.eqb (source e) "backend").
Qed.

Lemma step_keys_prefix st o user c :
  USER_CACHE st !! user = Some c →
  ∃ c', USER_CACHE (step st o) !! user = Some c'
        ∧ dict_keys c `prefix_of` dict_keys c'.
Proof.
  intros Hc.
  assert (Hkeep : ∀ u, ∃ c', USER_CACHE (create_user st u) !! user = Some c'
                             ∧ dict_keys c `prefix_of` dict_keys c')
    by (intros u; exists c; split; [by apply create_user_cache_known|done]).
  assert (Hput : ∀ u st1 c0 h p a c1,
            get_user_data st u = Some (st1, (c0, h, p, a)) →
            dict_keys c0 `prefix_of` dict_keys c1 →
            ∃ c', <[u := c1]> (USER_CACHE (create_user st u)) !! user = Some c'
                  ∧ dict_keys c `prefix_of` dict_keys c').
  { intros u st1 c0 h p a c1 Hg Hpre.
    destruct (decide (u = user)) as [->|Hne].
    - rewrite lookup_insert_eq. exists c1. split; [done|].
      apply get_user_data_cache in Hg.
      rewrite (create_user_cache_known st user user c Hc) in Hg.
      by injection Hg as <-.
    - rewrite lookup_insert_ne by done. apply Hkeep. }
  destruct o as [now query u|now u preds|now u|u|data|now query u|format u];
    simpl.
  - unfold search.
    destruct (get_user_data st u) as [[st1 [[[c0 h] p] a]]|] eqn:Hg;
      [|by exists c].
    pose proof (get_user_data_state _ _ _ _ Hg) as ->.
    pose proof (resolve_keys_prefix now query c0 a) as Hpre.
    destruct (resolve now query c0 a) as [[[c' a'] res] src]. simpl in *.
    by eapply Hput.
  - unfold predict_and_prefetch.
    destruct (USER_CACHE st !! u) as [c0|] eqn:Hu; [|by exists c]. simpl.
    destruct (decide (u = user)) as [->|Hne].
    + rewrite lookup_insert_eq. eexists. split; [done|].
      rewrite Hc in Hu. injection Hu as <-. apply prefetch_frame_aux.
    + rewrite lookup_insert_ne by done. by exists c.
  - unfold dashboard.
    destruct (get_user_data st u) as [[st1 [[[c0 h] p] a]]|] eqn:Hg;
      [|by exists c].
    pose proof (get_user_data_state _ _ _ _ Hg) as ->. apply Hkeep.
  - unfold get_predictions.
    destruct (get_user_data st u) as [[st1 [[[c0 h] p] a]]|] eqn:Hg;
      [|by exists c].
    pose proof (get_user_data_state _ _ _ _ Hg) as ->. apply Hkeep.
  - exists c. split; [|done]. unfold set_confidence. by repeat case_match.
  - unfold refresh.
    destruct (get_user_data st u) as [[st1 [[[c0 h] p] a]]|] eqn:Hg;
      [|by exists c].
    pose proof (get_user_data_state _ _ _ _ Hg) as ->. simpl.
    eapply Hput; [done|]. apply dict_keys_set_prefix.
  - unfold export_dashboard.
    destruct (get_user_data st u) as [[st1 [[[c0 h] p] a]]|] eqn:Hg;
      [|by exists c].
    pose proof (get_user_data_state _ _ _ _ Hg) as ->.
    destruct (String.eqb format "csv"); apply Hkeep.
Qed.

(** X16.  No transition removes a user or a key: from any state and along
    any run, a user that has a cache keeps one, and the keys it has stay,
    in their order, at the head of the keys it has afterwards.  Expired
    entries are never deleted. *)
Theorem keys_never_removed (st : state) (ops : list op) (user : string)
    (c : cache) :
  USER_CACHE st !! user = Some c →
  ∃ c', USER_CACHE (run st ops) !! user = Some c'
        ∧ dict_keys c `prefix_of` dict_keys c'.
Proof.
  revert st c. induction ops as [|o ops IH]; intros st c Hc; [by exists c|].
  destruct (step_keys_prefix st o user c Hc) as (c1 & Hc1 & Hpre1).
  destruct (IH _ _ Hc1) as (c2 & Hc2 & Hpre2).
  exists c2. split; [exact Hc2|]. by etrans.
Qed.

Lemma keys_never_removed_witness :
  USER_CACHE (run init_state delhi_ops) !! "guest" = Some delhi_cache
  ∧ ∃ c', USER_CACHE
            (run (run init_state delhi_ops)
               [OpThread 1100 "guest" three_preds;
                OpRefresh 5000 "Weather in Delhi" "guest";
                OpSearch 9000 "stock price" "guest"]) !! "guest" = Some c'
          ∧ dict_keys delhi_cache `prefix_of` dict_keys c'.
Proof.
  split; [reflexivity|].
  exact (keys_never_removed (run init_state delhi_ops) _ "guest" delhi_cache
           eq_refl).
Defined.

(** ** The threshold *)

Lemma step_threshold st o :
  ((0 <= PREFETCH_CONFIDENCE_THRESHOLD st)%Q
   ∧ (PREFETCH_CONFIDENCE_THRESHOLD st <= 1)%Q →
   (0 <= PREFETCH_CONFIDENCE_THRESHOLD (step st o))%Q
   ∧ (PREFETCH_CONFIDENCE_THRESHOLD (step st o) <= 1)%Q)
  ∧ (∀ u, op_user o = Some u →
          PREFETCH_CONFIDENCE_THRESHOLD (step st o)
          = PREFETCH_CONFIDENCE_THRESHOLD st).
Proof.
  assert (Hsame : (∃ u, op_user o = Some u) →
                  PREFETCH_CONFIDENCE_THRESHOLD (step st o)
                  = PREFETCH_CONFIDENCE_THRESHOLD st).
  { intros [v Hv].
    destruct o as [now query u|now u preds|now u|u|data|now query u|format u];
      simpl in *; try done.
    - unfold search.
      destruct (get_user_data st u) as [[st1 [[[c h] p] a]]|] eqn:Hg; [|done].
      apply get_user_data_state in Hg as ->.
      destruct (resolve now query c a) as [[[c' a'] res] src]. simpl.
      apply create_user_threshold.
    - unfold predict_and_prefetch. by destruct (USER_CACHE st !! u).
    - unfold dashboard.
      destruct (get_user_data st u) as [[st1 [[[c h] p] a]]|] eqn:Hg; [|done].
      apply get_user_data_state in Hg as ->. apply create_user_threshold.
    - unfold get_predictions.
      destruct (get_user_data st u) as [[st1 [[[c h] p] a]]|] eqn:Hg; [|done].
      apply get_user_data_state in Hg as ->. apply create_user_threshold.
    - unfold refresh.
      destruct (get_user_data st u) as [[st1 [[[c h] p] a]]|] eqn:Hg; [|done].
      apply get_user_data_state in Hg as ->. apply create_user_threshold.
    - unfold export_dashboard.
      destruct (get_user_data st u) as [[st1 [[[c h] p] a]]|] eqn:Hg; [|done].
      apply get_user_data_state in Hg as ->.
      destruct (String.eqb format "csv"); apply create_user_threshold. }
  split; [|by eauto].
  intros Hrange. destruct (op_user o) as [u|] eqn:Hu.
  - rewrite Hsame by eauto. done.
  - destruct o; try done. simpl. unfold set_confidence.
    destruct data as [| | | | | |items]; try done.
    destruct (dict_get "confidence" items) as [[| | |conf| | |]|]; try done.
    destruct (Qle_bool 0 conf) eqn:Hlo; [|done].
    destruct (Qle_bool conf 1) eqn:Hhi; [|done].
    simpl. split; by apply Qle_bool_iff.
Qed.

Lemma run_threshold ops :
  (0 <= PREFETCH_CONFIDENCE_THRESHOLD (run init_state ops))%Q
  ∧ (PREFETCH_CONFIDENCE_THRESHOLD (run init_state ops) <= 1)%Q.
Proof.
  unfold run. generalize init_state
    (conj (ltac:(discriminate) : (0 <= PREFETCH_CONFIDENCE_THRESHOLD init_state)%Q)
          (ltac:(discriminate) : (PREFETCH_CONFIDENCE_THRESHOLD init_state <= 1)%Q)).
  induction ops as [|o ops IH]; intros st Hst; [done|].
  simpl. apply IH. by apply step_threshold.
Qed.

(** X17.  In every state the server reaches the prefetch threshold lies
    between 0 and 1, and no transition other than [set_confidence] changes
    it. *)
Theorem threshold_in_range (ops : list op) :
  (0 <= PREFETCH_CONFIDENCE_THRESHOLD (run init_state ops))%Q
  ∧ (PREFETCH_CONFIDENCE_THRESHOLD (run init_state ops) <= 1)%Q
  ∧ ∀ o u, op_user o = Some u →
           PREFETCH_CONFIDENCE_THRESHOLD (step (run init_state ops) o)
           = PREFETCH_CONFIDENCE_THRESHOLD (run init_state ops).
Proof.
  destruct (run_threshold ops) as [Hlo Hhi]. split_and!; [done..|].
  intros o u. apply step_threshold.
Qed.

(** X18.  In every state the server reaches, a candidate that has a
    [query] string and no [confidence] passes the threshold whatever
    [set_confidence] has set: when its key holds no live entry it is
    written, with confidence 1.0 recorded. *)
Theorem default_confidence_admitted (ops : list op) (now : Z) (c : cache)
    (items : list (string * json)) (query : string) :
  dict_get "query" items = Some (JStr query) →
  dict_get "confidence" items = None →
  (∀ e, dict_get (normalize_query query) c = Some e → fresh now e = false) →
  prefetch_one (PREFETCH_CONFIDENCE_THRESHOLD (run init_state ops)) now c
    (JObj items)
  = Some (dict_set (normalize_query query)
            (Entry ("Predicted backend result for " +:+ query) now
               CACHE_EXPIRY_SECONDS "predicted" (Some (JFloat 1))) c).
Proof.
  intros Hq Hconf Hstale. destruct (run_threshold ops) as [_ Hhi].
  unfold prefetch_one. rewrite Hq, Hconf. simpl. unfold qlt.
  apply Qle_bool_iff in Hhi. rewrite Hhi. simpl.
  destruct (dict_get (normalize_query query) c) as [e|] eqn:Hget; [|done].
  by rewrite (Hstale e eq_refl).
Qed.

Lemma default_confidence_admitted_witness :
  dict_get "query" [("query", JStr "Stock Price")] = Some (JStr "Stock Price")
  ∧ dict_get "confidence" [("query", JStr "Stock Price")] = None
  ∧ prefetch_one
      (PREFETCH_CONFIDENCE_THRESHOLD
         (run init_state
            [OpSetConfidence (JObj [("confidence", JFloat 1)])]))
      50 [] (JObj [("query", JStr "Stock Price")])
    = Some [("stock price",
             Entry "Predicted backend result for Stock Price" 50
               CACHE_EXPIRY_SECONDS "predicted" (Some (JFloat 1)))].
Proof.
  split; [reflexivity|]. split; [reflexivity|].
  apply (default_confidence_admitted
           [OpSetConfidence (JObj [("confidence", JFloat 1)])] 50 []
           [("query", JStr "Stock Price")] "Stock Price");
    [reflexivity|reflexivity|discriminate].
Defined.

(** ** Predictions, first use, and what a search writes *)

(** X19.  In a state the server reaches, the thread of a known user always
    ends and stores the whole list it was given as the user's predictions,
    malformed elements included and even when the prefetch loop raised;
    [get_predictions] and the dashboard then return that list. *)
Theorem predictions_replaced (ops : list op) (user : string) (c : cache)
    (preds : list json) (now now' : Z) :
  USER_CACHE (run init_state ops) !! user = Some c →
  ∃ st1 d,
    predict_and_prefetch (run init_state ops) now user preds = Some st1
    ∧ get_predictions st1 user = Some (st1, preds)
    ∧ dashboard st1 now' user = Some (st1, d)
    ∧ dash_predictions d = preds.
Proof.
  intros Hc. pose proof (run_ok ops) as Hok.
  destruct (predict_and_prefetch (run init_state ops) now user preds)
    as [st1|] eqn:Hth.
  2: { unfold predict_and_prefetch in Hth. by rewrite Hc in Hth. }
  pose proof (predict_and_prefetch_ok _ _ _ _ _ Hok Hth) as Hok1.
  unfold predict_and_prefetch in Hth. rewrite Hc in Hth. injection Hth as <-.
  set (st1 := State _ _ _ _ _) in *.
  assert (Hc1 : USER_CACHE st1 !! user
                = Some (fst (prefetch_predictions
                               (PREFETCH_CONFIDENCE_THRESHOLD
                                  (run init_state ops)) now preds c)))
    by (simpl; apply lookup_insert_eq).
  assert (Hp1 : USER_PREDICTIONS st1 !! user = Some preds)
    by (simpl; apply lookup_insert_eq).
  eexists st1, _. split; [done|].
  unfold get_predictions, dashboard.
  rewrite get_user_data_default by apply Hok1.
  rewrite (create_user_known _ _ _ Hc1), Hp1. by split_and!.
Qed.

Lemma predictions_replaced_witness :
  USER_CACHE (run init_state delhi_ops) !! "guest" = Some delhi_cache
  ∧ ∃ st1 d,
      predict_and_prefetch (run init_state delhi_ops) 1100 "guest"
        [no_query_pred; stock_pred] = Some st1
      ∧ get_predictions st1 "guest" = Some (st1, [no_query_pred; stock_pred])
      ∧ dashboard st1 1200 "guest" = Some (st1, d)
      ∧ dash_predictions d = [no_query_pred; stock_pred].
Proof.
  split; [reflexivity|].
  exact (predictions_replaced delhi_ops "guest" delhi_cache
           [no_query_pred; stock_pred] 1100 1200 eq_refl).
Defined.

Lemma find_entry_nil norm_query : find_entry [] norm_query = (None, false, None).
Proof. reflexivity. Qed.

(** X20.  In a state the server reaches, the first search of a user the
    server has not seen goes to the backend: afterwards the user has a cache
    with the one entry just written, a hit log with the one record, no
    predictions, and counters 0, 1, 0; the history given to the thread is
    the query alone. *)
Theorem first_search_of_user (ops : list op) (user query : string) (now : Z) :
  USER_CACHE (run init_state ops) !! user = None →
  ∃ st',
    search (run init_state ops) now query user
    = Some (st', SearchOut ("Backend result for " +:+ query) "backend" [query])
    ∧ USER_CACHE st' !! user
      = Some [(normalize_query query,
               Entry ("Backend result for " +:+ query) now
                 CACHE_EXPIRY_SECONDS "backend" None)]
    ∧ USER_HIT_LOG st' !! user = Some [Hit query "backend" now]
    ∧ USER_PREDICTIONS st' !! user = Some []
    ∧ USER_ANALYTICS st' !! user = Some (Analytics 0 1 0).
Proof.
  intros Hnew. unfold search. rewrite (get_user_data_new _ _ Hnew).
  rewrite (resolve_miss now query [] _ None false None (find_entry_nil _) I).
  eexists. split; [done|]. simpl. rewrite !lookup_insert_eq.
  unfold create_user. rewrite Hnew. simpl. by rewrite lookup_insert_eq.
Qed.

Lemma first_search_of_user_witness :
  USER_CACHE (run init_state delhi_ops) !! "bob" = None
  ∧ ∃ st',
      search (run init_state delhi_ops) 1200 " News " "bob"
      = Some (st', SearchOut "Backend result for  News " "backend" [" News "])
      ∧ USER_CACHE st' !! "bob"
        = Some [(normalize_query " News ",
                 Entry "Backend result for  News " 1200
                   CACHE_EXPIRY_SECONDS "backend" None)]
      ∧ USER_HIT_LOG st' !! "bob" = Some [Hit " News " "backend" 1200]
      ∧ USER_PREDICTIONS st' !! "bob" = Some []
      ∧ USER_ANALYTICS st' !! "bob" = Some (Analytics 0 1 0).
Proof.
  split; [reflexivity|].
  exact (first_search_of_user delhi_ops "bob" " News " 1200 eq_refl).
Defined.

Lemma resolve_effect now query c a c' a' res src :
  cache_ok c → resolve now query c a = (c', a', res, src) →
  (∀ k, k ≠ normalize_query query → dict_get k c' = dict_get k c)
  ∧ (src ≠ "backend" →
     c' = c ∧ ∃ k e, dict_get k c' = Some e ∧ fresh now e = true
                     ∧ res = result e)
  ∧ (src = "backend" →
     res = "Backend result for " +:+ query
     ∧ dict_get (normalize_query query) c'
       = Some (Entry ("Backend result for " +:+ query) now
                 CACHE_EXPIRY_SECONDS "backend" None)).
Proof.
  intros Hc Hres.
  destruct (find_entry c (normalize_query query)) as [[oe fuzzy] key] eqn:Hfind.
  assert (Hmiss : match oe with
                  | Some e => fresh now e = false
                  | None => True
                  end →
                  c' = dict_set (normalize_query query)
                         (backend_entry now ("Backend result for " +:+ query)) c
                  ∧ res = "Backend result for " +:+ query ∧ src = "backend").
  { intros Hstale. rewrite (resolve_miss _ _ _ a _ _ _ Hfind Hstale) in Hres.
    by injection Hres as <- <- <- <-. }
  destruct oe as [e|]; [destruct (fresh now e) eqn:Hfresh|].
  - rewrite (resolve_hit _ _ _ a _ _ _ Hfind Hfresh) in Hres.
    injection Hres as <- <- <- <-.
    destruct (find_entry_elem _ _ _ _ _ Hfind) as [k Hk].
    split_and!; [done| |].
    + intros _. split; [done|]. by exists k, e.
    + intros Hsrc.
      by destruct (hit_source_of_ok fuzzy e query now
                     (cache_ok_get k e c Hc Hk)).
  - destruct (Hmiss eq_refl) as (-> & -> & ->). split_and!; [|done|].
    + intros k Hne. by apply dict_get_set_ne.
    + intros _. split; [done|]. apply dict_get_set_eq.
  - destruct (Hmiss I) as (-> & -> & ->). split_and!; [|done|].
    + intros k Hne. by apply dict_get_set_ne.
    + intros _. split; [done|]. apply dict_get_set_eq.
Qed.

(** X21.  In every state the server reaches, a search touches at most one
    key of its user's cache.  Answered from the cache, it leaves the cache as
    it is and returns the result of an entry that is live at that time, so a
    query served through a close key gets no entry of its own.  Answered by
    the backend, it writes the backend entry at the key of the query and
    leaves every other key as it is. *)
Theorem search_cache_effect (ops : list op) (user query : string) (now : Z) :
  ∃ st' out c',
    search (run init_state ops) now query user = Some (st', out)
    ∧ USER_CACHE st' !! user = Some c'
    ∧ (∀ k, k ≠ normalize_query query →
            dict_get k c'
            = dict_get k (default [] (USER_CACHE (run init_state ops) !! user)))
    ∧ (out_source out ≠ "backend" →
       c' = default [] (USER_CACHE (run init_state ops) !! user)
       ∧ ∃ k e, dict_get k c' = Some e ∧ fresh now e = true
                ∧ out_result out = result e)
    ∧ (out_source out = "backend" →
       out_result out = "Backend result for " +:+ query
       ∧ dict_get (normalize_query query) c'
         = Some (Entry ("Backend result for " +:+ query) now
                   CACHE_EXPIRY_SECONDS "backend" None)).
Proof.
  pose proof (run_ok ops) as Hok.
  rewrite (search_eq _ now query user (proj1 Hok)).
  pose proof (user_cache_ok _ user Hok) as Hc.
  destruct (resolve now query _ _) as [[[c' a'] res] src] eqn:Hres.
  eexists _, _, c'. split; [done|]. simpl.
  split; [apply lookup_insert_eq|].
  by eapply resolve_effect.
Qed.
